(** * abstract-provider: lifecycle handlers of the multi-cloud resources

    A shallow embedding of the Create / Read / Update / Delete handlers of
    the bucket, network, instance, cluster, function and DNS-record
    resources.  Every SDK or runtime call a handler makes is an event
    answered by a backend oracle; a handler is a function from the oracle
    to the calls it made, the diagnostics it reported and the state it
    left in the response. *)

From stdpp Require Import gmap strings list.
From Stdlib Require Import ZArith Ascii String Lia.

Open Scope string_scope.
Open Scope Z_scope.

(** ** Go strings

    A Go string is a sequence of bytes; [len] counts bytes and [s[:n]]
    cuts bytes.  Rocq's [string] is the same thing. *)

Module GoStrings.

Definition bytes (s : string) : list Z :=
    map (fun a => Z.of_N (N_of_ascii a)) (list_ascii_of_string s).

Definition of_bytes (bs : list Z) : string :=
    string_of_list_ascii (map (fun b => ascii_of_N (Z.to_N b)) bs).

  (** [len(s)] *)
Definition len (s : string) : Z := Z.of_nat (String.length s).

  (** [s[:n]], for [n <= len(s)] *)
Definition slice_to (n : nat) (s : string) : string := substring 0 n s.

  (** [strings.HasSuffix] *)
Definition HasSuffix (s suffix : string) : bool :=
    let n := String.length s in
    let k := String.length suffix in
    (k <=? n)%nat && String.eqb (substring (n - k) k s) suffix.

  (** *** UTF-8, as [unicode/utf8] decodes and encodes it *)

Definition RuneError : Z := 65533.
Definition RuneSelf : Z := 128.
Definition MaxRune : Z := 1114111.

Definition between (lo hi b : Z) : bool := (lo <=? b) && (b <=? hi).

  (** [utf8.DecodeRuneInString]: the first rune and its width in bytes; a
      byte that starts no well-formed sequence decodes to [RuneError] with
      width 1. *)
Definition DecodeRune (bs : list Z) : Z * nat :=
    match bs with
    | [] => (RuneError, 0%nat)
    | b0 :: t =>
      if b0 <? RuneSelf then (b0, 1%nat)
      else if between 194 223 b0 then
        match t with
        | b1 :: _ =>
          if between 128 191 b1
          then (Z.lor (Z.shiftl (Z.land b0 31) 6) (Z.land b1 63), 2%nat)
          else (RuneError, 1%nat)
        | _ => (RuneError, 1%nat)
        end
      else if between 224 239 b0 then
        let lo := if b0 =? 224 then 160 else 128 in
        let hi := if b0 =? 237 then 159 else 191 in
        match t with
        | b1 :: b2 :: _ =>
          if between lo hi b1 && between 128 191 b2
          then (Z.lor (Z.shiftl (Z.land b0 15) 12)
                  (Z.lor (Z.shiftl (Z.land b1 63) 6) (Z.land b2 63)), 3%nat)
          else (RuneError, 1%nat)
        | _ => (RuneError, 1%nat)
        end
      else if between 240 244 b0 then
        let lo := if b0 =? 240 then 144 else 128 in
        let hi := if b0 =? 244 then 143 else 191 in
        match t with
        | b1 :: b2 :: b3 :: _ =>
          if between lo hi b1 && between 128 191 b2 && between 128 191 b3
          then (Z.lor (Z.shiftl (Z.land b0 7) 18)
                  (Z.lor (Z.shiftl (Z.land b1 63) 12)
                     (Z.lor (Z.shiftl (Z.land b2 63) 6) (Z.land b3 63))), 4%nat)
          else (RuneError, 1%nat)
        | _ => (RuneError, 1%nat)
        end
      else (RuneError, 1%nat)
    end.

  (** [for _, c := range s]: the runes of [s] in order. *)
Fixpoint runes_fuel (fuel : nat) (bs : list Z) : list Z :=
    match fuel, bs with
    | O, _ | _, [] => []
    | S n, _ => let '(r, w) := DecodeRune bs in r :: runes_fuel n (drop w bs)
    end.

Definition runes (bs : list Z) : list Z := runes_fuel (List.length bs) bs.

  (** [utf8.AppendRune] *)
Definition EncodeRune (r : Z) : list Z :=
    if between 0 127 r then [r]
    else if between 128 2047 r then
      [Z.lor 192 (Z.shiftr r 6); Z.lor 128 (Z.land r 63)]
    else if (r <? 0) || (MaxRune <? r) || between 55296 57343 r then
      [239; 191; 189]
    else if r <=? 65535 then
      [Z.lor 224 (Z.shiftr r 12); Z.lor 128 (Z.land (Z.shiftr r 6) 63);
       Z.lor 128 (Z.land r 63)]
    else
      [Z.lor 240 (Z.shiftr r 18); Z.lor 128 (Z.land (Z.shiftr r 12) 63);
       Z.lor 128 (Z.land (Z.shiftr r 6) 63); Z.lor 128 (Z.land r 63)].

  (** [strings.Map]: every rune of [s] is mapped and written back; a
      negative result drops the rune, and a byte that is no valid UTF-8
      goes through [mapping RuneError]. *)
Definition Map (mapping : Z -> Z) (s : string) : string :=
    of_bytes
      (List.concat (map (fun c => let r := mapping c in
                                  if r <? 0 then [] else EncodeRune r)
                      (runes (bytes s)))).

Definition isUpperByte (b : Z) : bool := between 65 90 b.
Definition isLowerByte (b : Z) : bool := between 97 122 b.

Section CaseTables.

    (** [unicode.To(unicode.LowerCase, r)] and [unicode.To(unicode.UpperCase,
        r)] for a rune above [unicode.MaxASCII]: a lookup in the
        [unicode.CaseRanges] table of the Go distribution. *)
Variable toLowerCase toUpperCase : Z -> Z.

    (** [unicode.ToLower] *)
Definition unicode_ToLower (r : Z) : Z :=
      if r <=? 127 then (if isUpperByte r then r + 32 else r)
      else toLowerCase r.

    (** [unicode.ToUpper] *)
Definition unicode_ToUpper (r : Z) : Z :=
      if r <=? 127 then (if isLowerByte r then r - 32 else r)
      else toUpperCase r.

    (** [strings.ToLower]: ASCII-only strings are lower-cased byte by byte,
        any other string goes through [Map]. *)
Definition ToLower (s : string) : string :=
      let bs := bytes s in
      if forallb (fun b => b <? RuneSelf) bs then
        if existsb isUpperByte bs
        then of_bytes (map (fun b => if isUpperByte b then b + 32 else b) bs)
        else s
      else Map unicode_ToLower s.

    (** [strings.ToUpper] *)
Definition ToUpper (s : string) : string :=
      let bs := bytes s in
      if forallb (fun b => b <? RuneSelf) bs then
        if existsb isLowerByte bs
        then of_bytes (map (fun b => if isLowerByte b then b - 32 else b) bs)
        else s
      else Map unicode_ToUpper s.

End CaseTables.

End GoStrings.


(** ** Attribute maps

    The plan handed to Create and Update, and the state record kept by the
    host, are flat maps from attribute name to a primitive value
    ([map[string]interface{}] in [resp.State.Set]). *)

Inductive Value :=
| VString (s : string)
| VBool (b : bool)
| VInt64 (n : Z).

Abbreviation Attrs := (gmap string Value).

(** [types.String.ValueString]: the empty string for a null, unknown or
    absent attribute. *)
Definition ValueString (m : Attrs) (k : string) : string :=
  match m !! k with Some (VString s) => s | _ => "" end.

(** [types.Bool.ValueBool] *)
Definition ValueBool (m : Attrs) (k : string) : bool :=
  match m !! k with Some (VBool b) => b | _ => false end.

(** [types.Int64.ValueInt64] *)
Definition ValueInt64 (m : Attrs) (k : string) : Z :=
  match m !! k with Some (VInt64 n) => n | _ => 0 end.

(** [types.Int64.IsNull] *)
Definition IsNull (m : Attrs) (k : string) : bool :=
  match m !! k with Some _ => false | None => true end.

(** [aws.ToString]: the empty string for a nil pointer. *)
Definition aws_ToString (p : option string) : string :=
  match p with Some s => s | None => "" end.

(** A diagnostic added with [resp.Diagnostics.AddError]. *)
Record Diagnostic := AddedError { summary : string; detail : string }.

(** ** Calls into the SDKs and the Go runtime

    [Go A] is the pair [(out, err)] of a fallible call: the handlers read
    [out] only when [err == nil]. *)

Inductive Go (A : Type) :=
| Ok (out : A)
| Err (msg : string).
Arguments Ok {A} out.
Arguments Err {A} msg.

Variant VersioningStatus := Enabled | Suspended.
Variant ChangeAction := Upsert | DeleteRecord.
Variant ChangeList := Additions | Deletions.
Variant RecordType := RecordTypeA | RecordTypeCNAME | RecordTypeOther (t : string).
Variant IPAllocationMethod := Dynamic | Static.

(** An Azure long-running operation handle, as a [Begin...] call returns it. *)
Variant Poller := poller.

(** What an Azure management call answers with: the resource's [ID]. *)
Record ARMResource := { ID : option string }.

Inductive AWSCall : Type -> Type :=
(* s3.Client *)
| S3_CreateBucket (bucket : string) (locationConstraint : option string) : AWSCall (Go unit)
| S3_PutBucketVersioning (bucket : string) (status : VersioningStatus) : AWSCall (Go unit)
| S3_HeadBucket (bucket : string) : AWSCall (Go unit)
| S3_DeleteBucket (bucket : string) : AWSCall (Go unit)
(* ec2.Client *)
| EC2_CreateVpc (cidrBlock : string) : AWSCall (Go (option string))
| EC2_CreateTags (resources : list string) (key value : string) : AWSCall (Go unit)
| EC2_DescribeAvailabilityZones : AWSCall (Go (list (option string)))
| EC2_CreateSubnet (vpcId cidrBlock availabilityZone : string) : AWSCall (Go (option string))
| EC2_CreateInternetGateway : AWSCall (Go (option string))
| EC2_AttachInternetGateway (vpcId internetGatewayId : string) : AWSCall (Go unit)
| EC2_DescribeVpcs (vpcIds : list string) (filters : list (string * list string))
  : AWSCall (Go (list (option string)))
| EC2_DescribeSubnets (filters : list (string * list string)) : AWSCall (Go (list (option string)))
| EC2_DetachInternetGateway (internetGatewayId vpcId : string) : AWSCall (Go unit)
| EC2_DeleteInternetGateway (internetGatewayId : string) : AWSCall (Go unit)
| EC2_DeleteSubnet (subnetId : string) : AWSCall (Go unit)
| EC2_DeleteVpc (vpcId : string) : AWSCall (Go unit)
| EC2_RunInstances (imageId instanceType : string) (associatePublicIp : bool)
  : AWSCall (Go (list (option string)))
| EC2_DescribeInstances (instanceIds : list string) : AWSCall (Go (list (list (option string))))
| EC2_TerminateInstances (instanceIds : list string) : AWSCall (Go unit)
(* eks.Client *)
| EKS_CreateCluster (name roleArn : string) (subnetIds : list string) : AWSCall (Go unit)
| EKS_CreateNodegroup (clusterName nodegroupName nodeRole : string) (subnets : list string)
    (desiredSize : Z) (instanceType : string) : AWSCall (Go unit)
| EKS_DescribeCluster (name : string) : AWSCall (Go unit)
| EKS_DeleteNodegroup (clusterName nodegroupName : string) : AWSCall (Go unit)
| EKS_DeleteCluster (name : string) : AWSCall (Go unit)
(* lambda.Client *)
| Lambda_CreateFunction (functionName runtime handler role zipFile : string) : AWSCall (Go unit)
| Lambda_GetFunction (functionName : string) : AWSCall (Go unit)
| Lambda_DeleteFunction (functionName : string) : AWSCall (Go unit)
(* route53.Client *)
| Route53_ListHostedZonesByName (dnsName : string) : AWSCall (Go (list (option string)))
| Route53_ChangeResourceRecordSets (hostedZoneId : string) (action : ChangeAction)
    (name rrType : string) (ttl : Z) (value : string) : AWSCall (Go unit)
| Route53_ListResourceRecordSets (hostedZoneId startRecordName startRecordType : string)
  : AWSCall (Go (list string)).

Inductive AzureCall : Type -> Type :=
(* armresources.ResourceGroupsClient *)
| ResourceGroups_CreateOrUpdate (resourceGroupName location : string) : AzureCall (Go unit)
(* armstorage.AccountsClient *)
| Accounts_BeginCreate (resourceGroupName accountName location : string) : AzureCall (Go Poller)
| Accounts_ListKeys (resourceGroupName accountName : string) : AzureCall (Go (list (option string)))
| Accounts_Delete (resourceGroupName accountName : string) : AzureCall (Go unit)
(* azblob *)
| Blob_NewSharedKeyCredential (accountName accountKey : string) : AzureCall (Go unit)
| Blob_NewClientWithSharedKeyCredential (serviceURL : string) : AzureCall (Go unit)
| Blob_CreateContainer (serviceURL containerName : string) : AzureCall (Go unit)
| Blob_GetProperties (serviceURL containerName : string) : AzureCall (Go unit)
| Blob_DeleteContainer (serviceURL containerName : string) : AzureCall (Go unit)
(* armnetwork.VirtualNetworksClient *)
| VirtualNetworks_BeginCreateOrUpdate (resourceGroupName virtualNetworkName location
    addressPrefix : string) : AzureCall (Go Poller)
| VirtualNetworks_Get (resourceGroupName virtualNetworkName : string) : AzureCall (Go ARMResource)
| VirtualNetworks_BeginDelete (resourceGroupName virtualNetworkName : string) : AzureCall (Go Poller)
(* armnetwork.SubnetsClient *)
| Subnets_Get (resourceGroupName virtualNetworkName subnetName : string) : AzureCall (Go ARMResource)
| Subnets_BeginCreateOrUpdate (resourceGroupName virtualNetworkName subnetName
    addressPrefix : string) : AzureCall (Go Poller)
(* armnetwork.PublicIPAddressesClient, InterfacesClient *)
| PublicIPAddresses_BeginCreateOrUpdate (resourceGroupName publicIPAddressName location : string)
    (allocation : IPAllocationMethod) : AzureCall (Go Poller)
| Interfaces_BeginCreateOrUpdate (resourceGroupName networkInterfaceName location
    subnetID publicIPAddressID : string) : AzureCall (Go Poller)
(* armcompute.VirtualMachinesClient *)
| VirtualMachines_BeginCreateOrUpdate (resourceGroupName vmName location vmSize
    networkInterfaceID computerName : string) : AzureCall (Go Poller)
| VirtualMachines_Get (resourceGroupName vmName : string) : AzureCall (Go ARMResource)
| VirtualMachines_BeginDelete (resourceGroupName vmName : string) : AzureCall (Go Poller)
(* armcontainerservice.ManagedClustersClient *)
| ManagedClusters_BeginCreateOrUpdate (resourceGroupName resourceName location dnsPrefix : string)
    (count : Z) (vmSize : string) : AzureCall (Go Poller)
| ManagedClusters_Get (resourceGroupName resourceName : string) : AzureCall (Go ARMResource)
| ManagedClusters_BeginDelete (resourceGroupName resourceName : string) : AzureCall (Go Poller)
(* armappservice.PlansClient, WebAppsClient *)
| Plans_BeginCreateOrUpdate (resourceGroupName name location : string) : AzureCall (Go Poller)
| Plans_Delete (resourceGroupName name : string) : AzureCall (Go unit)
| WebApps_BeginCreateOrUpdate (resourceGroupName name location serverFarmID : string)
  : AzureCall (Go Poller)
| WebApps_Get (resourceGroupName name : string) : AzureCall (Go ARMResource)
| WebApps_Delete (resourceGroupName name : string) : AzureCall (Go unit)
(* armdns.ZonesClient, RecordSetsClient *)
| Zones_CreateOrUpdate (resourceGroupName zoneName : string) : AzureCall (Go unit)
| RecordSets_CreateOrUpdate (resourceGroupName zoneName relativeRecordSetName : string)
    (recordType : RecordType) (ttl : Z) (value : string) : AzureCall (Go unit)
| RecordSets_Get (resourceGroupName zoneName relativeRecordSetName : string)
    (recordType : RecordType) : AzureCall (Go ARMResource)
| RecordSets_Delete (resourceGroupName zoneName relativeRecordSetName : string)
    (recordType : RecordType) : AzureCall (Go unit)
(* runtime.Poller.PollUntilDone, on the handle of the given Begin call *)
| PollUntilDone (begin : AzureCall (Go Poller)) : AzureCall (Go ARMResource).

Inductive GCPCall : Type -> Type :=
(* storage.Client *)
| Storage_BucketCreate (bucket projectID location : string) (versioningEnabled : bool)
  : GCPCall (Go unit)
| Storage_BucketAttrs (bucket : string) : GCPCall (Go unit)
| Storage_BucketUpdate (bucket : string) (versioningEnabled : bool) : GCPCall (Go unit)
| Storage_BucketDelete (bucket : string) : GCPCall (Go unit)
(* compute.Service *)
| Networks_Insert (project name : string) (autoCreateSubnetworks : bool) : GCPCall (Go unit)
| Networks_Get (project network : string) : GCPCall (Go unit)
| Networks_Delete (project network : string) : GCPCall (Go unit)
| Subnetworks_Insert (project region name ipCidrRange network : string) : GCPCall (Go unit)
| Subnetworks_Delete (project region subnetwork : string) : GCPCall (Go unit)
| Instances_Insert (project zone name machineType sourceImage network : string)
    (externalAccess : bool) : GCPCall (Go unit)
| Instances_Get (project zone instance : string) : GCPCall (Go unit)
| Instances_Delete (project zone instance : string) : GCPCall (Go unit)
(* container.Service: the operation's Name comes back from Create and
   Delete, its Status from Operations.Get *)
| Clusters_Create (parent name : string) (initialNodeCount : Z) (machineType : string)
  : GCPCall (Go string)
| Clusters_Get (name : string) : GCPCall (Go unit)
| Clusters_Delete (name : string) : GCPCall (Go string)
| Container_OperationsGet (name : string) : GCPCall (Go string)
(* cloudfunctions.Service: Operations.Get answers the operation's Done *)
| Functions_GenerateUploadUrl (parent : string) : GCPCall (Go string)
| Functions_Create (parent name entryPoint runtime sourceUploadUrl : string) : GCPCall (Go string)
| Functions_Get (name : string) : GCPCall (Go unit)
| Functions_Delete (name : string) : GCPCall (Go string)
| Functions_OperationsGet (name : string) : GCPCall (Go bool)
(* dns.Service *)
| ManagedZones_Get (project managedZone : string) : GCPCall (Go unit)
| ManagedZones_Create (project name dnsName : string) : GCPCall (Go unit)
| Changes_Create (project managedZone : string) (change : ChangeList)
    (name rrType : string) (ttl : Z) (rrdatas : list string) : GCPCall (Go unit)
| ResourceRecordSets_List (project managedZone name rrType : string) : GCPCall (Go (list string)).

Inductive HostCall : Type -> Type :=
| os_Getenv (key : string) : HostCall string
| ioutil_ReadFile (filename : string) : HostCall (Go string)
| http_NewRequestWithContext (method url body : string) : HostCall (Go unit)
| http_Do (method url contentType body : string) : HostCall (Go unit)
| time_Sleep (seconds : Z) : HostCall unit.

Inductive Call : Type -> Type :=
| AWS {T} (c : AWSCall T) : Call T
| Azure {T} (c : AzureCall T) : Call T
| GCP {T} (c : GCPCall T) : Call T
| Host {T} (c : HostCall T) : Call T.

(** One entry of the call log: the call and what it answered. *)
Inductive Event : Type :=
| Answered : forall T : Type, Call T -> T -> Event.
Arguments Answered {T} c answer.

(** The backends, the SDKs between and the Go runtime, seen from a
    handler: what a call answers, given everything that happened before. *)
Definition Backend := forall T : Type, list Event -> Call T -> T.

(** ** The handler monad

    A handler runs against a backend with a context: the resource struct
    it is a method of ([r]), the response it fills in ([resp.State],
    [resp.Diagnostics]) and the log of calls made so far.  It can fall
    through to the next statement, [return] early, or panic on a nil
    dereference; a polling loop that is cut off reports [Exhausted]. *)

Record Ctx (R : Type) := MkCtx {
  self : R;
  State : option Attrs;
  Diagnostics : list Diagnostic;
  log : list Event
}.
Arguments MkCtx {R}.
Arguments self {R}.
Arguments State {R}.
Arguments Diagnostics {R}.
Arguments log {R}.

Inductive Flow (A : Type) :=
| Next (a : A)
| Returned
| Panicked
| Exhausted.
Arguments Next {A} a.
Arguments Returned {A}.
Arguments Panicked {A}.
Arguments Exhausted {A}.

Definition M (R A : Type) := Backend -> Ctx R -> Flow A * Ctx R.

Section Monad.
Context {R : Type}.

Definition ret {A} (a : A) : M R A := fun _ c => (Next a, c).

Definition bind {A B} (m : M R A) (k : A -> M R B) : M R B :=
    fun b c =>
      match m b c with
      | (Next a, c') => k a b c'
      | (Returned, c') => (Returned, c')
      | (Panicked, c') => (Panicked, c')
      | (Exhausted, c') => (Exhausted, c')
      end.

  (** An SDK or runtime call: the backend answers, the log grows. *)
Definition call {T} (c : Call T) : M R T :=
    fun b ctx =>
      let a := b T (log ctx) c in
      (Next a, MkCtx (self ctx) (State ctx) (Diagnostics ctx) (log ctx ++ [Answered c a])).

  (** [resp.Diagnostics.AddError(summary, detail)] *)
Definition AddError (s d : string) : M R unit :=
    fun _ ctx =>
      (Next tt, MkCtx (self ctx) (State ctx) (Diagnostics ctx ++ [AddedError s d]) (log ctx)).

  (** [resp.State.Set(ctx, attrs)] *)
Definition State_Set (attrs : list (string * Value)) : M R unit :=
    fun _ ctx =>
      (Next tt, MkCtx (self ctx) (Some (list_to_map attrs)) (Diagnostics ctx) (log ctx)).

  (** [resp.State.RemoveResource(ctx)] *)
Definition State_RemoveResource : M R unit :=
    fun _ ctx => (Next tt, MkCtx (self ctx) None (Diagnostics ctx) (log ctx)).

  (** [return] *)
Definition return_ {A} : M R A := fun _ ctx => (Returned, ctx).

  (** a nil pointer dereference *)
Definition panic {A} : M R A := fun _ ctx => (Panicked, ctx).

Definition exhausted {A} : M R A := fun _ ctx => (Exhausted, ctx).

Definition receiver : M R R := fun _ ctx => (Next (self ctx), ctx).

Definition set_receiver (r : R) : M R unit :=
    fun _ ctx => (Next tt, MkCtx r (State ctx) (Diagnostics ctx) (log ctx)).

  (** [*p] *)
Definition deref {A} (p : option A) : M R A :=
    match p with Some a => ret a | None => panic end.

  (** [if cond { body }] *)
Definition when (cond : bool) (body : M R unit) : M R unit :=
    if cond then body else ret tt.

End Monad.

Notation "'let*' x ':=' m 'in' k" := (bind m (fun x => k))
  (at level 10, x name, m at level 100, k at level 200).
Notation "m ';;' k" := (bind m (fun _ => k))
  (at level 100, k at level 200, right associativity).

(** Go's [==] on strings *)
Infix "==" := String.eqb (at level 70, no associativity).

(** [resp.Diagnostics.HasError()] *)
Definition HasError (ds : list Diagnostic) : bool :=
  match ds with [] => false | _ => true end.

(** A client pointer of the resource struct: nil until the provider is
    configured for that cloud. *)
Variant ClientPtr := NilClient | LiveClient.

Definition isNil (p : ClientPtr) : bool :=
  match p with NilClient => true | LiveClient => false end.

(** The host's invocation of a handler: a fresh response whose state is
    [prior] (nothing for Create, the stored record otherwise), after the
    calls in [history]. *)
Definition invoke {R} (h : M R unit) (backend : Backend) (r : R)
    (prior : option Attrs) (history : list Event) : Flow unit * Ctx R :=
  h backend (MkCtx r prior [] history).

(** ** shared.ProviderConfig (provider/shared/config.go)

    What the provider hands to every resource: the clients of the three
    clouds and the settings that go with them.  [AzureCred] is an
    interface value: nil, or a pointer that may itself be nil. *)

Variant TokenCredential := NoCredential | CredentialPtr (p : ClientPtr).

Module shared.

Record ProviderConfig := {
    AWSS3 : ClientPtr;
    AWSEC2 : ClientPtr;
    AWSEKS : ClientPtr;
    AWSLambda : ClientPtr;
    AWSRDS : ClientPtr;
    AWSSQS : ClientPtr;
    AWSSM : ClientPtr;
    AWSECR : ClientPtr;
    AWSECS : ClientPtr;
    AWSELB : ClientPtr;
    AWSRoute53 : ClientPtr;

    AzureCred : TokenCredential;
    AzureSubID : string;
    AzureLocation : string;
    AzureRGClient : ClientPtr;
    AzureStorageAcct : ClientPtr;
    AzureBlobContainers : ClientPtr;
    AzureVNetClient : ClientPtr;
    AzureSubnetClient : ClientPtr;
    AzureNICClient : ClientPtr;
    AzurePIPClient : ClientPtr;
    AzureLBClient : ClientPtr;
    AzureVMClient : ClientPtr;
    AzureAKSClient : ClientPtr;
    AzureWebClient : ClientPtr;
    AzurePlanClient : ClientPtr;
    AzureMySQLClient : ClientPtr;
    AzurePostgresClient : ClientPtr;
    AzureRegistryClient : ClientPtr;
    AzureContainerClient : ClientPtr;
    AzureDNSZoneClient : ClientPtr;
    AzureDNSRecordClient : ClientPtr;

    GCPStorage : ClientPtr;
    GCPCompute : ClientPtr;
    GCPGKE : ClientPtr;
    GCPFunctions : ClientPtr;
    GCPCloudSQL : ClientPtr;
    GCPDNS : ClientPtr;
    GCPSecrets : ClientPtr;
    GCPProject : string;
    GCPRegion : string
  }.

End shared.

(** [req.ProviderData] of a resource's Configure: nil, a
    [*shared.ProviderConfig] (itself nil or not), or a value of another
    type. *)
Variant ProviderData :=
| NoData
| ConfigPtr (cfg : option shared.ProviderConfig)
| OtherData.

(** ** BucketResource (provider/resources/bucket.go) *)

Module Bucket.

Record Resource := {
    s3 : ClientPtr;
    azureRG : ClientPtr;
    azureAcct : ClientPtr;
    azureCont : ClientPtr;
    azureLoc : string;
    gcpStorage : ClientPtr;
    gcpProject : string;
    gcpRegion : string
  }.

Definition with_azureLoc (r : Resource) (loc : string) : Resource :=
    {| s3 := s3 r; azureRG := azureRG r; azureAcct := azureAcct r;
       azureCont := azureCont r; azureLoc := loc; gcpStorage := gcpStorage r;
       gcpProject := gcpProject r; gcpRegion := gcpRegion r |}.

Section WithCaseTable.
Variable toLowerCase : Z -> Z.

    (** The storage account name of the Azure branch: the bucket name
        lower-cased and cut to 24 bytes. *)
Definition acctName (name : string) : string :=
      let acctName := GoStrings.ToLower toLowerCase name in
      if 24 <? GoStrings.len acctName then GoStrings.slice_to 24 acctName else acctName.

Definition blobURL (acct : string) : string :=
      "https://" ++ acct ++ ".blob.core.windows.net/".

Definition Create (plan : Attrs) : M Resource unit :=
      let Name := ValueString plan "name" in
      let Type_ := ValueString plan "type" in
      let Region := ValueString plan "region" in
      let Versioning := ValueBool plan "versioning" in
      if Type_ == "aws" then
        let* r := receiver in
        (* r.s3 gets no nil test in this file: a nil client panics *)
        if isNil (s3 r) then panic
        else
          let constraint := if Region == "" then None else Some Region in
          let* res := call (AWS (S3_CreateBucket Name constraint)) in
          match res with
          | Err e => AddError "aws create" e ;; return_
          | Ok _ =>
            when Versioning
              (let* res := call (AWS (S3_PutBucketVersioning Name Enabled)) in
               match res with
               | Err e => AddError "aws versioning" e ;; return_
               | Ok _ => ret tt
               end) ;;
            State_Set [("id", VString Name); ("name", VString Name); ("type", VString Type_);
                       ("region", VString Region); ("versioning", VBool Versioning)]
          end
      else if Type_ == "azure" then
        let* r := receiver in
        if isNil (azureAcct r) || isNil (azureCont r) || isNil (azureRG r) then
          AddError "azure" "missing client" ;; return_
        else
          let rgName := "abstract-rg" in
          when ((azureLoc r == "") && negb (Region == ""))
            (set_receiver (with_azureLoc r Region)) ;;
          let* r := receiver in
          let* res := call (Azure (ResourceGroups_CreateOrUpdate rgName (azureLoc r))) in
          match res with
          | Err e => AddError "azure rg" e ;; return_
          | Ok _ =>
            let acct := acctName Name in
            let begin := Accounts_BeginCreate rgName acct (azureLoc r) in
            let* res := call (Azure begin) in
            let* res := match res with
                        | Ok _ => call (Azure (PollUntilDone begin))
                        | Err e => ret (Err e)
                        end in
            match res with
            | Err e => AddError "azure create account" e ;; return_
            | Ok _ =>
              let* keys := call (Azure (Accounts_ListKeys rgName acct)) in
              match keys with
              | Err _ | Ok [] => AddError "azure keys" "unable to get account key" ;; return_
              | Ok (k :: _) =>
                let* key := deref k in
                let* res := call (Azure (Blob_NewSharedKeyCredential acct key)) in
                match res with
                | Err e => AddError "azure cred" e ;; return_
                | Ok _ =>
                  let* res := call (Azure (Blob_NewClientWithSharedKeyCredential (blobURL acct))) in
                  match res with
                  | Err e => AddError "azure svc" e ;; return_
                  | Ok _ =>
                    let* res := call (Azure (Blob_CreateContainer (blobURL acct) Name)) in
                    match res with
                    | Err e => AddError "azure container" e ;; return_
                    | Ok _ =>
                      State_Set [("id", VString Name); ("name", VString Name);
                                 ("type", VString Type_); ("region", VString (azureLoc r));
                                 ("versioning", VBool Versioning); ("account", VString acct);
                                 ("resource_group", VString rgName)]
                    end
                  end
                end
              end
            end
          end
      else if Type_ == "gcp" then
        let* r := receiver in
        if isNil (gcpStorage r) then AddError "gcp" "missing client" ;; return_
        else
          let region := if Region == "" then gcpRegion r else Region in
          let* res := call (GCP (Storage_BucketCreate Name (gcpProject r) region Versioning)) in
          match res with
          | Err e => AddError "gcp create" e ;; return_
          | Ok _ =>
            State_Set [("id", VString Name); ("name", VString Name); ("type", VString Type_);
                       ("region", VString region); ("versioning", VBool Versioning);
                       ("project", VString (gcpProject r))]
          end
      else
        AddError "unsupported cloud" "only aws implemented".

End WithCaseTable.

Definition Read (state : Attrs) : M Resource unit :=
    let ID := ValueString state "id" in
    let Type_ := ValueString state "type" in
    let Account := ValueString state "account" in
    let ResourceGroup := ValueString state "resource_group" in
    if Type_ == "aws" then
      let* r := receiver in
      if isNil (s3 r) then panic
      else
        let* res := call (AWS (S3_HeadBucket ID)) in
        match res with
        | Err e => AddError "aws read" e ;; State_RemoveResource
        | Ok _ => ret tt
        end
    else if Type_ == "azure" then
      let* r := receiver in
      if isNil (azureAcct r) || isNil (azureCont r) then
        AddError "azure" "missing client" ;; return_
      else
        let* keys := call (Azure (Accounts_ListKeys ResourceGroup Account)) in
        match keys with
        | Err _ | Ok [] =>
          AddError "azure keys" "unable to get account key" ;; State_RemoveResource ;; return_
        | Ok (k :: _) =>
          let* key := deref k in
          let* res := call (Azure (Blob_NewSharedKeyCredential Account key)) in
          match res with
          | Err e => AddError "azure cred" e ;; return_
          | Ok _ =>
            let* res := call (Azure (Blob_NewClientWithSharedKeyCredential (blobURL Account))) in
            match res with
            | Err e => AddError "azure svc" e ;; return_
            | Ok _ =>
              let* res := call (Azure (Blob_GetProperties (blobURL Account) ID)) in
              match res with
              | Err e => AddError "azure read" e ;; State_RemoveResource
              | Ok _ => ret tt
              end
            end
          end
        end
    else if Type_ == "gcp" then
      let* r := receiver in
      if isNil (gcpStorage r) then AddError "gcp" "missing client" ;; return_
      else
        let* res := call (GCP (Storage_BucketAttrs ID)) in
        match res with
        | Err e => AddError "gcp read" e ;; State_RemoveResource
        | Ok _ => ret tt
        end
    else ret tt.

Definition Update (state plan : Attrs) : M Resource unit :=
    let Name := ValueString plan "name" in
    let Type_ := ValueString plan "type" in
    let Versioning := ValueBool plan "versioning" in
    if Type_ == "aws" then
      let* r := receiver in
      if isNil (s3 r) then panic
      else
        let status := if Versioning then Enabled else Suspended in
        let* res := call (AWS (S3_PutBucketVersioning Name status)) in
        match res with
        | Err e => AddError "aws update" e ;; return_
        | Ok _ => ret tt
        end
    else if Type_ == "gcp" then
      let* r := receiver in
      if isNil (gcpStorage r) then AddError "gcp" "missing client" ;; return_
      else
        let* res := call (GCP (Storage_BucketUpdate Name Versioning)) in
        match res with
        | Err e => AddError "gcp update" e ;; return_
        | Ok _ => ret tt
        end
    else ret tt.

Definition Delete (state : Attrs) : M Resource unit :=
    let ID := ValueString state "id" in
    let Type_ := ValueString state "type" in
    let Account := ValueString state "account" in
    let ResourceGroup := ValueString state "resource_group" in
    if Type_ == "aws" then
      let* r := receiver in
      if isNil (s3 r) then panic
      else
        let* res := call (AWS (S3_DeleteBucket ID)) in
        match res with
        | Err e => AddError "aws delete" e
        | Ok _ => ret tt
        end
    else if Type_ == "azure" then
      let* r := receiver in
      if isNil (azureAcct r) || isNil (azureCont r) then
        AddError "azure" "missing client" ;; return_
      else
        let* keys := call (Azure (Accounts_ListKeys ResourceGroup Account)) in
        match keys with
        | Err _ | Ok [] => AddError "azure keys" "unable to get account key" ;; return_
        | Ok (k :: _) =>
          let* key := deref k in
          let* res := call (Azure (Blob_NewSharedKeyCredential Account key)) in
          match res with
          | Err e => AddError "azure cred" e ;; return_
          | Ok _ =>
            let* res := call (Azure (Blob_NewClientWithSharedKeyCredential (blobURL Account))) in
            match res with
            | Err e => AddError "azure svc" e ;; return_
            | Ok _ =>
              let* res := call (Azure (Blob_DeleteContainer (blobURL Account) ID)) in
              match res with
              | Err e => AddError "azure delete" e
              | Ok _ => ret tt
              end ;;
              (* also delete storage account *)
              let* res := call (Azure (Accounts_Delete ResourceGroup Account)) in
              match res with
              | Err e => AddError "azure delete account" e
              | Ok _ => ret tt
              end
            end
          end
        end
    else if Type_ == "gcp" then
      let* r := receiver in
      if isNil (gcpStorage r) then AddError "gcp" "missing client" ;; return_
      else
        let* res := call (GCP (Storage_BucketDelete ID)) in
        match res with
        | Err e => AddError "gcp delete" e
        | Ok _ => ret tt
        end
    else ret tt.

  (** The struct's [azureCred] and [azureSubID], which no handler reads,
      are not in [Resource]. *)
Definition Configure (ProviderData : ProviderData) : M Resource unit :=
    match ProviderData with
    | NoData => return_
    | OtherData => AddError "invalid provider data" "" ;; return_
    | ConfigPtr cfg =>
      let* cfg := deref cfg in
      set_receiver
        {| s3 := shared.AWSS3 cfg;
           azureRG := shared.AzureRGClient cfg;
           azureAcct := shared.AzureStorageAcct cfg;
           azureCont := shared.AzureBlobContainers cfg;
           azureLoc := shared.AzureLocation cfg;
           gcpStorage := shared.GCPStorage cfg;
           gcpProject := shared.GCPProject cfg;
           gcpRegion := shared.GCPRegion cfg |}
    end.

End Bucket.

(** ** NetworkResource (provider/resources/network.go) *)

Module Network.

Record Resource := {
    ec2 : ClientPtr;
    azureV : ClientPtr;
    azureS : ClientPtr;
    azureRG : ClientPtr;
    azureLoc : string;
    gcp : ClientPtr;
    gcpProj : string;
    gcpRegion : string
  }.

Definition with_azureLoc (r : Resource) (loc : string) : Resource :=
    {| ec2 := ec2 r; azureV := azureV r; azureS := azureS r; azureRG := azureRG r;
       azureLoc := loc; gcp := gcp r; gcpProj := gcpProj r; gcpRegion := gcpRegion r |}.

Definition Create (plan : Attrs) : M Resource unit :=
    let Name := ValueString plan "name" in
    let CIDR := ValueString plan "cidr" in
    let Type_ := ValueString plan "type" in
    let* r := receiver in
    if Type_ == "aws" then
      if isNil (ec2 r) then AddError "missing AWS client" "" ;; return_
      else
        let cidr := if CIDR == "" then "10.0.0.0/16" else CIDR in
        let* vpcOut := call (AWS (EC2_CreateVpc cidr)) in
        match vpcOut with
        | Err e => AddError "aws create vpc" e ;; return_
        | Ok vpc =>
          let vpcID := aws_ToString vpc in
          when (negb (Name == ""))
            (let* res := call (AWS (EC2_CreateTags [vpcID] "Name" Name)) in
             match res with
             | Err e => AddError "aws tag vpc" e ;; return_
             | Ok _ => ret tt
             end) ;;
          let* azs := call (AWS EC2_DescribeAvailabilityZones) in
          match azs with
          | Err _ | Ok [] =>
            AddError "aws zones" "unable to determine availability zone" ;; return_
          | Ok (z :: _) =>
            let zone := aws_ToString z in
            let* subnetOut := call (AWS (EC2_CreateSubnet vpcID cidr zone)) in
            match subnetOut with
            | Err e => AddError "aws create subnet" e ;; return_
            | Ok sn =>
              let subnetID := aws_ToString sn in
              let* igwOut := call (AWS EC2_CreateInternetGateway) in
              match igwOut with
              | Err e => AddError "aws create igw" e ;; return_
              | Ok gw =>
                let gatewayID := aws_ToString gw in
                let* res := call (AWS (EC2_AttachInternetGateway vpcID gatewayID)) in
                match res with
                | Err e => AddError "aws attach igw" e ;; return_
                | Ok _ =>
                  State_Set [("id", VString vpcID); ("name", VString Name);
                             ("cidr", VString cidr); ("type", VString Type_);
                             ("subnet_id", VString subnetID);
                             ("gateway_id", VString gatewayID)] ;;
                  return_
                end
              end
            end
          end
        end
    else if Type_ == "azure" then
      if isNil (azureV r) || isNil (azureS r) || isNil (azureRG r) then
        AddError "azure" "missing client" ;; return_
      else
        let cidr := if CIDR == "" then "10.0.0.0/16" else CIDR in
        let rgName := "abstract-rg" in
        when (azureLoc r == "") (set_receiver (with_azureLoc r "eastus")) ;;
        let* r := receiver in
        let* res := call (Azure (ResourceGroups_CreateOrUpdate rgName (azureLoc r))) in
        match res with
        | Err e => AddError "azure rg" e ;; return_
        | Ok _ =>
          let vnetBegin := VirtualNetworks_BeginCreateOrUpdate rgName Name (azureLoc r) cidr in
          let* res := call (Azure vnetBegin) in
          let* res := match res with
                      | Ok _ => call (Azure (PollUntilDone vnetBegin))
                      | Err e => ret (Err e)
                      end in
          match res with
          | Err e => AddError "azure create vnet" e ;; return_
          | Ok vnetResp =>
            let vnetID := match ID vnetResp with Some i => i | None => "" end in
            let subnetBegin := Subnets_BeginCreateOrUpdate rgName Name "default" cidr in
            let* res := call (Azure subnetBegin) in
            let* res := match res with
                        | Ok _ => call (Azure (PollUntilDone subnetBegin))
                        | Err e => ret (Err e)
                        end in
            match res with
            | Err e => AddError "azure create subnet" e ;; return_
            | Ok subnetResp =>
              let subnetID := match ID subnetResp with Some i => i | None => "" end in
              State_Set [("id", VString vnetID); ("name", VString Name);
                         ("cidr", VString cidr); ("type", VString Type_);
                         ("subnet_id", VString subnetID)] ;;
              return_
            end
          end
        end
    else if Type_ == "gcp" then
      if isNil (gcp r) then AddError "gcp" "missing client" ;; return_
      else
        let name := if Name == "" then "abstract-network" else Name in
        let cidr := CIDR in
        let* res := call (GCP (Networks_Insert (gcpProj r) name (cidr == ""))) in
        match res with
        | Err e => AddError "gcp create network" e ;; return_
        | Ok _ =>
          let* subnetID :=
            if negb (cidr == "") then
              let snName := name ++ "-subnet" in
              let region := if gcpRegion r == "" then "us-central1" else gcpRegion r in
              let* res := call (GCP (Subnetworks_Insert (gcpProj r) region snName cidr
                                       ("projects/" ++ gcpProj r ++ "/global/networks/" ++ name))) in
              match res with
              | Err e => AddError "gcp create subnet" e ;; return_
              | Ok _ => ret snName
              end
            else ret "" in
          State_Set [("id", VString name); ("name", VString name); ("cidr", VString cidr);
                     ("type", VString Type_); ("subnet_id", VString subnetID)] ;;
          return_
        end
    else
      AddError "unsupported cloud" "only aws and azure implemented" ;; return_.

Definition Read (state : Attrs) : M Resource unit :=
    let ID := ValueString state "id" in
    let Type_ := ValueString state "type" in
    let* r := receiver in
    if Type_ == "aws" then
      if isNil (ec2 r) then return_
      else
        let* out := call (AWS (EC2_DescribeVpcs [ID] [])) in
        match out with
        | Err _ | Ok [] => State_RemoveResource
        | Ok (_ :: _) => ret tt
        end
    else if Type_ == "azure" then
      if isNil (azureV r) then return_
      else
        let* res := call (Azure (VirtualNetworks_Get "abstract-rg" ID)) in
        match res with
        | Err _ => State_RemoveResource
        | Ok _ => ret tt
        end
    else if Type_ == "gcp" then
      if isNil (gcp r) then return_
      else
        let* res := call (GCP (Networks_Get (gcpProj r) ID)) in
        match res with
        | Err _ => State_RemoveResource
        | Ok _ => ret tt
        end
    else ret tt.

Definition Update (state plan : Attrs) : M Resource unit := ret tt.

Definition Delete (state : Attrs) : M Resource unit :=
    let ID := ValueString state "id" in
    let Type_ := ValueString state "type" in
    let SubnetID := ValueString state "subnet_id" in
    let GatewayID := ValueString state "gateway_id" in
    let* r := receiver in
    if Type_ == "aws" then
      if isNil (ec2 r) then return_
      else
        when (negb (GatewayID == ""))
          (call (AWS (EC2_DetachInternetGateway GatewayID ID)) ;;
           call (AWS (EC2_DeleteInternetGateway GatewayID)) ;;
           ret tt) ;;
        when (negb (SubnetID == ""))
          (call (AWS (EC2_DeleteSubnet SubnetID)) ;; ret tt) ;;
        let* res := call (AWS (EC2_DeleteVpc ID)) in
        match res with
        | Err e => AddError "aws delete vpc" e
        | Ok _ => ret tt
        end
    else if Type_ == "azure" then
      if isNil (azureV r) then return_
      else
        let begin := VirtualNetworks_BeginDelete "abstract-rg" ID in
        let* res := call (Azure begin) in
        let* res := match res with
                    | Ok _ => call (Azure (PollUntilDone begin))
                    | Err e => ret (Err e)
                    end in
        match res with
        | Err e => AddError "azure delete vnet" e
        | Ok _ => ret tt
        end
    else if Type_ == "gcp" then
      if isNil (gcp r) then return_
      else
        when (negb (SubnetID == ""))
          (call (GCP (Subnetworks_Delete (gcpProj r) (gcpRegion r) SubnetID)) ;; ret tt) ;;
        let* res := call (GCP (Networks_Delete (gcpProj r) ID)) in
        match res with
        | Err e => AddError "gcp delete network" e
        | Ok _ => ret tt
        end
    else ret tt.

  (** The struct's [azureCred], which no handler reads, is not in
      [Resource]. *)
Definition Configure (ProviderData : ProviderData) : M Resource unit :=
    match ProviderData with
    | NoData => return_
    | OtherData => AddError "invalid provider data" "" ;; return_
    | ConfigPtr cfg =>
      let* cfg := deref cfg in
      set_receiver
        {| ec2 := shared.AWSEC2 cfg;
           azureV := shared.AzureVNetClient cfg;
           azureS := shared.AzureSubnetClient cfg;
           azureRG := shared.AzureRGClient cfg;
           azureLoc := shared.AzureLocation cfg;
           gcp := shared.GCPCompute cfg;
           gcpProj := shared.GCPProject cfg;
           gcpRegion := shared.GCPRegion cfg |}
    end.

End Network.

(** ** InstanceResource

    The size identifiers are constants of the AWS and Azure SDKs
    ([ec2types.InstanceTypeT3Small], ...,
    [armcompute.VirtualMachineSizeTypesStandardB1S], ...); the handlers
    only name them. *)

Record SDKConstants := {
  InstanceTypeT3Small : string;
  InstanceTypeT3Medium : string;
  InstanceTypeT3Large : string;
  VirtualMachineSizeTypesStandardB1S : string;
  VirtualMachineSizeTypesStandardB2S : string;
  VirtualMachineSizeTypesStandardB4Ms : string
}.

Module Instance.

Record Resource := {
    ec2 : ClientPtr;
    azureVM : ClientPtr;
    azureNIC : ClientPtr;
    azurePIP : ClientPtr;
    azureRG : ClientPtr;
    azureVNet : ClientPtr;
    azureSub : ClientPtr;
    azureLoc : string;
    gcp : ClientPtr;
    gcpProj : string;
    gcpRegion : string
  }.

Definition with_azureLoc (r : Resource) (loc : string) : Resource :=
    {| ec2 := ec2 r; azureVM := azureVM r; azureNIC := azureNIC r; azurePIP := azurePIP r;
       azureRG := azureRG r; azureVNet := azureVNet r; azureSub := azureSub r;
       azureLoc := loc; gcp := gcp r; gcpProj := gcpProj r; gcpRegion := gcpRegion r |}.

  (** The zone of the GCP branches of Create, Read and Delete. *)
Definition gcpZone (r : Resource) (Region : string) : string :=
    let zone := Region in
    let zone := if zone == "" then gcpRegion r else zone in
    if zone == "" then "us-central1-a" else zone.

Section WithSDK.
Variable toLowerCase : Z -> Z.
Variable sdk : SDKConstants.

    (** [plan.Size] to the EC2 instance type (Create, case "aws"). *)
Definition instanceType (Size : string) : string :=
      let size := if Size == "" then "small" else Size in
      let lower := GoStrings.ToLower toLowerCase size in
      if lower == "small" then InstanceTypeT3Small sdk
      else if lower == "medium" then InstanceTypeT3Medium sdk
      else if lower == "large" then InstanceTypeT3Large sdk
      else size.

    (** [plan.Size] to the Azure VM size (Create, case "azure"). *)
Definition vmSize (Size : string) : string :=
      let size := if Size == "" then "small" else Size in
      let lower := GoStrings.ToLower toLowerCase size in
      if lower == "small" then VirtualMachineSizeTypesStandardB1S sdk
      else if lower == "medium" then VirtualMachineSizeTypesStandardB2S sdk
      else if lower == "large" then VirtualMachineSizeTypesStandardB4Ms sdk
      else size.

    (** [plan.Size] to the GCE machine type (Create, case "gcp"). *)
Definition machineType (Size : string) : string :=
      let size := if Size == "" then "small" else Size in
      let lower := GoStrings.ToLower toLowerCase size in
      if lower == "small" then "e2-small"
      else if lower == "medium" then "e2-medium"
      else if lower == "large" then "e2-standard-4"
      else size.

Definition Create (plan : Attrs) : M Resource unit :=
      let Name := ValueString plan "name" in
      let Type_ := ValueString plan "type" in
      let Region := ValueString plan "region" in
      let Image := ValueString plan "image" in
      let Size := ValueString plan "size" in
      let PublicIP := ValueBool plan "public_ip" in
      let* r := receiver in
      if Type_ == "aws" then
        if isNil (ec2 r) then AddError "missing AWS client" "" ;; return_
        else if Image == "" then AddError "missing image" "ami id must be provided" ;; return_
        else
          let instanceType := instanceType Size in
          let* out := call (AWS (EC2_RunInstances Image instanceType PublicIP)) in
          match out with
          | Err e => AddError "aws run instance" e ;; return_
          | Ok [] => AddError "aws run instance" "no instance returned" ;; return_
          | Ok (i :: _) =>
            let id := aws_ToString i in
            when (negb (Name == ""))
              (let* res := call (AWS (EC2_CreateTags [id] "Name" Name)) in
               match res with
               | Err e => AddError "aws tag instance" e ;; return_
               | Ok _ => ret tt
               end) ;;
            State_Set [("id", VString id); ("name", VString Name); ("type", VString Type_);
                       ("region", VString Region); ("image", VString Image);
                       ("size", VString instanceType); ("public_ip", VBool PublicIP)]
          end
      else if Type_ == "azure" then
        if isNil (azureVM r) || isNil (azureNIC r) || isNil (azurePIP r)
           || isNil (azureRG r) || isNil (azureSub r) then
          AddError "azure" "missing client" ;; return_
        else
          let rgName := "abstract-rg" in
          when ((azureLoc r == "") && negb (Region == ""))
            (set_receiver (with_azureLoc r Region)) ;;
          let* r := receiver in
          let* res := call (Azure (ResourceGroups_CreateOrUpdate rgName (azureLoc r))) in
          match res with
          | Err e => AddError "azure rg" e ;; return_
          | Ok _ =>
            let vnetName := "abstract-vnet" in
            let subnetName := "default" in
            (* ensure subnet exists *)
            let* got := call (Azure (Subnets_Get rgName vnetName subnetName)) in
            let* subnetResp :=
              match got with
              | Ok {| ID := Some i |} => ret {| ID := Some i |}
              | _ =>
                (* create vnet and subnet if not existing; r.azureVNet is
                   used without the nil test the other clients get *)
                if isNil (azureVNet r) then panic else
                let vnetBegin :=
                  VirtualNetworks_BeginCreateOrUpdate rgName vnetName (azureLoc r) "10.0.0.0/16" in
                let* verr := call (Azure vnetBegin) in
                let* verr := match verr with
                             | Ok _ => call (Azure (PollUntilDone vnetBegin))
                             | Err e => ret (Err e)
                             end in
                match verr with
                | Err e => AddError "azure vnet" e ;; return_
                | Ok _ =>
                  let subnetBegin :=
                    Subnets_BeginCreateOrUpdate rgName vnetName subnetName "10.0.0.0/24" in
                  let* serr := call (Azure subnetBegin) in
                  let* serr := match serr with
                               | Ok _ => call (Azure (PollUntilDone subnetBegin))
                               | Err e => ret (Err e)
                               end in
                  match serr with
                  | Err e => AddError "azure subnet" e ;; return_
                  | Ok subResp => ret subResp
                  end
                end
              end in
            let* subnetID := deref (ID subnetResp) in
            let pipName := Name ++ "-pip" in
            let pipBegin := PublicIPAddresses_BeginCreateOrUpdate rgName pipName (azureLoc r) Dynamic in
            let* res := call (Azure pipBegin) in
            let* res := match res with
                        | Ok _ => call (Azure (PollUntilDone pipBegin))
                        | Err e => ret (Err e)
                        end in
            match res with
            | Err e => AddError "azure pip" e ;; return_
            | Ok pipResp =>
              let pipID := match ID pipResp with Some i => i | None => "" end in
              let nicName := Name ++ "-nic" in
              let nicBegin :=
                Interfaces_BeginCreateOrUpdate rgName nicName (azureLoc r) subnetID pipID in
              let* res := call (Azure nicBegin) in
              let* res := match res with
                          | Ok _ => call (Azure (PollUntilDone nicBegin))
                          | Err e => ret (Err e)
                          end in
              match res with
              | Err e => AddError "azure nic" e ;; return_
              | Ok nicResp =>
                let nicID := match ID nicResp with Some i => i | None => "" end in
                let vmSize := vmSize Size in
                let vmBegin :=
                  VirtualMachines_BeginCreateOrUpdate rgName Name (azureLoc r) vmSize nicID Name in
                let* res := call (Azure vmBegin) in
                let* res := match res with
                            | Ok _ => call (Azure (PollUntilDone vmBegin))
                            | Err e => ret (Err e)
                            end in
                match res with
                | Err e => AddError "azure vm" e ;; return_
                | Ok vmResp =>
                  let vmID := match ID vmResp with Some i => i | None => "" end in
                  State_Set [("id", VString vmID); ("name", VString Name);
                             ("type", VString Type_); ("region", VString (azureLoc r));
                             ("image", VString Image); ("size", VString vmSize);
                             ("public_ip", VBool PublicIP)]
                end
              end
            end
          end
      else if Type_ == "gcp" then
        if isNil (gcp r) then AddError "gcp" "missing client" ;; return_
        else
          let zone := gcpZone r Region in
          let machineType := machineType Size in
          let image := if Image == "" then "projects/debian-cloud/global/images/family/debian-11"
                       else Image in
          let* res := call (GCP (Instances_Insert (gcpProj r) zone Name
                                   ("zones/" ++ zone ++ "/machineTypes/" ++ machineType) image
                                   ("projects/" ++ gcpProj r ++ "/global/networks/default")
                                   PublicIP)) in
          match res with
          | Err e => AddError "gcp create instance" e ;; return_
          | Ok _ =>
            State_Set [("id", VString Name); ("name", VString Name); ("type", VString Type_);
                       ("region", VString zone); ("image", VString image);
                       ("size", VString machineType); ("public_ip", VBool PublicIP)]
          end
      else
        AddError "unsupported cloud" "only aws and azure implemented".

End WithSDK.

Definition Read (state : Attrs) : M Resource unit :=
    let ID := ValueString state "id" in
    let Type_ := ValueString state "type" in
    let Region := ValueString state "region" in
    let* r := receiver in
    if Type_ == "aws" then
      if isNil (ec2 r) then return_
      else
        let* out := call (AWS (EC2_DescribeInstances [ID])) in
        match out with
        | Err _ | Ok [] | Ok ([] :: _) => State_RemoveResource
        | Ok ((_ :: _) :: _) => ret tt
        end
    else if Type_ == "azure" then
      if isNil (azureVM r) then return_
      else
        let* res := call (Azure (VirtualMachines_Get "abstract-rg" ID)) in
        match res with
        | Err _ => State_RemoveResource
        | Ok _ => ret tt
        end
    else if Type_ == "gcp" then
      if isNil (gcp r) then return_
      else
        let zone := gcpZone r Region in
        let* res := call (GCP (Instances_Get (gcpProj r) zone ID)) in
        match res with
        | Err _ => State_RemoveResource
        | Ok _ => ret tt
        end
    else ret tt.

Definition Update (state plan : Attrs) : M Resource unit := ret tt.

Definition Delete (state : Attrs) : M Resource unit :=
    let ID := ValueString state "id" in
    let Type_ := ValueString state "type" in
    let Region := ValueString state "region" in
    let* r := receiver in
    if Type_ == "aws" then
      if isNil (ec2 r) then return_
      else
        let* res := call (AWS (EC2_TerminateInstances [ID])) in
        match res with
        | Err e => AddError "aws terminate" e
        | Ok _ => ret tt
        end
    else if Type_ == "azure" then
      if isNil (azureVM r) then return_
      else
        let begin := VirtualMachines_BeginDelete "abstract-rg" ID in
        let* res := call (Azure begin) in
        let* res := match res with
                    | Ok _ => call (Azure (PollUntilDone begin))
                    | Err e => ret (Err e)
                    end in
        match res with
        | Err e => AddError "azure delete" e
        | Ok _ => ret tt
        end
    else if Type_ == "gcp" then
      if isNil (gcp r) then return_
      else
        let zone := gcpZone r Region in
        let* res := call (GCP (Instances_Delete (gcpProj r) zone ID)) in
        match res with
        | Err e => AddError "gcp delete" e
        | Ok _ => ret tt
        end
    else ret tt.

  (** The struct's [azureCred], which no handler reads, is not in
      [Resource]. *)
Definition Configure (ProviderData : ProviderData) : M Resource unit :=
    match ProviderData with
    | NoData => return_
    | OtherData => AddError "invalid provider data" "" ;; return_
    | ConfigPtr cfg =>
      let* cfg := deref cfg in
      set_receiver
        {| ec2 := shared.AWSEC2 cfg;
           azureVM := shared.AzureVMClient cfg;
           azureNIC := shared.AzureNICClient cfg;
           azurePIP := shared.AzurePIPClient cfg;
           azureRG := shared.AzureRGClient cfg;
           azureVNet := shared.AzureVNetClient cfg;
           azureSub := shared.AzureSubnetClient cfg;
           azureLoc := shared.AzureLocation cfg;
           gcp := shared.GCPCompute cfg;
           gcpProj := shared.GCPProject cfg;
           gcpRegion := shared.GCPRegion cfg |}
    end.

End Instance.

(** [int32(n)] for an int64 [n]: the low 32 bits, signed. *)
Definition int32 (n : Z) : Z := (n + 2 ^ 31) mod 2 ^ 32 - 2 ^ 31.

(** [for i, s := range subnets { if i >= 2 { break }; ids = append(ids,
    aws.ToString(s.SubnetId)) }] *)
Definition firstTwoSubnets (subnets : list (option string)) : list string :=
  map aws_ToString (take 2 subnets).

(** ** ClusterResource (provider/resources/cluster.go) *)

Module Cluster.

Record Resource := {
    eks : ClientPtr;
    ec2 : ClientPtr;
    azureAKS : ClientPtr;
    azureRG : ClientPtr;
    azureLoc : string;
    gke : ClientPtr;
    gcpProj : string;
    gcpRegion : string
  }.

Definition with_azureLoc (r : Resource) (loc : string) : Resource :=
    {| eks := eks r; ec2 := ec2 r; azureAKS := azureAKS r; azureRG := azureRG r;
       azureLoc := loc; gke := gke r; gcpProj := gcpProj r; gcpRegion := gcpRegion r |}.

  (** The wait on a GKE operation, written inline in Create and Delete:
      [for { oper, err := Operations.Get(op.Name); if err != nil { AddError;
      return }; if oper.Status == "DONE" { break }; time.Sleep(5 *
      time.Second) }].  [fuel] bounds the number of rounds the model
      follows. *)
Fixpoint awaitOperation (fuel : nat) (summary opName : string) : M Resource unit :=
    match fuel with
    | O => exhausted
    | S fuel' =>
      let* oper := call (GCP (Container_OperationsGet opName)) in
      match oper with
      | Err e => AddError summary e ;; return_
      | Ok status =>
        if status == "DONE" then ret tt
        else call (Host (time_Sleep 5)) ;; awaitOperation fuel' summary opName
      end
    end.

Definition Create (fuel : nat) (plan : Attrs) : M Resource unit :=
    let Name := ValueString plan "name" in
    let Type_ := ValueString plan "type" in
    let Region := ValueString plan "region" in
    let NodeCount := ValueInt64 plan "node_count" in
    let NodeSize := ValueString plan "node_size" in
    let* r := receiver in
    if Type_ == "aws" then
      if isNil (eks r) || isNil (ec2 r) then AddError "missing AWS client" "" ;; return_
      else
        (* determine subnets from default VPC *)
        let* vpcs := call (AWS (EC2_DescribeVpcs [] [("isDefault", ["true"])])) in
        match vpcs with
        | Err _ | Ok [] => AddError "aws default vpc" "unable to find default vpc" ;; return_
        | Ok (v :: _) =>
          let vpcID := aws_ToString v in
          let* subnetsOut := call (AWS (EC2_DescribeSubnets [("vpc-id", [vpcID])])) in
          match subnetsOut with
          | Err _ | Ok [] =>
            AddError "aws subnets" "unable to find subnets in default vpc" ;; return_
          | Ok subnets =>
            let subnetIDs := firstTwoSubnets subnets in
            let* role := call (Host (os_Getenv "EKS_ROLE_ARN")) in
            let* nodeRole := call (Host (os_Getenv "EKS_NODE_ROLE_ARN")) in
            if (role == "") || (nodeRole == "") then
              AddError "missing roles" "EKS_ROLE_ARN and EKS_NODE_ROLE_ARN must be set" ;; return_
            else
              let* res := call (AWS (EKS_CreateCluster Name role subnetIDs)) in
              match res with
              | Err e => AddError "aws create cluster" e ;; return_
              | Ok _ =>
                let desired := if 0 <? NodeCount then int32 NodeCount else 3 in
                let instanceType := if NodeSize == "" then "t3.medium" else NodeSize in
                let* res := call (AWS (EKS_CreateNodegroup Name (Name ++ "-ng") nodeRole
                                         subnetIDs desired instanceType)) in
                match res with
                | Err e => AddError "aws create nodegroup" e ;; return_
                | Ok _ =>
                  State_Set [("id", VString Name); ("name", VString Name);
                             ("type", VString Type_); ("region", VString Region);
                             ("node_count", VInt64 desired);
                             ("node_size", VString instanceType)]
                end
              end
          end
        end
    else if Type_ == "azure" then
      if isNil (azureAKS r) || isNil (azureRG r) then AddError "azure" "missing client" ;; return_
      else
        when (azureLoc r == "")
          (set_receiver (with_azureLoc r (if Region == "" then "eastus" else Region))) ;;
        let* r := receiver in
        let rgName := "abstract-rg" in
        let* res := call (Azure (ResourceGroups_CreateOrUpdate rgName (azureLoc r))) in
        match res with
        | Err e => AddError "azure rg" e ;; return_
        | Ok _ =>
          let nodeCount := if 0 <? NodeCount then int32 NodeCount else 3 in
          let vmSize := if NodeSize == "" then "Standard_DS2_v2" else NodeSize in
          let name := Name in
          let begin :=
            ManagedClusters_BeginCreateOrUpdate rgName name (azureLoc r) name nodeCount vmSize in
          let* res := call (Azure begin) in
          let* res := match res with
                      | Ok _ => call (Azure (PollUntilDone begin))
                      | Err e => ret (Err e)
                      end in
          match res with
          | Err e => AddError "azure create aks" e ;; return_
          | Ok _ =>
            State_Set [("id", VString Name); ("name", VString Name); ("type", VString Type_);
                       ("region", VString (azureLoc r)); ("node_count", VInt64 nodeCount);
                       ("node_size", VString vmSize)]
          end
        end
    else if Type_ == "gcp" then
      if isNil (gke r) then AddError "gcp" "missing client" ;; return_
      else
        let region := if Region == "" then
                        (if gcpRegion r == "" then "us-central1" else gcpRegion r)
                      else Region in
        let name := if Name == "" then "abstract-cluster" else Name in
        let count := if 0 <? NodeCount then NodeCount else 3 in
        let machine := if NodeSize == "" then "e2-medium" else NodeSize in
        let parent := "projects/" ++ gcpProj r ++ "/locations/" ++ region in
        let* op := call (GCP (Clusters_Create parent name count machine)) in
        match op with
        | Err e => AddError "gcp create cluster" e ;; return_
        | Ok opName =>
          awaitOperation fuel "gcp create cluster" opName ;;
          State_Set [("id", VString name); ("name", VString name); ("type", VString Type_);
                     ("region", VString region); ("node_count", VInt64 count);
                     ("node_size", VString machine)]
        end
    else
      AddError "unsupported cloud" "only aws, azure, and gcp implemented".

Definition Read (state : Attrs) : M Resource unit :=
    let ID := ValueString state "id" in
    let Type_ := ValueString state "type" in
    let* r := receiver in
    if Type_ == "aws" then
      if isNil (eks r) then return_
      else
        let* res := call (AWS (EKS_DescribeCluster ID)) in
        match res with
        | Err _ => State_RemoveResource
        | Ok _ => ret tt
        end
    else if Type_ == "azure" then
      if isNil (azureAKS r) then return_
      else
        let* res := call (Azure (ManagedClusters_Get "abstract-rg" ID)) in
        match res with
        | Err _ => State_RemoveResource
        | Ok _ => ret tt
        end
    else if Type_ == "gcp" then
      if isNil (gke r) then return_
      else
        let region := if gcpRegion r == "" then "us-central1" else gcpRegion r in
        let* res := call (GCP (Clusters_Get ("projects/" ++ gcpProj r ++ "/locations/" ++ region
                                              ++ "/clusters/" ++ ID))) in
        match res with
        | Err _ => State_RemoveResource
        | Ok _ => ret tt
        end
    else ret tt.

Definition Update (state plan : Attrs) : M Resource unit := ret tt.

Definition Delete (fuel : nat) (state : Attrs) : M Resource unit :=
    let ID := ValueString state "id" in
    let Type_ := ValueString state "type" in
    let* r := receiver in
    if Type_ == "aws" then
      if isNil (eks r) then return_
      else
        let nodeGroup := ID ++ "-ng" in
        call (AWS (EKS_DeleteNodegroup ID nodeGroup)) ;;
        let* res := call (AWS (EKS_DeleteCluster ID)) in
        match res with
        | Err e => AddError "aws delete" e
        | Ok _ => ret tt
        end
    else if Type_ == "azure" then
      if isNil (azureAKS r) then return_
      else
        let begin := ManagedClusters_BeginDelete "abstract-rg" ID in
        let* res := call (Azure begin) in
        let* res := match res with
                    | Ok _ => call (Azure (PollUntilDone begin))
                    | Err e => ret (Err e)
                    end in
        match res with
        | Err e => AddError "azure delete" e
        | Ok _ => ret tt
        end
    else if Type_ == "gcp" then
      if isNil (gke r) then return_
      else
        let region := if gcpRegion r == "" then "us-central1" else gcpRegion r in
        let* op := call (GCP (Clusters_Delete ("projects/" ++ gcpProj r ++ "/locations/" ++ region
                                                ++ "/clusters/" ++ ID))) in
        match op with
        | Err e => AddError "gcp delete" e ;; return_
        | Ok opName => awaitOperation fuel "gcp delete" opName
        end
    else ret tt.

  (** The struct's [azureCred], which no handler reads, is not in
      [Resource]. *)
Definition Configure (ProviderData : ProviderData) : M Resource unit :=
    match ProviderData with
    | NoData => return_
    | OtherData => AddError "invalid provider data" "" ;; return_
    | ConfigPtr cfg =>
      let* cfg := deref cfg in
      set_receiver
        {| eks := shared.AWSEKS cfg;
           ec2 := shared.AWSEC2 cfg;
           azureAKS := shared.AzureAKSClient cfg;
           azureRG := shared.AzureRGClient cfg;
           azureLoc := shared.AzureLocation cfg;
           gke := shared.GCPGKE cfg;
           gcpProj := shared.GCPProject cfg;
           gcpRegion := shared.GCPRegion cfg |}
    end.

End Cluster.

(** ** FunctionResource (provider/resources/function.go) *)

Module Function.

Record Resource := {
    lambda : ClientPtr;
    azureWeb : ClientPtr;
    azurePlan : ClientPtr;
    azureRG : ClientPtr;
    azureAcct : ClientPtr;
    azureSub : string;
    azureLoc : string;
    gcpFunc : ClientPtr;
    gcpProj : string;
    gcpRegion : string
  }.

Definition with_azureLoc (r : Resource) (loc : string) : Resource :=
    {| lambda := lambda r; azureWeb := azureWeb r; azurePlan := azurePlan r;
       azureRG := azureRG r; azureAcct := azureAcct r; azureSub := azureSub r;
       azureLoc := loc; gcpFunc := gcpFunc r; gcpProj := gcpProj r;
       gcpRegion := gcpRegion r |}.

  (** The wait on a Cloud Functions operation, written inline in Create
      and Delete: [for { oper, err := Operations.Get(op.Name); if err != nil
      { AddError; return }; if oper.Done { break }; time.Sleep(5 *
      time.Second) }]. *)
Fixpoint awaitOperation (fuel : nat) (summary opName : string) : M Resource unit :=
    match fuel with
    | O => exhausted
    | S fuel' =>
      let* oper := call (GCP (Functions_OperationsGet opName)) in
      match oper with
      | Err e => AddError summary e ;; return_
      | Ok done =>
        if done then ret tt
        else call (Host (time_Sleep 5)) ;; awaitOperation fuel' summary opName
      end
    end.

Section WithCaseTable.
Variable toLowerCase : Z -> Z.

Definition acctName (name : string) : string :=
      let acctName := GoStrings.ToLower toLowerCase name in
      if 24 <? GoStrings.len acctName then GoStrings.slice_to 24 acctName else acctName.

Definition Create (fuel : nat) (plan : Attrs) : M Resource unit :=
      let Name := ValueString plan "name" in
      let Type_ := ValueString plan "type" in
      let Region := ValueString plan "region" in
      let Runtime := ValueString plan "runtime" in
      let Handler := ValueString plan "handler" in
      let Code := ValueString plan "code" in
      let* r := receiver in
      if Type_ == "aws" then
        if isNil (lambda r) then AddError "missing AWS client" "" ;; return_
        else
          let* role := call (Host (os_Getenv "LAMBDA_ROLE_ARN")) in
          if role == "" then AddError "missing role" "LAMBDA_ROLE_ARN must be set" ;; return_
          else
            let* code := call (Host (ioutil_ReadFile Code)) in
            match code with
            | Err e => AddError "read code" e ;; return_
            | Ok codeBytes =>
              let* res := call (AWS (Lambda_CreateFunction Name Runtime Handler role codeBytes)) in
              match res with
              | Err e => AddError "aws create" e ;; return_
              | Ok _ =>
                State_Set [("id", VString Name); ("name", VString Name);
                           ("type", VString Type_); ("region", VString Region);
                           ("runtime", VString Runtime); ("handler", VString Handler);
                           ("code", VString Code)]
              end
            end
      else if Type_ == "azure" then
        if isNil (azureWeb r) || isNil (azurePlan r) || isNil (azureRG r) || isNil (azureAcct r)
        then AddError "azure" "missing client" ;; return_
        else
          let rgName := "abstract-rg" in
          when ((azureLoc r == "") && negb (Region == ""))
            (set_receiver (with_azureLoc r Region)) ;;
          let* r := receiver in
          let* res := call (Azure (ResourceGroups_CreateOrUpdate rgName (azureLoc r))) in
          match res with
          | Err e => AddError "azure rg" e ;; return_
          | Ok _ =>
            let acct := acctName Name in
            let acctBegin := Accounts_BeginCreate rgName acct (azureLoc r) in
            let* res := call (Azure acctBegin) in
            let* res := match res with
                        | Ok _ => call (Azure (PollUntilDone acctBegin))
                        | Err e => ret (Err e)
                        end in
            match res with
            | Err e => AddError "azure storage" e ;; return_
            | Ok _ =>
              let planName := Name ++ "-plan" in
              let planBegin := Plans_BeginCreateOrUpdate rgName planName (azureLoc r) in
              let* res := call (Azure planBegin) in
              let* res := match res with
                          | Ok _ => call (Azure (PollUntilDone planBegin))
                          | Err e => ret (Err e)
                          end in
              match res with
              | Err e => AddError "azure plan" e ;; return_
              | Ok _ =>
                let planID := "/subscriptions/" ++ azureSub r ++ "/resourceGroups/" ++ rgName
                              ++ "/providers/Microsoft.Web/serverfarms/" ++ planName in
                let siteBegin := WebApps_BeginCreateOrUpdate rgName Name (azureLoc r) planID in
                let* res := call (Azure siteBegin) in
                let* res := match res with
                            | Ok _ => call (Azure (PollUntilDone siteBegin))
                            | Err e => ret (Err e)
                            end in
                match res with
                | Err e => AddError "azure function" e ;; return_
                | Ok _ =>
                  State_Set [("id", VString Name); ("name", VString Name);
                             ("type", VString Type_); ("region", VString (azureLoc r));
                             ("runtime", VString Runtime); ("handler", VString Handler);
                             ("code", VString Code); ("account", VString acct);
                             ("plan", VString planName); ("resource_group", VString rgName)]
                end
              end
            end
          end
      else if Type_ == "gcp" then
        if isNil (gcpFunc r) then AddError "gcp" "missing client" ;; return_
        else
          let region := if Region == "" then gcpRegion r else Region in
          let name := Name in
          let parent := "projects/" ++ gcpProj r ++ "/locations/" ++ region in
          let* code := call (Host (ioutil_ReadFile Code)) in
          match code with
          | Err e => AddError "read code" e ;; return_
          | Ok codeBytes =>
            let* urlResp := call (GCP (Functions_GenerateUploadUrl parent)) in
            match urlResp with
            | Err e => AddError "gcp generate url" e ;; return_
            | Ok uploadUrl =>
              let* res := call (Host (http_NewRequestWithContext "PUT" uploadUrl codeBytes)) in
              let* res := match res with
                          | Ok _ => call (Host (http_Do "PUT" uploadUrl "application/zip" codeBytes))
                          | Err e => ret (Err e)
                          end in
              match res with
              | Err e => AddError "gcp upload" e ;; return_
              | Ok _ =>
                let* op := call (GCP (Functions_Create parent (parent ++ "/functions/" ++ name)
                                        Handler Runtime uploadUrl)) in
                match op with
                | Err e => AddError "gcp create" e ;; return_
                | Ok opName =>
                  awaitOperation fuel "gcp create" opName ;;
                  State_Set [("id", VString name); ("name", VString name);
                             ("type", VString Type_); ("region", VString region);
                             ("runtime", VString Runtime); ("handler", VString Handler);
                             ("code", VString Code)]
                end
              end
            end
          end
      else
        AddError "unsupported cloud" "only aws and azure implemented".

End WithCaseTable.

Definition Read (state : Attrs) : M Resource unit :=
    let ID := ValueString state "id" in
    let Type_ := ValueString state "type" in
    let* r := receiver in
    if Type_ == "aws" then
      if isNil (lambda r) then return_
      else
        let* res := call (AWS (Lambda_GetFunction ID)) in
        match res with
        | Err _ => State_RemoveResource
        | Ok _ => ret tt
        end
    else if Type_ == "azure" then
      if isNil (azureWeb r) then return_
      else
        let* res := call (Azure (WebApps_Get "abstract-rg" ID)) in
        match res with
        | Err _ => State_RemoveResource
        | Ok _ => ret tt
        end
    else if Type_ == "gcp" then
      if isNil (gcpFunc r) then return_
      else
        let region := if gcpRegion r == "" then "us-central1" else gcpRegion r in
        let* res := call (GCP (Functions_Get ("projects/" ++ gcpProj r ++ "/locations/" ++ region
                                               ++ "/functions/" ++ ID))) in
        match res with
        | Err _ => State_RemoveResource
        | Ok _ => ret tt
        end
    else ret tt.

Definition Update (state plan : Attrs) : M Resource unit := ret tt.

Definition Delete (fuel : nat) (state : Attrs) : M Resource unit :=
    let ID := ValueString state "id" in
    let Type_ := ValueString state "type" in
    let Plan := ValueString state "plan" in
    let Account := ValueString state "account" in
    let ResourceGroup := ValueString state "resource_group" in
    let* r := receiver in
    if Type_ == "aws" then
      if isNil (lambda r) then return_
      else
        let* res := call (AWS (Lambda_DeleteFunction ID)) in
        match res with
        | Err e => AddError "aws delete" e
        | Ok _ => ret tt
        end
    else if Type_ == "azure" then
      if isNil (azureWeb r) then return_
      else
        let* res := call (Azure (WebApps_Delete "abstract-rg" ID)) in
        match res with
        | Err e => AddError "azure delete" e
        | Ok _ => ret tt
        end ;;
        when (negb (isNil (azurePlan r)) && negb (Plan == ""))
          (call (Azure (Plans_Delete "abstract-rg" Plan)) ;; ret tt) ;;
        when (negb (isNil (azureAcct r)) && negb (ResourceGroup == "") && negb (Account == ""))
          (call (Azure (Accounts_Delete ResourceGroup Account)) ;; ret tt)
    else if Type_ == "gcp" then
      if isNil (gcpFunc r) then return_
      else
        let region := if gcpRegion r == "" then "us-central1" else gcpRegion r in
        let* op := call (GCP (Functions_Delete ("projects/" ++ gcpProj r ++ "/locations/" ++ region
                                                 ++ "/functions/" ++ ID))) in
        match op with
        | Err e => AddError "gcp delete" e ;; return_
        | Ok opName => awaitOperation fuel "gcp delete" opName
        end
    else ret tt.

  (** The struct's [azureCred], which no handler reads, is not in
      [Resource]. *)
Definition Configure (ProviderData : ProviderData) : M Resource unit :=
    match ProviderData with
    | NoData => return_
    | OtherData => AddError "invalid provider data" "" ;; return_
    | ConfigPtr cfg =>
      let* cfg := deref cfg in
      set_receiver
        {| lambda := shared.AWSLambda cfg;
           azureWeb := shared.AzureWebClient cfg;
           azurePlan := shared.AzurePlanClient cfg;
           azureRG := shared.AzureRGClient cfg;
           azureAcct := shared.AzureStorageAcct cfg;
           azureSub := shared.AzureSubID cfg;
           azureLoc := shared.AzureLocation cfg;
           gcpFunc := shared.GCPFunctions cfg;
           gcpProj := shared.GCPProject cfg;
           gcpRegion := shared.GCPRegion cfg |}
    end.

End Function.

(** A handler called from another handler with a response of its own
    ([delResp := &resource.DeleteResponse{}; r.Delete(ctx, delReq, delResp)]):
    the caller gets the callee's diagnostics; the callee's state is
    dropped with its response. *)
Definition nested {R} (h : M R unit) : M R (list Diagnostic) :=
  fun b ctx =>
    let '(flow, c') := h b (MkCtx (self ctx) None [] (log ctx)) in
    let back := MkCtx (self c') (State ctx) (Diagnostics ctx) (log c') in
    match flow with
    | Next _ | Returned => (Next (Diagnostics c'), back)
    | Panicked => (Panicked, back)
    | Exhausted => (Exhausted, back)
    end.

(** [resp.Diagnostics.Append(ds...)] *)
Definition Diagnostics_Append {R} (ds : list Diagnostic) : M R unit :=
  fun _ ctx => (Next tt, MkCtx (self ctx) (State ctx) (Diagnostics ctx ++ ds) (log ctx)).

(** ** DNSRecordResource *)

Module DNSRecord.

Record Resource := {
    route53 : ClientPtr;
    azureRG : ClientPtr;
    azureZones : ClientPtr;
    azureRecords : ClientPtr;
    gcpDNS : ClientPtr;
    gcpProject : string
  }.

Definition fqdn (Name Zone : string) : string :=
    if negb (GoStrings.HasSuffix Name (Zone ++ ".")) then Name ++ "." ++ Zone ++ "." else Name.

Section WithStrings.
Variable toLowerCase toUpperCase : Z -> Z.
    (** [strings.EqualFold] *)
Variable EqualFold : string -> string -> bool.

Definition Create (plan : Attrs) : M Resource unit :=
      let Name := ValueString plan "name" in
      let Zone := ValueString plan "zone" in
      let Type_ := ValueString plan "type" in
      let Value_ := ValueString plan "value" in
      let ttl := if negb (IsNull plan "ttl") then ValueInt64 plan "ttl" else 300 in
      let fqdn := fqdn Name Zone in
      let cloud := GoStrings.ToLower toLowerCase Type_ in
      let* r := receiver in
      if cloud == "aws" then
        if isNil (route53 r) then AddError "aws" "missing client" ;; return_
        else
          (* lookup zone *)
          let* out := call (AWS (Route53_ListHostedZonesByName Zone)) in
          match out with
          | Err _ | Ok [] => AddError "aws zone" "not found" ;; return_
          | Ok (z :: _) =>
            let zoneID := aws_ToString z in
            let* res := call (AWS (Route53_ChangeResourceRecordSets zoneID Upsert fqdn Type_
                                     ttl Value_)) in
            match res with
            | Err e => AddError "aws create" e ;; return_
            | Ok _ =>
              State_Set [("id", VString (zoneID ++ "/" ++ fqdn)); ("name", VString Name);
                         ("zone", VString Zone); ("type", VString Type_);
                         ("value", VString Value_); ("ttl", VInt64 ttl)]
            end
          end
      else if cloud == "azure" then
        if isNil (azureZones r) || isNil (azureRecords r) || isNil (azureRG r) then
          AddError "azure" "missing client" ;; return_
        else
          let rg := "abstract-dns-rg" in
          let* res := call (Azure (ResourceGroups_CreateOrUpdate rg "global")) in
          match res with
          | Err e => AddError "azure rg" e ;; return_
          | Ok _ =>
            let* res := call (Azure (Zones_CreateOrUpdate rg Zone)) in
            match res with
            | Err e => AddError "azure zone" e ;; return_
            | Ok _ =>
              let recordType := if EqualFold Type_ "CNAME" then RecordTypeCNAME
                                else RecordTypeA in
              let* res := call (Azure (RecordSets_CreateOrUpdate rg Zone fqdn recordType
                                         ttl Value_)) in
              match res with
              | Err e => AddError "azure record" e ;; return_
              | Ok _ =>
                State_Set [("id", VString (Zone ++ "/" ++ fqdn)); ("name", VString Name);
                           ("zone", VString Zone); ("type", VString Type_);
                           ("value", VString Value_); ("ttl", VInt64 ttl);
                           ("resource_group", VString rg)]
              end
            end
          end
      else if cloud == "gcp" then
        if isNil (gcpDNS r) then AddError "gcp" "missing client" ;; return_
        else
          (* ensure zone exists *)
          let* res := call (GCP (ManagedZones_Get (gcpProject r) Zone)) in
          match res with
          | Ok _ => ret tt
          | Err _ =>
            let* res := call (GCP (ManagedZones_Create (gcpProject r) Zone (Zone ++ "."))) in
            match res with
            | Err e => AddError "gcp zone" e ;; return_
            | Ok _ => ret tt
            end
          end ;;
          let* res := call (GCP (Changes_Create (gcpProject r) Zone Additions fqdn
                                   (GoStrings.ToUpper toUpperCase Type_) ttl [Value_])) in
          match res with
          | Err e => AddError "gcp record" e ;; return_
          | Ok _ =>
            State_Set [("id", VString (Zone ++ "/" ++ fqdn)); ("name", VString Name);
                       ("zone", VString Zone); ("type", VString Type_);
                       ("value", VString Value_); ("ttl", VInt64 ttl)]
          end
      else
        AddError "unsupported cloud" "".

Definition Read (state : Attrs) : M Resource unit :=
      let Zone := ValueString state "zone" in
      let Name := ValueString state "name" in
      let Type_ := ValueString state "type" in
      let ResourceGroup := ValueString state "resource_group" in
      let fqdn := fqdn Name Zone in
      let cloud := GoStrings.ToLower toLowerCase Type_ in
      let upper := GoStrings.ToUpper toUpperCase Type_ in
      let* r := receiver in
      if cloud == "aws" then
        if isNil (route53 r) then return_
        else
          let* out := call (AWS (Route53_ListHostedZonesByName Zone)) in
          match out with
          | Err _ | Ok [] => State_RemoveResource ;; return_
          | Ok (z :: _) =>
            let zoneID := aws_ToString z in
            let* rsOut := call (AWS (Route53_ListResourceRecordSets zoneID fqdn upper)) in
            match rsOut with
            | Err _ | Ok [] => State_RemoveResource ;; return_
            | Ok (_ :: _) => ret tt
            end
          end
      else if cloud == "azure" then
        if isNil (azureRecords r) then return_
        else
          let rg := if ResourceGroup == "" then "abstract-dns-rg" else ResourceGroup in
          let* res := call (Azure (RecordSets_Get rg Zone fqdn (RecordTypeOther upper))) in
          match res with
          | Err _ => State_RemoveResource ;; return_
          | Ok _ => ret tt
          end
      else if cloud == "gcp" then
        if isNil (gcpDNS r) then return_
        else
          let* rsOut := call (GCP (ResourceRecordSets_List (gcpProject r) Zone fqdn upper)) in
          match rsOut with
          | Err _ | Ok [] => State_RemoveResource ;; return_
          | Ok (_ :: _) => ret tt
          end
      else ret tt.

Definition Delete (state : Attrs) : M Resource unit :=
      let Zone := ValueString state "zone" in
      let Name := ValueString state "name" in
      let Type_ := ValueString state "type" in
      let ResourceGroup := ValueString state "resource_group" in
      let fqdn := fqdn Name Zone in
      let cloud := GoStrings.ToLower toLowerCase Type_ in
      let upper := GoStrings.ToUpper toUpperCase Type_ in
      let* r := receiver in
      if cloud == "aws" then
        if isNil (route53 r) then return_
        else
          let* out := call (AWS (Route53_ListHostedZonesByName Zone)) in
          match out with
          | Err _ | Ok [] => return_
          | Ok (z :: _) =>
            let zoneID := aws_ToString z in
            call (AWS (Route53_ChangeResourceRecordSets zoneID DeleteRecord fqdn upper 300 "")) ;;
            ret tt
          end
      else if cloud == "azure" then
        if isNil (azureRecords r) then return_
        else
          let rg := if ResourceGroup == "" then "abstract-dns-rg" else ResourceGroup in
          call (Azure (RecordSets_Delete rg Zone fqdn (RecordTypeOther upper))) ;;
          ret tt
      else if cloud == "gcp" then
        if isNil (gcpDNS r) then return_
        else
          call (GCP (Changes_Create (gcpProject r) Zone Deletions fqdn upper 300 [])) ;;
          ret tt
      else ret tt.

    (** simplified: delete then create *)
Definition Update (state plan : Attrs) : M Resource unit :=
      let* delDiags := nested (Delete state) in
      if HasError delDiags then Diagnostics_Append delDiags ;; return_
      else
        let* createDiags := nested (Create plan) in
        Diagnostics_Append createDiags.

End WithStrings.

  (** The struct's [azureCred] and [azureSub], which no handler reads, are
      not in [Resource]. *)
Definition Configure (ProviderData : ProviderData) : M Resource unit :=
    match ProviderData with
    | NoData => return_
    | OtherData => AddError "invalid provider data" "" ;; return_
    | ConfigPtr cfg =>
      let* cfg := deref cfg in
      set_receiver
        {| route53 := shared.AWSRoute53 cfg;
           azureRG := shared.AzureRGClient cfg;
           azureZones := shared.AzureDNSZoneClient cfg;
           azureRecords := shared.AzureDNSRecordClient cfg;
           gcpDNS := shared.GCPDNS cfg;
           gcpProject := shared.GCPProject cfg |}
    end.

End DNSRecord.

(** ** What a handler did

    The outcome of one lifecycle call, as the host sees it. *)

Record Outcome (R : Type) := MkOutcome {
  flow : Flow unit;
  (** [resp.State] at the end: [None] when no record was set, or it was removed *)
  record : option Attrs;
  diagnostics : list Diagnostic;
  (** the calls of this invocation, in order *)
  calls : list Event;
  (** the resource struct, as the handler left it *)
  self' : R
}.
Arguments MkOutcome {R}.
Arguments flow {R}.
Arguments record {R}.
Arguments diagnostics {R}.
Arguments calls {R}.
Arguments self' {R}.

Definition run {R} (h : M R unit) (backend : Backend) (r : R)
    (prior : option Attrs) (history : list Event) : Outcome R :=
  let end_ := invoke h backend r prior history in
  MkOutcome (fst end_) (State (snd end_)) (Diagnostics (snd end_))
    (drop (List.length history) (log (snd end_))) (self (snd end_)).

(** The handler came back to the host (it neither panicked nor is it
    still waiting). *)
Definition finished {A} (f : Flow A) : bool :=
  match f with Next _ | Returned => true | Panicked | Exhausted => false end.

(** *** Kinds of call *)

(** A call that tears something down. *)
Definition destroysAWS {T} (c : AWSCall T) : bool :=
  match c with
  | S3_DeleteBucket _ | EC2_DetachInternetGateway _ _ | EC2_DeleteInternetGateway _
  | EC2_DeleteSubnet _ | EC2_DeleteVpc _ | EC2_TerminateInstances _
  | EKS_DeleteNodegroup _ _ | EKS_DeleteCluster _ | Lambda_DeleteFunction _
  | Route53_ChangeResourceRecordSets _ DeleteRecord _ _ _ _ => true
  | _ => false
  end.

Fixpoint destroysAzure {T} (c : AzureCall T) : bool :=
  match c with
  | Accounts_Delete _ _ | Blob_DeleteContainer _ _ | VirtualNetworks_BeginDelete _ _
  | VirtualMachines_BeginDelete _ _ | ManagedClusters_BeginDelete _ _ | Plans_Delete _ _
  | WebApps_Delete _ _ | RecordSets_Delete _ _ _ _ => true
  | PollUntilDone begin => destroysAzure begin
  | _ => false
  end.

Definition destroysGCP {T} (c : GCPCall T) : bool :=
  match c with
  | Storage_BucketDelete _ | Networks_Delete _ _ | Subnetworks_Delete _ _ _
  | Instances_Delete _ _ _ | Clusters_Delete _ | Functions_Delete _
  | Changes_Create _ _ Deletions _ _ _ _ => true
  | _ => false
  end.

Definition destroys {T} (c : Call T) : bool :=
  match c with
  | AWS c => destroysAWS c
  | Azure c => destroysAzure c
  | GCP c => destroysGCP c
  | Host _ => false
  end.

Definition isDestroy (e : Event) : bool :=
  match e with Answered c _ => destroys c end.



(** The resource group an Azure management call addresses. *)
Fixpoint resourceGroup {T} (c : AzureCall T) : option string :=
  match c with
  | ResourceGroups_CreateOrUpdate rg _ | Accounts_BeginCreate rg _ _ | Accounts_ListKeys rg _
  | Accounts_Delete rg _ | VirtualNetworks_BeginCreateOrUpdate rg _ _ _
  | VirtualNetworks_Get rg _ | VirtualNetworks_BeginDelete rg _ | Subnets_Get rg _ _
  | Subnets_BeginCreateOrUpdate rg _ _ _ | PublicIPAddresses_BeginCreateOrUpdate rg _ _ _
  | Interfaces_BeginCreateOrUpdate rg _ _ _ _ | VirtualMachines_BeginCreateOrUpdate rg _ _ _ _ _
  | VirtualMachines_Get rg _ | VirtualMachines_BeginDelete rg _
  | ManagedClusters_BeginCreateOrUpdate rg _ _ _ _ _ | ManagedClusters_Get rg _
  | ManagedClusters_BeginDelete rg _ | Plans_BeginCreateOrUpdate rg _ _ | Plans_Delete rg _
  | WebApps_BeginCreateOrUpdate rg _ _ _ | WebApps_Get rg _ | WebApps_Delete rg _
  | Zones_CreateOrUpdate rg _ | RecordSets_CreateOrUpdate rg _ _ _ _ _
  | RecordSets_Get rg _ _ _ | RecordSets_Delete rg _ _ _ => Some rg
  | PollUntilDone begin => resourceGroup begin
  | Blob_NewSharedKeyCredential _ _ | Blob_NewClientWithSharedKeyCredential _
  | Blob_CreateContainer _ _ | Blob_GetProperties _ _ | Blob_DeleteContainer _ _ => None
  end.

Definition groupOf (e : Event) : option string :=
  match e with
  | Answered (Azure c) _ => resourceGroup c
  | Answered _ _ => None
  end.

(** The sub-resource kinds of the instance chain on Azure. *)
Variant SubResource :=
| ResourceGroup | VirtualNetwork | Subnet | PublicAddress | NetworkInterface | VirtualMachine.

(** The sub-resource a call provisions, if it provisions one. *)
Definition provisions (e : Event) : option SubResource :=
  match e with
  | Answered (Azure (ResourceGroups_CreateOrUpdate _ _)) _ => Some ResourceGroup
  | Answered (Azure (VirtualNetworks_BeginCreateOrUpdate _ _ _ _)) _ => Some VirtualNetwork
  | Answered (Azure (Subnets_BeginCreateOrUpdate _ _ _ _)) _ => Some Subnet
  | Answered (Azure (PublicIPAddresses_BeginCreateOrUpdate _ _ _ _)) _ => Some PublicAddress
  | Answered (Azure (Interfaces_BeginCreateOrUpdate _ _ _ _ _)) _ => Some NetworkInterface
  | Answered (Azure (VirtualMachines_BeginCreateOrUpdate _ _ _ _ _ _)) _ => Some VirtualMachine
  | _ => None
  end.

(** *** What the backend said *)

Definition isOk {A} (a : Go A) : bool :=
  match a with Ok _ => true | Err _ => false end.

(** The answer to an existence probe says the resource is there, as the
    Read handlers judge it; any other call counts as found. *)
Definition foundAWS {T} (c : AWSCall T) : T -> bool :=
  match c in AWSCall T return T -> bool with
  | S3_HeadBucket _ => isOk
  | EC2_DescribeVpcs _ _ => fun a => match a with Ok (_ :: _) => true | _ => false end
  | EC2_DescribeInstances _ =>
    fun a => match a with Ok ((_ :: _) :: _) => true | _ => false end
  | EKS_DescribeCluster _ => isOk
  | Lambda_GetFunction _ => isOk
  | _ => fun _ => true
  end.

Definition foundAzure {T} (c : AzureCall T) : T -> bool :=
  match c in AzureCall T return T -> bool with
  | Blob_GetProperties _ _ => isOk
  | VirtualNetworks_Get _ _ => isOk
  | VirtualMachines_Get _ _ => isOk
  | ManagedClusters_Get _ _ => isOk
  | WebApps_Get _ _ => isOk
  | _ => fun _ => true
  end.

Definition foundGCP {T} (c : GCPCall T) : T -> bool :=
  match c in GCPCall T return T -> bool with
  | Storage_BucketAttrs _ => isOk
  | Networks_Get _ _ => isOk
  | Instances_Get _ _ _ => isOk
  | Clusters_Get _ => isOk
  | Functions_Get _ => isOk
  | _ => fun _ => true
  end.

Definition found (e : Event) : bool :=
  match e with
  | Answered c a =>
    match c in Call T return T -> bool with
    | AWS c => foundAWS c
    | Azure c => foundAzure c
    | GCP c => foundGCP c
    | Host _ => fun _ => true
    end a
  end.

(** An Azure subscription with nothing in it that grants every request:
    the subnet lookup finds no subnet, every provisioning call is
    accepted, and every finished operation names the resource it made. *)
Definition grants {T} (c : AzureCall T) : T -> bool :=
  match c in AzureCall T return T -> bool with
  | Subnets_Get _ _ _ => fun a => match a with Ok {| ID := Some _ |} => false | _ => true end
  | PollUntilDone _ => fun a => match a with Ok {| ID := Some _ |} => true | _ => false end
  | ResourceGroups_CreateOrUpdate _ _ => isOk
  | VirtualNetworks_BeginCreateOrUpdate _ _ _ _ => isOk
  | Subnets_BeginCreateOrUpdate _ _ _ _ => isOk
  | PublicIPAddresses_BeginCreateOrUpdate _ _ _ _ => isOk
  | Interfaces_BeginCreateOrUpdate _ _ _ _ _ => isOk
  | VirtualMachines_BeginCreateOrUpdate _ _ _ _ _ _ => isOk
  | _ => fun _ => true
  end.

Definition emptySubscription (backend : Backend) : Prop :=
  forall (T : Type) (history : list Event) (c : AzureCall T),
    grants c (backend T history (Azure c)) = true.

(** The size a virtual machine is requested with. *)
Definition requestedSize (e : Event) : option string :=
  match e with
  | Answered (Azure (VirtualMachines_BeginCreateOrUpdate _ _ _ size _ _)) _ => Some size
  | _ => None
  end.

(** The backend tags the handlers switch on. *)
Definition supported (tag : string) : bool :=
  (tag == "aws") || (tag == "azure") || (tag == "gcp").




(** A string of ASCII bytes. *)
Definition isASCII (s : string) : bool :=
  forallb (fun b => b <? GoStrings.RuneSelf) (GoStrings.bytes s).

(** The log of one wait on an operation: [polls] status polls with a
    five-second sleep after each poll that found the operation still
    running, ending when a poll finds it done ([Next]), when a poll fails
    (an error diagnostic and [Returned]), or not at all within the rounds
    followed ([Exhausted]). *)
Inductive Polling {A} (poll : Call (Go A)) (done : A -> bool) (summary : string)
  : nat -> list Event -> list Diagnostic -> Flow unit -> Prop :=
| polling_on : Polling poll done summary 0 [] [] Exhausted
| polling_done a :
    done a = true ->
    Polling poll done summary 1 [Answered poll (Ok a)] [] (Next tt)
| polling_failed e :
    Polling poll done summary 1 [Answered poll (Err e)] [AddedError summary e] Returned
| polling_round a polls events ds f :
    done a = false ->
    Polling poll done summary polls events ds f ->
    Polling poll done summary (S polls)
      (Answered poll (Ok a) :: Answered (Host (time_Sleep 5)) tt :: events) ds f.

(** A wait [w] that follows [Polling], whatever the backend answers; it
    gives up on its own at no point: when the model stops following it,
    every one of the [fuel] polls found the operation still running. *)
Definition waitsByPolling {R A} (w : nat -> string -> string -> M R unit)
    (poll : string -> Call (Go A)) (done : A -> bool) : Prop :=
  forall fuel backend r prior history summary op,
    let out := run (w fuel summary op) backend r prior history in
    exists polls,
      Polling (poll op) done summary polls (calls out) (diagnostics out) (flow out)
      /\ (polls <= fuel)%nat
      /\ (flow out = Exhausted -> polls = fuel)
      /\ record out = prior.

(** A wait that comes back for no amount of fuel. *)
Definition neverReturns {R} (w : nat -> M R unit) (backend : Backend) (r : R) : Prop :=
  forall fuel, flow (run (w fuel) backend r None []) = Exhausted.

(** ** Backends to run the handlers against *)

(** Every request is granted. *)
Definition acceptAWS {T} (c : AWSCall T) : T :=
  match c with
  | S3_CreateBucket _ _ | S3_PutBucketVersioning _ _ | S3_HeadBucket _
  | S3_DeleteBucket _ => Ok tt
  | EC2_CreateVpc _ => Ok (Some "vpc-1")
  | EC2_CreateTags _ _ _ => Ok tt
  | EC2_DescribeAvailabilityZones => Ok [Some "zone-a"]
  | EC2_CreateSubnet _ _ _ => Ok (Some "subnet-1")
  | EC2_CreateInternetGateway => Ok (Some "igw-1")
  | EC2_AttachInternetGateway _ _ => Ok tt
  | EC2_DescribeVpcs _ _ => Ok [Some "vpc-1"]
  | EC2_DescribeSubnets _ => Ok [Some "subnet-1"]
  | EC2_DetachInternetGateway _ _ | EC2_DeleteInternetGateway _ | EC2_DeleteSubnet _
  | EC2_DeleteVpc _ => Ok tt
  | EC2_RunInstances _ _ _ => Ok [Some "i-1"]
  | EC2_DescribeInstances _ => Ok [[Some "i-1"]]
  | EC2_TerminateInstances _ => Ok tt
  | EKS_CreateCluster _ _ _ | EKS_CreateNodegroup _ _ _ _ _ _ | EKS_DescribeCluster _
  | EKS_DeleteNodegroup _ _ | EKS_DeleteCluster _ => Ok tt
  | Lambda_CreateFunction _ _ _ _ _ | Lambda_GetFunction _ | Lambda_DeleteFunction _ => Ok tt
  | Route53_ListHostedZonesByName _ => Ok [Some "Z1"]
  | Route53_ChangeResourceRecordSets _ _ _ _ _ _ => Ok tt
  | Route53_ListResourceRecordSets _ _ _ => Ok ["rr"]
  end.

Definition acceptAzure {T} (c : AzureCall T) : T :=
  match c with
  | ResourceGroups_CreateOrUpdate _ _ => Ok tt
  | Accounts_BeginCreate _ _ _ => Ok poller
  | Accounts_ListKeys _ _ => Ok [Some "key"]
  | Accounts_Delete _ _ => Ok tt
  | Blob_NewSharedKeyCredential _ _ | Blob_NewClientWithSharedKeyCredential _
  | Blob_CreateContainer _ _ | Blob_GetProperties _ _ | Blob_DeleteContainer _ _ => Ok tt
  | VirtualNetworks_BeginCreateOrUpdate _ _ _ _ => Ok poller
  | VirtualNetworks_Get _ n => Ok {| ID := Some n |}
  | VirtualNetworks_BeginDelete _ _ => Ok poller
  | Subnets_Get _ _ n => Ok {| ID := Some n |}
  | Subnets_BeginCreateOrUpdate _ _ _ _ => Ok poller
  | PublicIPAddresses_BeginCreateOrUpdate _ _ _ _ => Ok poller
  | Interfaces_BeginCreateOrUpdate _ _ _ _ _ => Ok poller
  | VirtualMachines_BeginCreateOrUpdate _ _ _ _ _ _ => Ok poller
  | VirtualMachines_Get _ n => Ok {| ID := Some n |}
  | VirtualMachines_BeginDelete _ _ => Ok poller
  | ManagedClusters_BeginCreateOrUpdate _ _ _ _ _ _ => Ok poller
  | ManagedClusters_Get _ n => Ok {| ID := Some n |}
  | ManagedClusters_BeginDelete _ _ => Ok poller
  | Plans_BeginCreateOrUpdate _ _ _ => Ok poller
  | Plans_Delete _ _ => Ok tt
  | WebApps_BeginCreateOrUpdate _ _ _ _ => Ok poller
  | WebApps_Get _ n => Ok {| ID := Some n |}
  | WebApps_Delete _ _ => Ok tt
  | Zones_CreateOrUpdate _ _ => Ok tt
  | RecordSets_CreateOrUpdate _ _ _ _ _ _ => Ok tt
  | RecordSets_Get _ _ n _ => Ok {| ID := Some n |}
  | RecordSets_Delete _ _ _ _ => Ok tt
  | PollUntilDone _ => Ok {| ID := Some "/subscriptions/s/resourceGroups/g/providers/p/n" |}
  end.

Definition acceptGCP {T} (c : GCPCall T) : T :=
  match c with
  | Storage_BucketCreate _ _ _ _ | Storage_BucketAttrs _ | Storage_BucketUpdate _ _
  | Storage_BucketDelete _ => Ok tt
  | Networks_Insert _ _ _ | Networks_Get _ _ | Networks_Delete _ _
  | Subnetworks_Insert _ _ _ _ _ | Subnetworks_Delete _ _ _
  | Instances_Insert _ _ _ _ _ _ _ | Instances_Get _ _ _ | Instances_Delete _ _ _ => Ok tt
  | Clusters_Create _ _ _ _ => Ok "operation-1"
  | Clusters_Get _ => Ok tt
  | Clusters_Delete _ => Ok "operation-1"
  | Container_OperationsGet _ => Ok "DONE"
  | Functions_GenerateUploadUrl _ => Ok "https://upload.example"
  | Functions_Create _ _ _ _ _ => Ok "operation-1"
  | Functions_Get _ => Ok tt
  | Functions_Delete _ => Ok "operation-1"
  | Functions_OperationsGet _ => Ok true
  | ManagedZones_Get _ _ | ManagedZones_Create _ _ _ | Changes_Create _ _ _ _ _ _ _ => Ok tt
  | ResourceRecordSets_List _ _ _ _ => Ok ["rr"]
  end.

Definition acceptHost {T} (c : HostCall T) : T :=
  match c with
  | os_Getenv _ => "arn:aws:iam::1:role/r"
  | ioutil_ReadFile _ => Ok "PK"
  | http_NewRequestWithContext _ _ _ | http_Do _ _ _ _ => Ok tt
  | time_Sleep _ => tt
  end.

(** A backend whose answers do not depend on what happened before. *)
Definition backendOf (aws : forall T, AWSCall T -> T) (azure : forall T, AzureCall T -> T)
    (gcp : forall T, GCPCall T -> T) (host : forall T, HostCall T -> T) : Backend :=
  fun T _ c =>
    match c in Call T return T with
    | AWS c => aws _ c
    | Azure c => azure _ c
    | GCP c => gcp _ c
    | Host c => host _ c
    end.

Definition accepting : Backend :=
  backendOf (@acceptAWS) (@acceptAzure) (@acceptGCP) (@acceptHost).


(** Whatever the record names is gone: lookups and deletions answer
    not-found. *)
Definition goneAWS {T} (c : AWSCall T) : T :=
  match c in AWSCall T return T with
  | S3_HeadBucket _ => Err "NotFound"
  | S3_DeleteBucket _ => Err "NoSuchBucket"
  | EC2_DescribeVpcs _ _ => Err "InvalidVpcID.NotFound"
  | EC2_DescribeInstances _ => Err "InvalidInstanceID.NotFound"
  | EC2_TerminateInstances _ => Err "InvalidInstanceID.NotFound"
  | EC2_DeleteVpc _ => Err "InvalidVpcID.NotFound"
  | c => acceptAWS c
  end.

Definition gone : Backend :=
  backendOf (@goneAWS) (@acceptAzure) (@acceptGCP) (@acceptHost).

(** An Azure subscription without the shared virtual network. *)
Definition emptyAzure : Backend :=
  backendOf (@acceptAWS)
            (fun T c => match c in AzureCall T return T with
                        | Subnets_Get _ _ _ => Err "ResourceNotFound"
                        | c => acceptAzure c
                        end)
            (@acceptGCP) (@acceptHost).

(** Operations that stay in progress for ever. *)
Definition stuck : Backend :=
  backendOf (@acceptAWS) (@acceptAzure)
            (fun T c => match c in GCPCall T return T with
                        | Container_OperationsGet _ => Ok "RUNNING"
                        | Functions_OperationsGet _ => Ok false
                        | c => acceptGCP c
                        end)
            (@acceptHost).

(** The status polls already in a log. *)
Definition isStatusPoll (e : Event) : bool :=
  match e with
  | Answered (GCP (Container_OperationsGet _)) _ => true
  | Answered (GCP (Functions_OperationsGet _)) _ => true
  | _ => false
  end.

Definition pollsSoFar (history : list Event) : nat :=
  List.length (List.filter isStatusPoll history).

(** Operations that are found done from the poll after the [k]-th on. *)
Definition doneAfter (k : nat) : Backend :=
  fun T history c =>
    match c in Call T return T with
    | GCP c =>
      match c in GCPCall T return T with
      | Container_OperationsGet _ =>
        if (pollsSoFar history <? k)%nat then Ok "RUNNING" else Ok "DONE"
      | Functions_OperationsGet _ =>
        if (pollsSoFar history <? k)%nat then Ok false else Ok true
      | c => acceptGCP c
      end
    | AWS c => acceptAWS c
    | Azure c => acceptAzure c
    | Host c => acceptHost c
    end.

(** The identifiers as the SDKs define them. *)
Definition sdkValues : SDKConstants :=
  {| InstanceTypeT3Small := "t3.small";
     InstanceTypeT3Medium := "t3.medium";
     InstanceTypeT3Large := "t3.large";
     VirtualMachineSizeTypesStandardB1S := "Standard_B1s";
     VirtualMachineSizeTypesStandardB2S := "Standard_B2s";
     VirtualMachineSizeTypesStandardB4Ms := "Standard_B4ms" |}.

(** A case table that leaves every rune above ASCII as it is; the runs
    below use it on names whose non-ASCII runes have no other case. *)
Definition caseless (r : Z) : Z := r.

(** Resource structs of a provider configured for all three clouds. *)
Definition bucketResource : Bucket.Resource :=
  {| Bucket.s3 := LiveClient; Bucket.azureRG := LiveClient; Bucket.azureAcct := LiveClient;
     Bucket.azureCont := LiveClient; Bucket.azureLoc := "westeurope";
     Bucket.gcpStorage := LiveClient; Bucket.gcpProject := "proj"; Bucket.gcpRegion := "" |}.

Definition networkResource : Network.Resource :=
  {| Network.ec2 := LiveClient; Network.azureV := LiveClient; Network.azureS := LiveClient;
     Network.azureRG := LiveClient; Network.azureLoc := ""; Network.gcp := LiveClient;
     Network.gcpProj := "proj"; Network.gcpRegion := "" |}.

Definition instanceResource : Instance.Resource :=
  {| Instance.ec2 := LiveClient; Instance.azureVM := LiveClient;
     Instance.azureNIC := LiveClient; Instance.azurePIP := LiveClient;
     Instance.azureRG := LiveClient; Instance.azureVNet := LiveClient;
     Instance.azureSub := LiveClient; Instance.azureLoc := "westeurope";
     Instance.gcp := LiveClient; Instance.gcpProj := "proj"; Instance.gcpRegion := "" |}.

Definition clusterResource : Cluster.Resource :=
  {| Cluster.eks := LiveClient; Cluster.ec2 := LiveClient; Cluster.azureAKS := LiveClient;
     Cluster.azureRG := LiveClient; Cluster.azureLoc := ""; Cluster.gke := LiveClient;
     Cluster.gcpProj := "proj"; Cluster.gcpRegion := "" |}.

Definition functionResource : Function.Resource :=
  {| Function.lambda := LiveClient; Function.azureWeb := LiveClient;
     Function.azurePlan := LiveClient; Function.azureRG := LiveClient;
     Function.azureAcct := LiveClient; Function.azureSub := "sub";
     Function.azureLoc := ""; Function.gcpFunc := LiveClient;
     Function.gcpProj := "proj"; Function.gcpRegion := "" |}.

Definition dnsResource : DNSRecord.Resource :=
  {| DNSRecord.route53 := LiveClient; DNSRecord.azureRG := LiveClient;
     DNSRecord.azureZones := LiveClient; DNSRecord.azureRecords := LiveClient;
     DNSRecord.gcpDNS := LiveClient; DNSRecord.gcpProject := "proj" |}.

(** Inputs of the runs below. *)
Definition awsNetworkPlan : Attrs :=
  list_to_map [("name", VString "net"); ("type", VString "aws")].

Definition awsBucketRecord : Attrs :=
  list_to_map [("id", VString "my-bucket-1"); ("name", VString "my-bucket-1");
               ("type", VString "aws"); ("region", VString ""); ("versioning", VBool false)].

Definition awsInstanceRecord : Attrs :=
  list_to_map [("id", VString "i-1"); ("name", VString "vm"); ("type", VString "aws");
               ("region", VString ""); ("image", VString "ami-1"); ("size", VString "t3.small");
               ("public_ip", VBool false)].

Definition oracleNetworkRecord : Attrs :=
  list_to_map [("id", VString "ocid1.vcn"); ("name", VString "net"); ("type", VString "oracle")].

Definition azureInstancePlan : Attrs :=
  list_to_map [("name", VString "vm"); ("type", VString "azure"); ("size", VString "small")].

Definition azureDNSPlan : Attrs :=
  list_to_map [("name", VString "www"); ("zone", VString "example.org");
               ("type", VString "azure"); ("value", VString "192.0.2.1")].

Definition awsNetworkRecord : Attrs :=
  list_to_map [("id", VString "vpc-1"); ("name", VString "net"); ("type", VString "aws");
               ("cidr", VString "10.0.0.0/16"); ("subnet_id", VString "subnet-1");
               ("gateway_id", VString "igw-1")].

Definition azureBucketRecord : Attrs :=
  list_to_map [("id", VString "backups"); ("name", VString "backups");
               ("type", VString "azure"); ("account", VString "backups");
               ("container", VString "backups"); ("resource_group", VString "abstract-rg")].

(** A bucket record whose stored group is another one. *)
Definition movedBucketRecord : Attrs :=
  <["resource_group" := VString "legacy-rg"]> azureBucketRecord.

(** [strings.EqualFold] on ASCII strings. *)
Definition foldASCII (s t : string) : bool :=
  GoStrings.ToLower caseless s == GoStrings.ToLower caseless t.

(** Twenty-three ASCII letters and an e-acute (bytes 195, 169): the
    24-byte cut falls inside the last character. *)
Definition splitName : string :=
  GoStrings.of_bytes (repeat 97 23 ++ [195; 169]).

(** A property of every call a computation makes; the log only grows. *)
Definition emits {R A} (P : Event -> Prop) (m : M R A) : Prop :=
  forall b ctx, exists new, log (snd (m b ctx)) = (log ctx ++ new)%list /\ Forall P new.


(** Any call at all. *)
Definition anyCall (e : Event) : Prop := True.

(** Azure management calls that address the group [g]; a call that names
    no group is not constrained. *)
Definition inGroup (g : string) (e : Event) : Prop :=
  match groupOf e with Some g' => g' = g | None => True end.

(** A handler all of whose calls address the group [g], whatever the
    receiver and the prior record. *)
Definition addresses {R} (g : string) (backend : Backend) (history : list Event)
    (h : M R unit) : Prop :=
  forall r prior, Forall (inGroup g) (calls (run h backend r prior history)).

(** The byte of a character. *)
Definition byteOf (a : ascii) : Z := Z.of_N (N_of_ascii a).

(** A string the ASCII path of [ToLower] leaves alone. *)
Definition lowered (s : string) : Prop :=
  isASCII s = true /\ existsb GoStrings.isUpperByte (GoStrings.bytes s) = false.

(** What the ASCII path of [ToLower] does to a byte. *)
Definition lowerByte (b : Z) : Z := if GoStrings.isUpperByte b then b + 32 else b.

(** The shape shared by the three size switches of the instance's
    Create: an empty size reads as small, a generic class picks the
    identifier given for it, anything else is kept. *)
Definition sizeSwitch (tl : Z -> Z) (small medium large : string) (Size : string) : string :=
  let size := if Size == "" then "small" else Size in
  let lower := GoStrings.ToLower tl size in
  if lower == "small" then small
  else if lower == "medium" then medium
  else if lower == "large" then large
  else size.

(** Calls that change a bucket's versioning where it stands. *)
Definition mutatesInPlace (e : Event) : bool :=
  match e with
  | Answered (AWS (S3_PutBucketVersioning _ _)) _ => true
  | Answered (GCP (Storage_BucketUpdate _ _)) _ => true
  | _ => false
  end.

(** A handler that reports "unsupported cloud" and does nothing else. *)
Definition refuses {R} (out : Outcome R) (r : R) (prior : option Attrs) : Prop :=
  finished (flow out) = true /\ calls out = [] /\ record out = prior /\ self' out = r
  /\ exists d, diagnostics out = [AddedError "unsupported cloud" d].

(** A handler that does nothing at all. *)
Definition ignores {R} (out : Outcome R) (r : R) (prior : option Attrs) : Prop :=
  finished (flow out) = true /\ calls out = [] /\ record out = prior /\ self' out = r
  /\ diagnostics out = [].

(** ** Further observations of a run *)

(** The call of an event, without its answer. *)
Inductive Request : Type :=
| Asked : forall T : Type, Call T -> Request.
Arguments Asked {T} c.

Definition request (e : Event) : Request :=
  match e with Answered c _ => Asked c end.

(** The error of an event that is a failed [DeleteVpc]. *)
Definition vpcDeletionError (e : Event) : option string :=
  match e with
  | Answered c a =>
    match c in Call T return T -> option string with
    | AWS c =>
      match c in AWSCall T return T -> option string with
      | EC2_DeleteVpc _ => fun a => match a with Err e => Some e | Ok _ => None end
      | _ => fun _ => None
      end
    | _ => fun _ => None
    end a
  end.


(** A backend on which the parts of a network cannot be torn down. *)
Definition refusingAWS {T} (c : AWSCall T) : T :=
  match c in AWSCall T return T with
  | EC2_DetachInternetGateway _ _ => Err "DependencyViolation"
  | EC2_DeleteInternetGateway _ => Err "DependencyViolation"
  | EC2_DeleteSubnet _ => Err "DependencyViolation"
  | c => acceptAWS c
  end.

Definition refusing : Backend :=
  backendOf (@refusingAWS) (@acceptAzure) (@acceptGCP) (@acceptHost).



Definition gkePlan : Attrs :=
  list_to_map [("name", VString "k8s"); ("type", VString "gcp");
               ("region", VString "europe-west1")].

Definition gkeRecord : Attrs :=
  list_to_map [("id", VString "k8s"); ("name", VString "k8s"); ("type", VString "gcp");
               ("region", VString "europe-west1"); ("node_count", VInt64 3);
               ("node_size", VString "e2-medium")].

(** The full name a Cloud Functions call addresses. *)
Definition functionPath (e : Event) : option string :=
  match e with
  | Answered (GCP (Functions_Create _ name _ _ _)) _ => Some name
  | Answered (GCP (Functions_Get name)) _ => Some name
  | Answered (GCP (Functions_Delete name)) _ => Some name
  | _ => None
  end.

Definition gcpFunctionPlan : Attrs :=
  list_to_map [("name", VString "hello"); ("type", VString "gcp");
               ("region", VString "europe-west1"); ("runtime", VString "go121");
               ("handler", VString "Hello"); ("code", VString "hello.zip")].

Definition gcpFunctionRecord : Attrs :=
  list_to_map [("id", VString "hello"); ("name", VString "hello"); ("type", VString "gcp");
               ("region", VString "europe-west1"); ("runtime", VString "go121");
               ("handler", VString "Hello"); ("code", VString "hello.zip")].

(** A handler that reports one error, makes no call and leaves
    everything as it was. *)
Definition complains {R} (out : Outcome R) (r : R) (prior : option Attrs) : Prop :=
  flow out = Returned /\ calls out = [] /\ record out = prior /\ self' out = r
  /\ exists s d, diagnostics out = [AddedError s d].

(** The location an Azure provisioning call is made for. *)
Fixpoint azureLocation {T} (c : AzureCall T) : option string :=
  match c with
  | ResourceGroups_CreateOrUpdate _ location | Accounts_BeginCreate _ _ location
  | VirtualNetworks_BeginCreateOrUpdate _ _ location _
  | PublicIPAddresses_BeginCreateOrUpdate _ _ location _
  | Interfaces_BeginCreateOrUpdate _ _ location _ _
  | VirtualMachines_BeginCreateOrUpdate _ _ location _ _ _
  | ManagedClusters_BeginCreateOrUpdate _ _ location _ _ _
  | Plans_BeginCreateOrUpdate _ _ location | WebApps_BeginCreateOrUpdate _ _ location _ =>
    Some location
  | PollUntilDone begin => azureLocation begin
  | _ => None
  end.

Definition locationOf (e : Event) : option string :=
  match e with
  | Answered (Azure c) _ => azureLocation c
  | Answered _ _ => None
  end.

(** Every location named by the calls is [loc]. *)
Definition locatedIn (loc : string) (es : list Event) : Prop :=
  Forall (fun l => l = loc) (omap locationOf es).

(** A network resource as [NewNetworkResource] makes it, before any
    Configure. *)
Definition bareNetwork : Network.Resource :=
  {| Network.ec2 := NilClient; Network.azureV := NilClient; Network.azureS := NilClient;
     Network.azureRG := NilClient; Network.azureLoc := ""; Network.gcp := NilClient;
     Network.gcpProj := ""; Network.gcpRegion := "" |}.

Definition azureInstanceInNorth : Attrs :=
  <["region" := VString "northeurope"]> azureInstancePlan.

(** The name under which a finished Azure operation made a virtual
    network or a virtual machine, and the id it answered. *)
Definition madeOnAzure (e : Event) : option (string * string) :=
  match e with
  | Answered c a =>
    match c in Call T return T -> option (string * string) with
    | Azure c =>
      match c in AzureCall T return T -> option (string * string) with
      | PollUntilDone begin =>
        fun a =>
          match begin, a with
          | VirtualNetworks_BeginCreateOrUpdate _ name _ _, Ok resp
          | VirtualMachines_BeginCreateOrUpdate _ name _ _ _ _, Ok resp =>
            Some (name, match ID resp with Some i => i | None => "" end)
          | _, _ => None
          end
      | _ => fun _ => None
      end
    | _ => fun _ => None
    end a
  end.

(** The name an Azure call looks a network or a machine up by. *)
Definition lookedUpOnAzure (e : Event) : option string :=
  match e with
  | Answered (Azure (VirtualNetworks_Get _ name)) _
  | Answered (Azure (VirtualNetworks_BeginDelete _ name)) _
  | Answered (Azure (VirtualMachines_Get _ name)) _
  | Answered (Azure (VirtualMachines_BeginDelete _ name)) _ => Some name
  | _ => None
  end.

(** An Azure that knows its resources by name, as the management API
    does: a lookup succeeds for a name that was created, and for no
    other. *)
Definition createdNames (history : list Event) : list string :=
  fst <$> omap madeOnAzure history.

Definition byName : Backend :=
  fun T history c =>
    match c in Call T return T with
    | Azure c =>
      match c in AzureCall T return T with
      | VirtualNetworks_Get _ name =>
        if bool_decide (name ∈ createdNames history) then Ok {| ID := Some name |}
        else Err "ResourceNotFound"
      | VirtualMachines_Get _ name =>
        if bool_decide (name ∈ createdNames history) then Ok {| ID := Some name |}
        else Err "ResourceNotFound"
      | c => acceptAzure c
      end
    | AWS c => acceptAWS c
    | GCP c => acceptGCP c
    | Host c => acceptHost c
    end.

Definition azureNetworkPlan : Attrs :=
  list_to_map [("name", VString "net"); ("type", VString "azure")].

Definition azureNetworkRecord : Attrs :=
  list_to_map [("id", VString "/subscriptions/s/resourceGroups/g/providers/p/n");
               ("name", VString "net"); ("cidr", VString "10.0.0.0/16");
               ("type", VString "azure");
               ("subnet_id", VString "/subscriptions/s/resourceGroups/g/providers/p/n")].

(** The record type of a record set made on Azure, and the record type
    named to Route 53. *)
Definition azureRecordType (e : Event) : option RecordType :=
  match e with
  | Answered (Azure (RecordSets_CreateOrUpdate _ _ _ recordType _ _)) _ => Some recordType
  | _ => None
  end.

Definition route53RecordType (e : Event) : option string :=
  match e with
  | Answered (AWS (Route53_ChangeResourceRecordSets _ Upsert _ rrType _ _)) _ => Some rrType
  | _ => None
  end.

(** What the code relies on of [strings.EqualFold]: a string equal to
    "CNAME" under case folding is, in lower case, "cname". *)
Definition foldsToCNAME (toLowerCase : Z -> Z) (EqualFold : string -> string -> bool) : Prop :=
  forall s, EqualFold s "CNAME" = true -> GoStrings.ToLower toLowerCase s = "cname".

(** A backend on which the app of a function cannot be deleted, nor its
    plan, nor its storage account. *)
Definition lockedAzure {T} (c : AzureCall T) : T :=
  match c in AzureCall T return T with
  | WebApps_Delete _ _ => Err "ScopeLocked"
  | Plans_Delete _ _ => Err "ScopeLocked"
  | Accounts_Delete _ _ => Err "ScopeLocked"
  | c => acceptAzure c
  end.

Definition locked : Backend :=
  backendOf (@acceptAWS) (@lockedAzure) (@acceptGCP) (@acceptHost).

(** An Azure whose storage account lists a key without a value. *)
Definition keylessAzure {T} (c : AzureCall T) : T :=
  match c in AzureCall T return T with
  | Accounts_ListKeys _ _ => Ok [None]
  | c => acceptAzure c
  end.

Definition keyless : Backend :=
  backendOf (@acceptAWS) (@keylessAzure) (@acceptGCP) (@acceptHost).

Definition azureFunctionRecord : Attrs :=
  list_to_map [("id", VString "hello"); ("name", VString "hello"); ("type", VString "azure");
               ("region", VString "westeurope"); ("account", VString "hello");
               ("plan", VString "hello-plan"); ("resource_group", VString "abstract-rg")].

Definition cnamePlan : Attrs :=
  list_to_map [("name", VString "www"); ("zone", VString "example.org");
               ("type", VString "CNAME"); ("value", VString "host.example.net")].

Definition manyNodesPlan : Attrs :=
  list_to_map [("name", VString "aks"); ("type", VString "azure");
               ("node_count", VInt64 4294967298)].

Definition manyNodesRecord : Attrs :=
  list_to_map [("id", VString "aks"); ("name", VString "aks"); ("type", VString "azure");
               ("region", VString "eastus"); ("node_count", VInt64 2);
               ("node_size", VString "Standard_DS2_v2")].

(** The two ways a Create comes back: with an error and no record, or
    with a record of the planned type and no error. *)
Definition allOrNothing {R} (plan : Attrs) (out : Outcome R) : Prop :=
  finished (flow out) = true ->
  (diagnostics out <> [] /\ record out = None)
  \/ (diagnostics out = []
      /\ exists rec, record out = Some rec
                     /\ ValueString rec "type" = ValueString plan "type").

(** ** The provider (abstractProvider, in provider/resources/cluster.go)

    [Configure] reads the provider block, builds the clients of each cloud
    that is configured and hands them to the resources in a
    [shared.ProviderConfig]. *)

Module Provider.

Record abstractProvider := {
    s3 : ClientPtr;
    ec2 : ClientPtr;
    eks : ClientPtr;
    lambda : ClientPtr;
    rds : ClientPtr;
    sqs : ClientPtr;
    ecr : ClientPtr;
    ecs : ClientPtr;
    elb : ClientPtr;
    route53 : ClientPtr;
    secrets : ClientPtr;
    azureRG : ClientPtr;
    azureAcct : ClientPtr;
    azureCont : ClientPtr;
    azureVNet : ClientPtr;
    azureSubnets : ClientPtr;
    azureNIC : ClientPtr;
    azurePIP : ClientPtr;
    azureLB : ClientPtr;
    azureVM : ClientPtr;
    azureAKS : ClientPtr;
    azureWeb : ClientPtr;
    azurePlan : ClientPtr;
    azureMySQL : ClientPtr;
    azurePostgres : ClientPtr;
    azureRegistry : ClientPtr;
    azureCI : ClientPtr;
    azureDNSZones : ClientPtr;
    azureDNSRecords : ClientPtr;
    azureSubID : string;
    azureCred : ClientPtr;
    azureLoc : string;
    gcpStorage : ClientPtr;
    gcpCompute : ClientPtr;
    gcpGKE : ClientPtr;
    gcpFunctions : ClientPtr;
    gcpSQL : ClientPtr;
    gcpDNS : ClientPtr;
    gcpSecrets : ClientPtr;
    gcpProject : string;
    gcpRegion : string
  }.

(** [New]: [&abstractProvider{}] *)
Definition New : abstractProvider :=
  {|
    s3 := NilClient; ec2 := NilClient; eks := NilClient; lambda := NilClient;
    rds := NilClient; sqs := NilClient; ecr := NilClient; ecs := NilClient;
    elb := NilClient; route53 := NilClient; secrets := NilClient; azureRG := NilClient;
    azureAcct := NilClient; azureCont := NilClient; azureVNet := NilClient;
    azureSubnets := NilClient; azureNIC := NilClient; azurePIP := NilClient;
    azureLB := NilClient; azureVM := NilClient; azureAKS := NilClient;
    azureWeb := NilClient; azurePlan := NilClient; azureMySQL := NilClient;
    azurePostgres := NilClient; azureRegistry := NilClient; azureCI := NilClient;
    azureDNSZones := NilClient; azureDNSRecords := NilClient; azureSubID := "";
    azureCred := NilClient; azureLoc := ""; gcpStorage := NilClient;
    gcpCompute := NilClient; gcpGKE := NilClient; gcpFunctions := NilClient;
    gcpSQL := NilClient; gcpDNS := NilClient; gcpSecrets := NilClient; gcpProject := "";
    gcpRegion := ""
  |}.

(** The provider block, as [req.Config.Get] decodes it into [cfg]. *)
Record Config := {
    AWS_Region : string;
    AWS_AccessKey : string;
    AWS_SecretKey : string;
    Azure_SubscriptionID : string;
    Azure_ClientID : string;
    Azure_ClientSecret : string;
    Azure_TenantID : string;
    Azure_Location : string;
    GCP_Project : string;
    GCP_Region : string;
    GCP_Credentials : string
  }.

(** The constructors of the SDKs that can fail.  The AWS clients come from
    [NewFromConfig], which cannot. *)
Variant Constructor :=
| awsconfig_LoadDefaultConfig
| azidentity_NewClientSecretCredential (tenantID clientID clientSecret : string)
| armresources_NewResourceGroupsClient (subscriptionID : string)
| armstorage_NewAccountsClient (subscriptionID : string)
| armstorage_NewBlobContainersClient (subscriptionID : string)
| armnetwork_NewVirtualNetworksClient (subscriptionID : string)
| armnetwork_NewSubnetsClient (subscriptionID : string)
| armnetwork_NewInterfacesClient (subscriptionID : string)
| armnetwork_NewPublicIPAddressesClient (subscriptionID : string)
| armnetwork_NewLoadBalancersClient (subscriptionID : string)
| armcompute_NewVirtualMachinesClient (subscriptionID : string)
| armcontainerservice_NewManagedClustersClient (subscriptionID : string)
| armappservice_NewWebAppsClient (subscriptionID : string)
| armappservice_NewPlansClient (subscriptionID : string)
| armmysqlflexibleservers_NewServersClient (subscriptionID : string)
| armpostgresqlflexibleservers_NewServersClient (subscriptionID : string)
| armcontainerregistry_NewRegistriesClient (subscriptionID : string)
| ci_NewContainerGroupsClient (subscriptionID : string)
| armdns_NewZonesClient (subscriptionID : string)
| armdns_NewRecordSetsClient (subscriptionID : string)
| storage_NewClient (credentialsJSON : list string)
| compute_NewService (credentialsJSON : list string)
| container_NewService (credentialsJSON : list string)
| cloudfunctions_NewService (credentialsJSON : list string)
| secretmanager_NewService (credentialsJSON : list string)
| dnsapi_NewService (credentialsJSON : list string)
| sqladmin_NewService (credentialsJSON : list string).

(** What a constructor answers: its error, if any. *)
Definition SDK := Constructor -> option string.

(** A run of [x, err := New...(...); if err != nil {
    resp.Diagnostics.AddError(summary, err.Error()); return }] steps: the
    diagnostic of the first that fails. *)
Fixpoint construct (sdk : SDK) (steps : list (Constructor * string)) : option Diagnostic :=
  match steps with
  | [] => None
  | (c, summary) :: steps =>
    match sdk c with
    | Some e => Some (AddedError summary e)
    | None => construct sdk steps
    end
  end.

Definition azureSteps (cfg : Config) : list (Constructor * string) :=
  let sub := Azure_SubscriptionID cfg in
  [(azidentity_NewClientSecretCredential (Azure_TenantID cfg) (Azure_ClientID cfg)
      (Azure_ClientSecret cfg), "azure credential");
   (armresources_NewResourceGroupsClient sub, "azure rg client");
   (armstorage_NewAccountsClient sub, "azure account client");
   (armstorage_NewBlobContainersClient sub, "azure container client");
   (armnetwork_NewVirtualNetworksClient sub, "azure vnet client");
   (armnetwork_NewSubnetsClient sub, "azure subnet client");
   (armnetwork_NewInterfacesClient sub, "azure nic client");
   (armnetwork_NewPublicIPAddressesClient sub, "azure pip client");
   (armnetwork_NewLoadBalancersClient sub, "azure lb client");
   (armcompute_NewVirtualMachinesClient sub, "azure vm client");
   (armcontainerservice_NewManagedClustersClient sub, "azure aks client");
   (armappservice_NewWebAppsClient sub, "azure web client");
   (armappservice_NewPlansClient sub, "azure plan client");
   (armmysqlflexibleservers_NewServersClient sub, "azure mysql client");
   (armpostgresqlflexibleservers_NewServersClient sub, "azure postgres client");
   (armcontainerregistry_NewRegistriesClient sub, "azure registry client");
   (ci_NewContainerGroupsClient sub, "azure container client");
   (armdns_NewZonesClient sub, "azure dns zone client");
   (armdns_NewRecordSetsClient sub, "azure dns record client")].

Definition gcpSteps (cfg : Config) : list (Constructor * string) :=
  let opts := if GCP_Credentials cfg == "" then [] else [GCP_Credentials cfg] in
  [(storage_NewClient opts, "gcp storage client");
   (compute_NewService opts, "gcp compute client");
   (container_NewService opts, "gcp gke client");
   (cloudfunctions_NewService opts, "gcp functions client");
   (secretmanager_NewService opts, "gcp secret client");
   (dnsapi_NewService opts, "gcp dns client");
   (sqladmin_NewService opts, "gcp sql client")].

(** [p.s3 = s3.NewFromConfig(awsCfg)] and the ten assignments after it *)
Definition withAWSClients (p : abstractProvider) : abstractProvider :=
  {|
    s3 := LiveClient; ec2 := LiveClient; eks := LiveClient; lambda := LiveClient;
    rds := LiveClient; sqs := LiveClient; ecr := LiveClient; ecs := LiveClient;
    elb := LiveClient; route53 := LiveClient; secrets := LiveClient; azureRG := azureRG p;
    azureAcct := azureAcct p; azureCont := azureCont p; azureVNet := azureVNet p;
    azureSubnets := azureSubnets p; azureNIC := azureNIC p; azurePIP := azurePIP p;
    azureLB := azureLB p; azureVM := azureVM p; azureAKS := azureAKS p;
    azureWeb := azureWeb p; azurePlan := azurePlan p; azureMySQL := azureMySQL p;
    azurePostgres := azurePostgres p; azureRegistry := azureRegistry p;
    azureCI := azureCI p; azureDNSZones := azureDNSZones p;
    azureDNSRecords := azureDNSRecords p; azureSubID := azureSubID p;
    azureCred := azureCred p; azureLoc := azureLoc p; gcpStorage := gcpStorage p;
    gcpCompute := gcpCompute p; gcpGKE := gcpGKE p; gcpFunctions := gcpFunctions p;
    gcpSQL := gcpSQL p; gcpDNS := gcpDNS p; gcpSecrets := gcpSecrets p;
    gcpProject := gcpProject p; gcpRegion := gcpRegion p
  |}.

(** [p.azureRG = rgClient] ... [p.azureLoc = cfg.Azure.Location] *)
Definition withAzureClients (cfg : Config) (p : abstractProvider) : abstractProvider :=
  {|
    s3 := s3 p; ec2 := ec2 p; eks := eks p; lambda := lambda p; rds := rds p; sqs := sqs p;
    ecr := ecr p; ecs := ecs p; elb := elb p; route53 := route53 p; secrets := secrets p;
    azureRG := LiveClient; azureAcct := LiveClient; azureCont := LiveClient;
    azureVNet := LiveClient; azureSubnets := LiveClient; azureNIC := LiveClient;
    azurePIP := LiveClient; azureLB := LiveClient; azureVM := LiveClient;
    azureAKS := LiveClient; azureWeb := LiveClient; azurePlan := LiveClient;
    azureMySQL := LiveClient; azurePostgres := LiveClient; azureRegistry := LiveClient;
    azureCI := LiveClient; azureDNSZones := LiveClient; azureDNSRecords := LiveClient;
    azureSubID := Azure_SubscriptionID cfg; azureCred := LiveClient;
    azureLoc := Azure_Location cfg; gcpStorage := gcpStorage p; gcpCompute := gcpCompute p;
    gcpGKE := gcpGKE p; gcpFunctions := gcpFunctions p; gcpSQL := gcpSQL p;
    gcpDNS := gcpDNS p; gcpSecrets := gcpSecrets p; gcpProject := gcpProject p;
    gcpRegion := gcpRegion p
  |}.

(** [p.gcpStorage = storageClient] ... [p.gcpRegion = cfg.GCP.Region] *)
Definition withGCPClients (cfg : Config) (p : abstractProvider) : abstractProvider :=
  {|
    s3 := s3 p; ec2 := ec2 p; eks := eks p; lambda := lambda p; rds := rds p; sqs := sqs p;
    ecr := ecr p; ecs := ecs p; elb := elb p; route53 := route53 p; secrets := secrets p;
    azureRG := azureRG p; azureAcct := azureAcct p; azureCont := azureCont p;
    azureVNet := azureVNet p; azureSubnets := azureSubnets p; azureNIC := azureNIC p;
    azurePIP := azurePIP p; azureLB := azureLB p; azureVM := azureVM p;
    azureAKS := azureAKS p; azureWeb := azureWeb p; azurePlan := azurePlan p;
    azureMySQL := azureMySQL p; azurePostgres := azurePostgres p;
    azureRegistry := azureRegistry p; azureCI := azureCI p;
    azureDNSZones := azureDNSZones p; azureDNSRecords := azureDNSRecords p;
    azureSubID := azureSubID p; azureCred := azureCred p; azureLoc := azureLoc p;
    gcpStorage := LiveClient; gcpCompute := LiveClient; gcpGKE := LiveClient;
    gcpFunctions := LiveClient; gcpSQL := LiveClient; gcpDNS := LiveClient;
    gcpSecrets := LiveClient; gcpProject := GCP_Project cfg; gcpRegion := GCP_Region cfg
  |}.

(** [baseCfg := &shared.ProviderConfig{AWSS3: p.s3, ...}]: the AWS clients,
    every other field zero. *)
Definition baseConfig (p : abstractProvider) : shared.ProviderConfig :=
  {|
    shared.AWSS3 := s3 p; shared.AWSEC2 := ec2 p; shared.AWSEKS := eks p;
    shared.AWSLambda := lambda p; shared.AWSRDS := rds p; shared.AWSSQS := sqs p;
    shared.AWSSM := secrets p; shared.AWSECR := ecr p; shared.AWSECS := ecs p;
    shared.AWSELB := elb p; shared.AWSRoute53 := route53 p;
    shared.AzureCred := NoCredential; shared.AzureSubID := ""; shared.AzureLocation := "";
    shared.AzureRGClient := NilClient; shared.AzureStorageAcct := NilClient;
    shared.AzureBlobContainers := NilClient; shared.AzureVNetClient := NilClient;
    shared.AzureSubnetClient := NilClient; shared.AzureNICClient := NilClient;
    shared.AzurePIPClient := NilClient; shared.AzureLBClient := NilClient;
    shared.AzureVMClient := NilClient; shared.AzureAKSClient := NilClient;
    shared.AzureWebClient := NilClient; shared.AzurePlanClient := NilClient;
    shared.AzureMySQLClient := NilClient; shared.AzurePostgresClient := NilClient;
    shared.AzureRegistryClient := NilClient; shared.AzureContainerClient := NilClient;
    shared.AzureDNSZoneClient := NilClient; shared.AzureDNSRecordClient := NilClient;
    shared.GCPStorage := NilClient; shared.GCPCompute := NilClient;
    shared.GCPGKE := NilClient; shared.GCPFunctions := NilClient;
    shared.GCPCloudSQL := NilClient; shared.GCPDNS := NilClient;
    shared.GCPSecrets := NilClient; shared.GCPProject := ""; shared.GCPRegion := ""
  |}.

(** [baseCfg.AzureCred = p.azureCred] ... : the pointer [p.azureCred] goes
    into an interface, nil or not. *)
Definition withAzureFields (p : abstractProvider) (baseCfg : shared.ProviderConfig)
  : shared.ProviderConfig :=
  {|
    shared.AWSS3 := shared.AWSS3 baseCfg; shared.AWSEC2 := shared.AWSEC2 baseCfg;
    shared.AWSEKS := shared.AWSEKS baseCfg; shared.AWSLambda := shared.AWSLambda baseCfg;
    shared.AWSRDS := shared.AWSRDS baseCfg; shared.AWSSQS := shared.AWSSQS baseCfg;
    shared.AWSSM := shared.AWSSM baseCfg; shared.AWSECR := shared.AWSECR baseCfg;
    shared.AWSECS := shared.AWSECS baseCfg; shared.AWSELB := shared.AWSELB baseCfg;
    shared.AWSRoute53 := shared.AWSRoute53 baseCfg;
    shared.AzureCred := CredentialPtr (azureCred p); shared.AzureSubID := azureSubID p;
    shared.AzureLocation := azureLoc p; shared.AzureRGClient := azureRG p;
    shared.AzureStorageAcct := azureAcct p; shared.AzureBlobContainers := azureCont p;
    shared.AzureVNetClient := azureVNet p; shared.AzureSubnetClient := azureSubnets p;
    shared.AzureNICClient := azureNIC p; shared.AzurePIPClient := azurePIP p;
    shared.AzureLBClient := azureLB p; shared.AzureVMClient := azureVM p;
    shared.AzureAKSClient := azureAKS p; shared.AzureWebClient := azureWeb p;
    shared.AzurePlanClient := azurePlan p; shared.AzureMySQLClient := azureMySQL p;
    shared.AzurePostgresClient := azurePostgres p;
    shared.AzureRegistryClient := azureRegistry p;
    shared.AzureContainerClient := azureCI p; shared.AzureDNSZoneClient := azureDNSZones p;
    shared.AzureDNSRecordClient := azureDNSRecords p;
    shared.GCPStorage := shared.GCPStorage baseCfg;
    shared.GCPCompute := shared.GCPCompute baseCfg; shared.GCPGKE := shared.GCPGKE baseCfg;
    shared.GCPFunctions := shared.GCPFunctions baseCfg;
    shared.GCPCloudSQL := shared.GCPCloudSQL baseCfg;
    shared.GCPDNS := shared.GCPDNS baseCfg; shared.GCPSecrets := shared.GCPSecrets baseCfg;
    shared.GCPProject := shared.GCPProject baseCfg;
    shared.GCPRegion := shared.GCPRegion baseCfg
  |}.

(** [baseCfg.GCPStorage = p.gcpStorage] ... *)
Definition withGCPFields (p : abstractProvider) (baseCfg : shared.ProviderConfig)
  : shared.ProviderConfig :=
  {|
    shared.AWSS3 := shared.AWSS3 baseCfg; shared.AWSEC2 := shared.AWSEC2 baseCfg;
    shared.AWSEKS := shared.AWSEKS baseCfg; shared.AWSLambda := shared.AWSLambda baseCfg;
    shared.AWSRDS := shared.AWSRDS baseCfg; shared.AWSSQS := shared.AWSSQS baseCfg;
    shared.AWSSM := shared.AWSSM baseCfg; shared.AWSECR := shared.AWSECR baseCfg;
    shared.AWSECS := shared.AWSECS baseCfg; shared.AWSELB := shared.AWSELB baseCfg;
    shared.AWSRoute53 := shared.AWSRoute53 baseCfg;
    shared.AzureCred := shared.AzureCred baseCfg;
    shared.AzureSubID := shared.AzureSubID baseCfg;
    shared.AzureLocation := shared.AzureLocation baseCfg;
    shared.AzureRGClient := shared.AzureRGClient baseCfg;
    shared.AzureStorageAcct := shared.AzureStorageAcct baseCfg;
    shared.AzureBlobContainers := shared.AzureBlobContainers baseCfg;
    shared.AzureVNetClient := shared.AzureVNetClient baseCfg;
    shared.AzureSubnetClient := shared.AzureSubnetClient baseCfg;
    shared.AzureNICClient := shared.AzureNICClient baseCfg;
    shared.AzurePIPClient := shared.AzurePIPClient baseCfg;
    shared.AzureLBClient := shared.AzureLBClient baseCfg;
    shared.AzureVMClient := shared.AzureVMClient baseCfg;
    shared.AzureAKSClient := shared.AzureAKSClient baseCfg;
    shared.AzureWebClient := shared.AzureWebClient baseCfg;
    shared.AzurePlanClient := shared.AzurePlanClient baseCfg;
    shared.AzureMySQLClient := shared.AzureMySQLClient baseCfg;
    shared.AzurePostgresClient := shared.AzurePostgresClient baseCfg;
    shared.AzureRegistryClient := shared.AzureRegistryClient baseCfg;
    shared.AzureContainerClient := shared.AzureContainerClient baseCfg;
    shared.AzureDNSZoneClient := shared.AzureDNSZoneClient baseCfg;
    shared.AzureDNSRecordClient := shared.AzureDNSRecordClient baseCfg;
    shared.GCPStorage := gcpStorage p; shared.GCPCompute := gcpCompute p;
    shared.GCPGKE := gcpGKE p; shared.GCPFunctions := gcpFunctions p;
    shared.GCPCloudSQL := gcpSQL p; shared.GCPDNS := gcpDNS p;
    shared.GCPSecrets := gcpSecrets p; shared.GCPProject := gcpProject p;
    shared.GCPRegion := gcpRegion p
  |}.

(** [provider.ConfigureResponse].  [DataSourceData] and [ResourceData] hold
    the one pointer [baseCfg]: the fields written through it after
    [resp.DataSourceData = baseCfg] show in both, so the record gives the
    struct pointed to as it is when [Configure] returns. *)
Record ConfigureResponse := {
    Diagnostics : list Diagnostic;
    DataSourceData : ProviderData;
    ResourceData : ProviderData
  }.

(** [Configure], from the point where [req.Config.Get] has decoded the
    block into [cfg] without error.  The AWS clients are built from the
    default configuration, with the block's region and static credentials
    when given; the model keeps of a client only that it is there. *)
Definition Configure (sdk : SDK) (cfg : Config) (p : abstractProvider)
  : ConfigureResponse * abstractProvider :=
  match sdk awsconfig_LoadDefaultConfig with
  | Some e =>
    ({| Diagnostics := [AddedError "aws config" e];
        DataSourceData := NoData; ResourceData := NoData |}, p)
  | None =>
    let p := withAWSClients p in
    let baseCfg := baseConfig p in
    (* Azure setup *)
    let azure :=
      if negb (Azure_SubscriptionID cfg == "") && negb (Azure_ClientID cfg == "")
         && negb (Azure_ClientSecret cfg == "") && negb (Azure_TenantID cfg == "")
      then match construct sdk (azureSteps cfg) with
           | Some d => inl d
           | None => inr (withAzureClients cfg p)
           end
      else inr p in
    match azure with
    | inl d =>
      ({| Diagnostics := [d];
          DataSourceData := ConfigPtr (Some baseCfg); ResourceData := NoData |}, p)
    | inr p =>
      let baseCfg := withAzureFields p baseCfg in
      (* GCP setup *)
      let gcp :=
        if negb (GCP_Project cfg == "")
        then match construct sdk (gcpSteps cfg) with
             | Some d => inl d
             | None => inr (withGCPClients cfg p)
             end
        else inr p in
      match gcp with
      | inl d =>
        ({| Diagnostics := [d];
            DataSourceData := ConfigPtr (Some baseCfg); ResourceData := NoData |}, p)
      | inr p =>
        let baseCfg := withGCPFields p baseCfg in
        ({| Diagnostics := [];
            DataSourceData := ConfigPtr (Some baseCfg);
            ResourceData := ConfigPtr (Some baseCfg) |}, p)
      end
    end
  end.

End Provider.

(** *** What a configured provider hands over *)

Definition awsClients (c : shared.ProviderConfig) : list ClientPtr :=
  [shared.AWSS3 c; shared.AWSEC2 c; shared.AWSEKS c; shared.AWSLambda c; shared.AWSRDS c;
   shared.AWSSQS c; shared.AWSSM c; shared.AWSECR c; shared.AWSECS c; shared.AWSELB c;
   shared.AWSRoute53 c].

Definition azureClients (c : shared.ProviderConfig) : list ClientPtr :=
  [shared.AzureRGClient c; shared.AzureStorageAcct c; shared.AzureBlobContainers c;
   shared.AzureVNetClient c; shared.AzureSubnetClient c; shared.AzureNICClient c;
   shared.AzurePIPClient c; shared.AzureLBClient c; shared.AzureVMClient c;
   shared.AzureAKSClient c; shared.AzureWebClient c; shared.AzurePlanClient c;
   shared.AzureMySQLClient c; shared.AzurePostgresClient c; shared.AzureRegistryClient c;
   shared.AzureContainerClient c; shared.AzureDNSZoneClient c; shared.AzureDNSRecordClient c].

Definition gcpClients (c : shared.ProviderConfig) : list ClientPtr :=
  [shared.GCPStorage c; shared.GCPCompute c; shared.GCPGKE c; shared.GCPFunctions c;
   shared.GCPCloudSQL c; shared.GCPDNS c; shared.GCPSecrets c].

Definition allLive (clients : list ClientPtr) : Prop := Forall (fun c => c = LiveClient) clients.
Definition allNil (clients : list ClientPtr) : Prop := Forall (fun c => c = NilClient) clients.

(** The provider block names a subscription, a client, its secret and a
    tenant. *)
Definition azureComplete (cfg : Provider.Config) : bool :=
  negb (Provider.Azure_SubscriptionID cfg == "") && negb (Provider.Azure_ClientID cfg == "")
  && negb (Provider.Azure_ClientSecret cfg == "") && negb (Provider.Azure_TenantID cfg == "").

(** An SDK whose constructors all succeed. *)
Definition sound : Provider.SDK := fun _ => None.

(** A provider block with a location for Azure, a region for GCP, and
    neither a tenant nor a project. *)
Definition partialBlock : Provider.Config :=
  {| Provider.AWS_Region := "eu-west-1"; Provider.AWS_AccessKey := "";
     Provider.AWS_SecretKey := "";
     Provider.Azure_SubscriptionID := "sub"; Provider.Azure_ClientID := "client";
     Provider.Azure_ClientSecret := "secret"; Provider.Azure_TenantID := "";
     Provider.Azure_Location := "westeurope";
     Provider.GCP_Project := ""; Provider.GCP_Region := "europe-west1";
     Provider.GCP_Credentials := "" |}.

(** ** Handlers over further calls

    The resources below (secret, database, load balancer, serverless
    container) call parts of the SDKs that the six above do not.  Their
    handlers are written in the same monad, taken over a type of calls
    [C] rather than over [Call]. *)

Module Wide.

Section Calls.
Context {C : Type -> Type}.

Inductive Event : Type :=
| Answered : forall T : Type, C T -> T -> Event.

Definition Backend := forall T : Type, list Event -> C T -> T.

Record Ctx (R : Type) := MkCtx {
  self : R;
  State : option Attrs;
  Diagnostics : list Diagnostic;
  log : list Event
}.
Arguments MkCtx {R}.
Arguments self {R}.
Arguments State {R}.
Arguments Diagnostics {R}.
Arguments log {R}.

Definition M (R A : Type) := Backend -> Ctx R -> Flow A * Ctx R.

Context {R : Type}.

Definition ret {A} (a : A) : M R A := fun _ c => (Next a, c).

Definition bind {A B} (m : M R A) (k : A -> M R B) : M R B :=
    fun b c =>
      match m b c with
      | (Next a, c') => k a b c'
      | (Returned, c') => (Returned, c')
      | (Panicked, c') => (Panicked, c')
      | (Exhausted, c') => (Exhausted, c')
      end.

Definition call {T} (c : C T) : M R T :=
    fun b ctx =>
      let a := b T (log ctx) c in
      (Next a, MkCtx (self ctx) (State ctx) (Diagnostics ctx) (log ctx ++ [Answered T c a])).

Definition AddError (s d : string) : M R unit :=
    fun _ ctx =>
      (Next tt, MkCtx (self ctx) (State ctx) (Diagnostics ctx ++ [AddedError s d]) (log ctx)).

Definition State_Set (attrs : list (string * Value)) : M R unit :=
    fun _ ctx =>
      (Next tt, MkCtx (self ctx) (Some (list_to_map attrs)) (Diagnostics ctx) (log ctx)).

Definition State_RemoveResource : M R unit :=
    fun _ ctx => (Next tt, MkCtx (self ctx) None (Diagnostics ctx) (log ctx)).

Definition return_ {A} : M R A := fun _ ctx => (Returned, ctx).

Definition panic {A} : M R A := fun _ ctx => (Panicked, ctx).

Definition exhausted {A} : M R A := fun _ ctx => (Exhausted, ctx).

Definition receiver : M R R := fun _ ctx => (Next (self ctx), ctx).

Definition set_receiver (r : R) : M R unit :=
    fun _ ctx => (Next tt, MkCtx r (State ctx) (Diagnostics ctx) (log ctx)).

Definition deref {A} (p : option A) : M R A :=
    match p with Some a => ret a | None => panic end.

Definition when (cond : bool) (body : M R unit) : M R unit :=
    if cond then body else ret tt.

(** A handler called with a response of its own. *)
Definition nested (h : M R unit) : M R (list Diagnostic) :=
  fun b ctx =>
    let '(flow, c') := h b (MkCtx (self ctx) None [] (log ctx)) in
    let back := MkCtx (self c') (State ctx) (Diagnostics ctx) (log c') in
    match flow with
    | Next _ | Returned => (Next (Diagnostics c'), back)
    | Panicked => (Panicked, back)
    | Exhausted => (Exhausted, back)
    end.

Definition Diagnostics_Append (ds : list Diagnostic) : M R unit :=
  fun _ ctx => (Next tt, MkCtx (self ctx) (State ctx) (Diagnostics ctx ++ ds) (log ctx)).

(** The outcome of one lifecycle call, as the host sees it. *)
Record Outcome := MkOutcome {
  flow : Flow unit;
  record : option Attrs;
  diagnostics : list Diagnostic;
  calls : list Event;
  self' : R
}.

Definition run (h : M R unit) (backend : Backend) (r : R)
    (prior : option Attrs) (history : list Event) : Outcome :=
  let end_ := h backend (MkCtx r prior [] history) in
  MkOutcome (fst end_) (State (snd end_)) (Diagnostics (snd end_))
    (drop (List.length history) (log (snd end_))) (self (snd end_)).

End Calls.

Arguments Event : clear implicits.
Arguments Backend : clear implicits.
Arguments Ctx : clear implicits.
Arguments M : clear implicits.
Arguments Outcome : clear implicits.
Arguments Answered {C T} c answer.
Arguments MkCtx {C R}.
Arguments self {C R}.
Arguments State {C R}.
Arguments Diagnostics {C R}.
Arguments log {C R}.
Arguments MkOutcome {C R}.
Arguments flow {C R}.
Arguments record {C R}.
Arguments diagnostics {C R}.
Arguments calls {C R}.
Arguments self' {C R}.

Declare Scope wide_scope.
Notation "'let*' x ':=' m 'in' k" := (bind m (fun x => k))
  (at level 10, x name, m at level 100, k at level 200) : wide_scope.
Notation "m ';;' k" := (bind m (fun _ => k))
  (at level 100, k at level 200, right associativity) : wide_scope.

End Wide.

(** *** The further calls *)

From Stdlib Require Import DecimalString.

(** [elbtypes.LoadBalancer], as far as Create reads it. *)
Record ELBLoadBalancer := { LoadBalancerArn : option string; DNSName : option string }.

(** [ci.ContainerGroup], as far as Create reads it: the group's [ID], and
    its [Properties], their [IPAddress] and its [IP], each of which may be
    nil. *)
Record ContainerGroup := {
  ContainerGroup_ID : option string;
  ContainerGroup_Properties : option (option (option string))
}.

Inductive MoreCall : Type -> Type :=
| Known {T} (c : Call T) : MoreCall T
(* time.Now().Unix() *)
| time_Now_Unix : MoreCall Z
(* secretsmanager.Client *)
| SecretsManager_CreateSecret (name secretString : string) : MoreCall (Go (option string))
| SecretsManager_GetSecretValue (secretId : string) : MoreCall (Go unit)
| SecretsManager_DeleteSecret (secretId : string) (forceDeleteWithoutRecovery : bool)
  : MoreCall (Go unit)
(* azsecrets: the client is named by its vault *)
| azsecrets_NewClient (vaultURL : string) (credential : TokenCredential) : MoreCall (Go unit)
| azsecrets_SetSecret (vaultURL name value : string) : MoreCall (Go unit)
| azsecrets_GetSecret (vaultURL name : string) : MoreCall (Go unit)
| azsecrets_BeginDeleteSecret (vaultURL name : string) : MoreCall (Go unit)
(* secretmanager.Service *)
| Secrets_Create (parent secretId : string) : MoreCall (Go unit)
| Secrets_AddVersion (parent payloadData : string) : MoreCall (Go unit)
| Secrets_Get (name : string) : MoreCall (Go unit)
| Secrets_Delete (name : string) : MoreCall (Go unit)
(* rds.Client *)
| RDS_CreateDBInstance (dbInstanceIdentifier engine dbInstanceClass masterUsername
    masterUserPassword : string) (allocatedStorage : Z) (publiclyAccessible : bool)
    (engineVersion : option string) : MoreCall (Go unit)
| RDS_DescribeDBInstances (dbInstanceIdentifier : string) : MoreCall (Go unit)
| RDS_DeleteDBInstance (dbInstanceIdentifier : string) (skipFinalSnapshot : bool)
  : MoreCall (Go unit)
(* armmysqlflexibleservers.ServersClient *)
| MySQL_BeginCreate (resourceGroupName serverName location administratorLogin
    administratorLoginPassword : string) : MoreCall (Go Poller)
| MySQL_Get (resourceGroupName serverName : string) : MoreCall (Go unit)
| MySQL_BeginDelete (resourceGroupName serverName : string) : MoreCall (Go Poller)
(* armpostgresqlflexibleservers.ServersClient *)
| Postgres_BeginCreate (resourceGroupName serverName location administratorLogin
    administratorLoginPassword skuName : string) : MoreCall (Go Poller)
| Postgres_Get (resourceGroupName serverName : string) : MoreCall (Go unit)
| Postgres_BeginDelete (resourceGroupName serverName : string) : MoreCall (Go Poller)
(* sqladmin.Service: the operation's Name comes back from Insert and
   Delete, its Status from Operations.Get *)
| SQL_InstancesInsert (project name region databaseVersion tier : string) : MoreCall (Go string)
| SQL_InstancesGet (project instance : string) : MoreCall (Go unit)
| SQL_InstancesDelete (project instance : string) : MoreCall (Go string)
| SQL_OperationsGet (project operation : string) : MoreCall (Go string)
(* elasticloadbalancingv2.Client: a network load balancer, internet-facing,
   IPv4 *)
| ELB_CreateLoadBalancer (name : string) (subnets : list string)
  : MoreCall (Go (list ELBLoadBalancer))
| ELB_DescribeLoadBalancers (loadBalancerArns : list string) : MoreCall (Go unit)
| ELB_DeleteLoadBalancer (loadBalancerArn : string) : MoreCall (Go unit)
(* armnetwork.LoadBalancersClient, PublicIPAddressesClient; Get answers the
   address's Properties and their IPAddress, each of which may be nil *)
| LoadBalancers_BeginCreateOrUpdate (resourceGroupName loadBalancerName location
    frontendName publicIPAddressID : string) : MoreCall (Go Poller)
| LoadBalancers_Get (resourceGroupName loadBalancerName : string) : MoreCall (Go unit)
| LoadBalancers_BeginDelete (resourceGroupName loadBalancerName : string) : MoreCall (Go Poller)
| PublicIPAddresses_Get (resourceGroupName publicIPAddressName : string)
  : MoreCall (Go (option (option string)))
| PublicIPAddresses_BeginDelete (resourceGroupName publicIPAddressName : string)
  : MoreCall (Go Poller)
(* ecs.Client: a Fargate task definition with one essential container;
   RegisterTaskDefinition answers the TaskDefinition and its Arn, each of
   which may be nil; RunTask the TaskArn of each task *)
| ECS_RegisterTaskDefinition (family cpu memory containerName image : string)
  : MoreCall (Go (option (option string)))
| ECS_RunTask (cluster taskDefinition : string) (subnets : list string)
  : MoreCall (Go (list (option string)))
| ECS_DescribeTasks (cluster : string) (tasks : list string) : MoreCall (Go unit)
| ECS_StopTask (cluster task : string) : MoreCall (Go unit)
(* ci.ContainerGroupsClient: a Linux group of one container with a public
   address, never restarted *)
| ContainerGroups_BeginCreateOrUpdate (resourceGroupName containerGroupName location
    containerName image : string) : MoreCall (Go Poller)
| ContainerGroups_Get (resourceGroupName containerGroupName : string)
  : MoreCall (Go ContainerGroup)
| ContainerGroups_BeginDelete (resourceGroupName containerGroupName : string)
  : MoreCall (Go Poller)
(* runtime.Poller.PollUntilDone, on the handle of the given Begin call *)
| Poller_PollUntilDone (begin : MoreCall (Go Poller)) : MoreCall (Go ARMResource).

(** [strings.Contains] *)
Fixpoint Contains (s substr : string) : bool :=
  String.prefix substr s
  || match s with
     | EmptyString => false
     | String _ rest => Contains rest substr
     end.

(** [fmt.Sprintf("%d", n)] *)
Definition decimal (n : Z) : string := NilZero.string_of_int (Z.to_int n).

(** [r.azureCred == nil]: an interface is nil only when it holds nothing,
    not when it holds a nil pointer. *)
Definition isNilInterface (c : TokenCredential) : bool :=
  match c with NoCredential => true | CredentialPtr _ => false end.

(** ** SecretResource (unnamed/part_004) *)

Module Secret.
Import Wide.
Local Open Scope wide_scope.

Record Resource := {
    sm : ClientPtr;
    azureCred : TokenCredential;
    gcp : ClientPtr;
    gcpProj : string
  }.

Definition Configure (ProviderData : ProviderData) : M MoreCall Resource unit :=
    match ProviderData with
    | NoData => return_
    | OtherData => AddError "invalid provider data" "" ;; return_
    | ConfigPtr cfg =>
      let* cfg := deref cfg in
      set_receiver
        {| sm := shared.AWSSM cfg;
           azureCred := shared.AzureCred cfg;
           gcp := shared.GCPSecrets cfg;
           gcpProj := shared.GCPProject cfg |}
    end.

Section WithEncoding.
    (** [base64.StdEncoding.EncodeToString] of the bytes of a string *)
Variable EncodeToString : string -> string.

Definition Create (plan : Attrs) : M MoreCall Resource unit :=
      let Name := ValueString plan "name" in
      let Type_ := ValueString plan "type" in
      let Value_ := ValueString plan "value" in
      if Type_ == "aws" then
        let* r := receiver in
        if isNil (sm r) then AddError "aws" "missing client" ;; return_
        else
          let* out := call (SecretsManager_CreateSecret Name Value_) in
          match out with
          | Err e => AddError "aws create" e ;; return_
          | Ok arn =>
            State_Set [("id", VString (aws_ToString arn)); ("name", VString Name);
                       ("type", VString Type_)]
          end
      else if Type_ == "azure" then
        let* r := receiver in
        if isNilInterface (azureCred r) then AddError "azure" "missing credential" ;; return_
        else
          let* vaultURL := call (Known (Host (os_Getenv "AZURE_KEY_VAULT_URL"))) in
          if vaultURL == "" then AddError "azure" "AZURE_KEY_VAULT_URL not set" ;; return_
          else
            let* client := call (azsecrets_NewClient vaultURL (azureCred r)) in
            match client with
            | Err e => AddError "azure client" e ;; return_
            | Ok _ =>
              let* res := call (azsecrets_SetSecret vaultURL Name Value_) in
              match res with
              | Err e => AddError "azure set" e ;; return_
              | Ok _ =>
                State_Set [("id", VString (vaultURL ++ "#" ++ Name)); ("name", VString Name);
                           ("type", VString Type_)]
              end
            end
      else if Type_ == "gcp" then
        let* r := receiver in
        if isNil (gcp r) then AddError "gcp" "missing client" ;; return_
        else
          let parent := "projects/" ++ gcpProj r in
          let* res := call (Secrets_Create parent Name) in
          match res with
          | Err e =>
            if negb (Contains e "Already exists") then AddError "gcp create" e ;; return_
            else ret tt
          | Ok _ => ret tt
          end ;;
          let* res := call (Secrets_AddVersion ("projects/" ++ gcpProj r ++ "/secrets/" ++ Name)
                              (EncodeToString Value_)) in
          match res with
          | Err e => AddError "gcp version" e ;; return_
          | Ok _ =>
            State_Set [("id", VString (parent ++ "/secrets/" ++ Name)); ("name", VString Name);
                       ("type", VString Type_)]
          end
      else
        AddError "unsupported cloud" "".

End WithEncoding.

Definition Read (state : Attrs) : M MoreCall Resource unit :=
    let Name := ValueString state "name" in
    let Type_ := ValueString state "type" in
    if Type_ == "aws" then
      let* r := receiver in
      if isNil (sm r) then return_
      else
        let* res := call (SecretsManager_GetSecretValue Name) in
        match res with
        | Err _ => State_RemoveResource
        | Ok _ => ret tt
        end
    else if Type_ == "azure" then
      let* r := receiver in
      if isNilInterface (azureCred r) then return_
      else
        let* vaultURL := call (Known (Host (os_Getenv "AZURE_KEY_VAULT_URL"))) in
        if vaultURL == "" then State_RemoveResource ;; return_
        else
          let* client := call (azsecrets_NewClient vaultURL (azureCred r)) in
          match client with
          | Err _ => State_RemoveResource ;; return_
          | Ok _ =>
            let* res := call (azsecrets_GetSecret vaultURL Name) in
            match res with
            | Err _ => State_RemoveResource
            | Ok _ => ret tt
            end
          end
    else if Type_ == "gcp" then
      let* r := receiver in
      if isNil (gcp r) then return_
      else
        let* res := call (Secrets_Get ("projects/" ++ gcpProj r ++ "/secrets/" ++ Name)) in
        match res with
        | Err _ => State_RemoveResource
        | Ok _ => ret tt
        end
    else ret tt.

Definition Delete (state : Attrs) : M MoreCall Resource unit :=
    let Name := ValueString state "name" in
    let Type_ := ValueString state "type" in
    if Type_ == "aws" then
      let* r := receiver in
      if isNil (sm r) then return_
      else
        let* res := call (SecretsManager_DeleteSecret Name true) in
        match res with
        | Err e => AddError "aws delete" e
        | Ok _ => ret tt
        end
    else if Type_ == "azure" then
      let* r := receiver in
      if isNilInterface (azureCred r) then return_
      else
        let* vaultURL := call (Known (Host (os_Getenv "AZURE_KEY_VAULT_URL"))) in
        if vaultURL == "" then return_
        else
          let* client := call (azsecrets_NewClient vaultURL (azureCred r)) in
          match client with
          | Err _ => return_
          | Ok _ =>
            let* res := call (azsecrets_BeginDeleteSecret vaultURL Name) in
            match res with
            | Err e => AddError "azure delete" e
            | Ok _ => ret tt
            end
          end
    else if Type_ == "gcp" then
      let* r := receiver in
      if isNil (gcp r) then return_
      else
        let* res := call (Secrets_Delete ("projects/" ++ gcpProj r ++ "/secrets/" ++ Name)) in
        match res with
        | Err e => AddError "gcp delete" e
        | Ok _ => ret tt
        end
    else ret tt.

  (** Update deletes under the stored record and creates under the plan,
      each with a response of its own; its own response gets their
      diagnostics and nothing else. *)
Definition Update (EncodeToString : string -> string) (plan state : Attrs)
  : M MoreCall Resource unit :=
    let* delDiags := nested (Delete state) in
    if HasError delDiags then Diagnostics_Append delDiags ;; return_
    else
      let* createDiags := nested (Create EncodeToString plan) in
      Diagnostics_Append createDiags.

End Secret.

(** ** DatabaseResource (provider/resources/bucket.go) *)

Module Database.
Import Wide.
Local Open Scope wide_scope.

  (** The struct's [azureCred] and [azureSubID], which no handler reads,
      are not in [Resource]. *)
Record Resource := {
    rds : ClientPtr;
    azureMySQL : ClientPtr;
    azurePG : ClientPtr;
    azureRG : ClientPtr;
    azureLoc : string;
    gcpSQL : ClientPtr;
    gcpProj : string;
    gcpRegion : string
  }.

Definition with_azureLoc (r : Resource) (loc : string) : Resource :=
    {| rds := rds r; azureMySQL := azureMySQL r; azurePG := azurePG r; azureRG := azureRG r;
       azureLoc := loc; gcpSQL := gcpSQL r; gcpProj := gcpProj r; gcpRegion := gcpRegion r |}.

Definition Configure (ProviderData : ProviderData) : M MoreCall Resource unit :=
    match ProviderData with
    | NoData => return_
    | OtherData => AddError "invalid provider data" "" ;; return_
    | ConfigPtr cfg =>
      let* cfg := deref cfg in
      set_receiver
        {| rds := shared.AWSRDS cfg;
           azureMySQL := shared.AzureMySQLClient cfg;
           azurePG := shared.AzurePostgresClient cfg;
           azureRG := shared.AzureRGClient cfg;
           azureLoc := shared.AzureLocation cfg;
           gcpSQL := shared.GCPCloudSQL cfg;
           gcpProj := shared.GCPProject cfg;
           gcpRegion := shared.GCPRegion cfg |}
    end.

  (** [name := plan.Name.ValueString(); if name == "" { name =
      fmt.Sprintf("db-%d", time.Now().Unix()) }] *)
Definition nameOrClock (Name : string) : M MoreCall Resource string :=
    if Name == "" then
      let* now := call time_Now_Unix in
      ret ("db-" ++ decimal now)
    else ret Name.

  (** The wait on a Cloud SQL operation, written inline in Create and
      Delete: [for { oper, err := Operations.Get(proj, op.Name); if err !=
      nil { AddError; return }; if oper.Status == "DONE" { break };
      time.Sleep(5 * time.Second) }].  [fuel] bounds the number of rounds
      the model follows. *)
Fixpoint awaitOperation (fuel : nat) (summary project opName : string)
  : M MoreCall Resource unit :=
    match fuel with
    | O => exhausted
    | S fuel' =>
      let* oper := call (SQL_OperationsGet project opName) in
      match oper with
      | Err e => AddError summary e ;; return_
      | Ok status =>
        if status == "DONE" then ret tt
        else call (Known (Host (time_Sleep 5))) ;; awaitOperation fuel' summary project opName
      end
    end.

Section WithCaseTable.
Variable toLowerCase : Z -> Z.

Definition Create (fuel : nat) (plan : Attrs) : M MoreCall Resource unit :=
      let Name := ValueString plan "name" in
      let Type_ := ValueString plan "type" in
      let Engine := ValueString plan "engine" in
      let Version := ValueString plan "version" in
      let Size := ValueString plan "size" in
      if Type_ == "aws" then
        let* r := receiver in
        if isNil (rds r) then AddError "missing AWS client" "" ;; return_
        else
          let* id := nameOrClock Name in
          let class := if Size == "" then "db.t3.micro" else Size in
          let* password := call (Known (Host (os_Getenv "RDS_PASSWORD"))) in
          if password == "" then AddError "missing password" "RDS_PASSWORD must be set" ;; return_
          else
            let* res := call (RDS_CreateDBInstance id Engine class "admin" password 20 false
                                (if Version == "" then None else Some Version)) in
            match res with
            | Err e => AddError "aws create" e ;; return_
            | Ok _ =>
              State_Set [("id", VString id); ("name", VString Name); ("type", VString Type_);
                         ("engine", VString Engine); ("version", VString Version);
                         ("size", VString class)]
            end
      else if Type_ == "azure" then
        let* r := receiver in
        if isNil (azureMySQL r) || isNil (azurePG r) || isNil (azureRG r) then
          AddError "azure" "missing client" ;; return_
        else
          let rgName := "abstract-rg" in
          when ((azureLoc r == "") && negb (Size == ""))
            (set_receiver (with_azureLoc r Size)) ;;
          let* r := receiver in
          let* res := call (Known (Azure (ResourceGroups_CreateOrUpdate rgName (azureLoc r)))) in
          match res with
          | Err e => AddError "azure rg" e ;; return_
          | Ok _ =>
            let* name := nameOrClock Name in
            let* password := call (Known (Host (os_Getenv "AZURE_DB_PASSWORD"))) in
            if password == "" then
              AddError "missing password" "AZURE_DB_PASSWORD must be set" ;; return_
            else
              let engine := GoStrings.ToLower toLowerCase Engine in
              let size := if Size == "" then "Standard_B1ms" else Size in
              (if engine == "mysql" then
                 let begin := MySQL_BeginCreate rgName name (azureLoc r) "adminuser" password in
                 let* res := call begin in
                 let* res := match res with
                             | Ok _ => call (Poller_PollUntilDone begin)
                             | Err e => ret (Err e)
                             end in
                 match res with
                 | Err e => AddError "azure create" e ;; return_
                 | Ok _ => ret tt
                 end
               else if (engine == "postgresql") || (engine == "postgres") then
                 let begin := Postgres_BeginCreate rgName name (azureLoc r) "adminuser" password
                                size in
                 let* res := call begin in
                 let* res := match res with
                             | Ok _ => call (Poller_PollUntilDone begin)
                             | Err e => ret (Err e)
                             end in
                 match res with
                 | Err e => AddError "azure create" e ;; return_
                 | Ok _ => ret tt
                 end
               else AddError "unsupported engine" engine ;; return_) ;;
              State_Set [("id", VString name); ("name", VString Name); ("type", VString Type_);
                         ("engine", VString Engine); ("version", VString Version);
                         ("size", VString size)]
          end
      else if Type_ == "gcp" then
        let* r := receiver in
        if isNil (gcpSQL r) then AddError "gcp" "missing client" ;; return_
        else
          let* name := nameOrClock Name in
          let region := if gcpRegion r == "" then "us-central1" else gcpRegion r in
          let tier := if Size == "" then "db-f1-micro" else Size in
          let engine := GoStrings.ToLower toLowerCase Engine in
          let version :=
            if Version == "" then
              if (engine == "postgres") || (engine == "postgresql") then "POSTGRES_15"
              else "MYSQL_8_0"
            else Version in
          let* op := call (SQL_InstancesInsert (gcpProj r) name region version tier) in
          match op with
          | Err e => AddError "gcp create" e ;; return_
          | Ok opName =>
            awaitOperation fuel "gcp create" (gcpProj r) opName ;;
            State_Set [("id", VString name); ("name", VString Name); ("type", VString Type_);
                       ("engine", VString Engine); ("version", VString version);
                       ("size", VString tier)]
          end
      else
        AddError "unsupported cloud" "only aws, azure, and gcp implemented" ;; return_.

End WithCaseTable.

Definition Read (state : Attrs) : M MoreCall Resource unit :=
    let ID := ValueString state "id" in
    let Type_ := ValueString state "type" in
    if Type_ == "aws" then
      let* r := receiver in
      if isNil (rds r) then return_
      else
        let* res := call (RDS_DescribeDBInstances ID) in
        match res with
        | Err _ => State_RemoveResource
        | Ok _ => ret tt
        end
    else if Type_ == "azure" then
      let* r := receiver in
      if isNil (azureMySQL r) || isNil (azurePG r) then return_
      else
        let* res := call (MySQL_Get "abstract-rg" ID) in
        match res with
        | Err _ =>
          let* res2 := call (Postgres_Get "abstract-rg" ID) in
          match res2 with
          | Err _ => State_RemoveResource
          | Ok _ => ret tt
          end
        | Ok _ => ret tt
        end
    else if Type_ == "gcp" then
      let* r := receiver in
      if isNil (gcpSQL r) then return_
      else
        let* res := call (SQL_InstancesGet (gcpProj r) ID) in
        match res with
        | Err _ => State_RemoveResource
        | Ok _ => ret tt
        end
    else ret tt.

Definition Update (plan state : Attrs) : M MoreCall Resource unit := ret tt.

Definition Delete (fuel : nat) (state : Attrs) : M MoreCall Resource unit :=
    let ID := ValueString state "id" in
    let Type_ := ValueString state "type" in
    if Type_ == "aws" then
      let* r := receiver in
      if isNil (rds r) then return_
      else
        let* res := call (RDS_DeleteDBInstance ID true) in
        match res with
        | Err e => AddError "aws delete" e
        | Ok _ => ret tt
        end
    else if Type_ == "azure" then
      let* r := receiver in
      if isNil (azureMySQL r) || isNil (azurePG r) then return_
      else
        let begin := MySQL_BeginDelete "abstract-rg" ID in
        let* res := call begin in
        let* res := match res with
                    | Ok _ => call (Poller_PollUntilDone begin)
                    | Err e => ret (Err e)
                    end in
        match res with
        | Err _ =>
          let begin2 := Postgres_BeginDelete "abstract-rg" ID in
          let* res2 := call begin2 in
          let* res2 := match res2 with
                       | Ok _ => call (Poller_PollUntilDone begin2)
                       | Err e => ret (Err e)
                       end in
          match res2 with
          | Err e2 => AddError "azure delete" e2
          | Ok _ => ret tt
          end
        | Ok _ => ret tt
        end
    else if Type_ == "gcp" then
      let* r := receiver in
      if isNil (gcpSQL r) then return_
      else
        let* op := call (SQL_InstancesDelete (gcpProj r) ID) in
        match op with
        | Err e => AddError "gcp delete" e ;; return_
        | Ok opName => awaitOperation fuel "gcp delete" (gcpProj r) opName
        end
    else ret tt.

End Database.

(** ** LoadBalancerResource (unnamed/part_005) *)

Module LoadBalancer.
Import Wide.
Local Open Scope wide_scope.

  (** The struct's [azureCred] and [azureSubID], which no handler reads,
      are not in [Resource]. *)
Record Resource := {
    elb : ClientPtr;
    ec2 : ClientPtr;
    azureRG : ClientPtr;
    azureLB : ClientPtr;
    azurePIP : ClientPtr;
    azureLoc : string
  }.

Definition with_azureLoc (r : Resource) (loc : string) : Resource :=
    {| elb := elb r; ec2 := ec2 r; azureRG := azureRG r; azureLB := azureLB r;
       azurePIP := azurePIP r; azureLoc := loc |}.

Definition Configure (ProviderData : ProviderData) : M MoreCall Resource unit :=
    match ProviderData with
    | NoData => return_
    | OtherData => AddError "invalid provider data" "" ;; return_
    | ConfigPtr cfg =>
      let* cfg := deref cfg in
      set_receiver
        {| elb := shared.AWSELB cfg;
           ec2 := shared.AWSEC2 cfg;
           azureRG := shared.AzureRGClient cfg;
           azureLB := shared.AzureLBClient cfg;
           azurePIP := shared.AzurePIPClient cfg;
           azureLoc := shared.AzureLocation cfg |}
    end.

Definition Create (plan : Attrs) : M MoreCall Resource unit :=
    let Name := ValueString plan "name" in
    let Type_ := ValueString plan "type" in
    let Region := ValueString plan "region" in
    if Type_ == "aws" then
      let* r := receiver in
      if isNil (elb r) || isNil (ec2 r) then AddError "aws" "missing client" ;; return_
      else
        let* subOut := call (Known (AWS (EC2_DescribeSubnets []))) in
        match subOut with
        | Err _ | Ok [] => AddError "aws subnets" "unable to find subnets" ;; return_
        | Ok Subnets =>
          (* for i, s := range subOut.Subnets { if i >= 2 { break }; ... } *)
          let subnets := map aws_ToString (take 2 Subnets) in
          let* lbOut := call (ELB_CreateLoadBalancer Name subnets) in
          match lbOut with
          | Err e => AddError "aws create" e ;; return_
          | Ok [] => AddError "aws create" "no load balancer returned" ;; return_
          | Ok (lb :: _) =>
            State_Set [("id", VString (aws_ToString (LoadBalancerArn lb)));
                       ("name", VString Name); ("type", VString Type_);
                       ("ip_address", VString (aws_ToString (DNSName lb)))]
          end
        end
    else if Type_ == "azure" then
      let* r := receiver in
      if isNil (azureLB r) || isNil (azureRG r) || isNil (azurePIP r) then
        AddError "azure" "missing client" ;; return_
      else
        let rgName := "abstract-rg" in
        when ((azureLoc r == "") && negb (Region == ""))
          (set_receiver (with_azureLoc r Region)) ;;
        let* r := receiver in
        let* res := call (Known (Azure (ResourceGroups_CreateOrUpdate rgName (azureLoc r)))) in
        match res with
        | Err e => AddError "azure rg" e ;; return_
        | Ok _ =>
          let pipName := Name ++ "-pip" in
          let pipBegin := PublicIPAddresses_BeginCreateOrUpdate rgName pipName (azureLoc r)
                            Static in
          let* res := call (Known (Azure pipBegin)) in
          let* res := match res with
                      | Ok _ => call (Known (Azure (PollUntilDone pipBegin)))
                      | Err e => ret (Err e)
                      end in
          match res with
          | Err e => AddError "azure pip" e ;; return_
          | Ok pipResp =>
            let pipID := match ID pipResp with Some id => id | None => "" end in
            let lbBegin := LoadBalancers_BeginCreateOrUpdate rgName Name (azureLoc r) "lbfe"
                             pipID in
            let* res := call lbBegin in
            let* res := match res with
                        | Ok _ => call (Poller_PollUntilDone lbBegin)
                        | Err e => ret (Err e)
                        end in
            match res with
            | Err e => AddError "azure create lb" e ;; return_
            | Ok _ =>
              let* pip := call (PublicIPAddresses_Get rgName pipName) in
              match pip with
              | Ok (Some (Some IPAddress)) =>
                State_Set [("id", VString Name); ("name", VString Name);
                           ("type", VString Type_); ("region", VString (azureLoc r));
                           ("ip_address", VString IPAddress)]
              | _ => AddError "azure pip" "unable to get IP" ;; return_
              end
            end
          end
        end
    else if Type_ == "gcp" then
      AddError "gcp" "load balancer resource not implemented"
    else
      AddError "unsupported cloud" "only aws and azure implemented".

Definition Read (state : Attrs) : M MoreCall Resource unit :=
    let ID := ValueString state "id" in
    let Type_ := ValueString state "type" in
    let Name := ValueString state "name" in
    if Type_ == "aws" then
      let* r := receiver in
      if isNil (elb r) then return_
      else
        let* res := call (ELB_DescribeLoadBalancers [ID]) in
        match res with
        | Err _ => State_RemoveResource
        | Ok _ => ret tt
        end
    else if Type_ == "azure" then
      let* r := receiver in
      if isNil (azureLB r) then return_
      else
        let* res := call (LoadBalancers_Get "abstract-rg" Name) in
        match res with
        | Err _ => State_RemoveResource
        | Ok _ => ret tt
        end
    else ret tt.

  (** no updatable fields *)
Definition Update (plan state : Attrs) : M MoreCall Resource unit := ret tt.

Definition Delete (state : Attrs) : M MoreCall Resource unit :=
    let ID := ValueString state "id" in
    let Type_ := ValueString state "type" in
    let Name := ValueString state "name" in
    if Type_ == "aws" then
      let* r := receiver in
      if isNil (elb r) then return_
      else
        let* res := call (ELB_DeleteLoadBalancer ID) in
        match res with
        | Err e => AddError "aws delete" e
        | Ok _ => ret tt
        end
    else if Type_ == "azure" then
      let* r := receiver in
      if isNil (azureLB r) || isNil (azurePIP r) then return_
      else
        let* res := call (LoadBalancers_BeginDelete "abstract-rg" Name) in
        match res with
        | Err e => AddError "azure delete lb" e
        | Ok _ => ret tt
        end ;;
        let pipName := Name ++ "-pip" in
        let* res := call (PublicIPAddresses_BeginDelete "abstract-rg" pipName) in
        match res with
        | Err e => AddError "azure delete pip" e
        | Ok _ => ret tt
        end
    else ret tt.

End LoadBalancer.

(** ** ServerlessContainerResource (provider/resources/bucket.go) *)

Module ServerlessContainer.
Import Wide.
Local Open Scope wide_scope.

  (** The struct's [azureCred] and [azureSubID], which no handler reads,
      are not in [Resource]. *)
Record Resource := {
    ecs : ClientPtr;
    ec2 : ClientPtr;
    azureRG : ClientPtr;
    azureCI : ClientPtr;
    azureLoc : string
  }.

Definition with_azureLoc (r : Resource) (loc : string) : Resource :=
    {| ecs := ecs r; ec2 := ec2 r; azureRG := azureRG r; azureCI := azureCI r;
       azureLoc := loc |}.

Definition Configure (ProviderData : ProviderData) : M MoreCall Resource unit :=
    match ProviderData with
    | NoData => return_
    | OtherData => AddError "invalid provider data" "" ;; return_
    | ConfigPtr cfg =>
      let* cfg := deref cfg in
      set_receiver
        {| ecs := shared.AWSECS cfg;
           ec2 := shared.AWSEC2 cfg;
           azureRG := shared.AzureRGClient cfg;
           azureCI := shared.AzureContainerClient cfg;
           azureLoc := shared.AzureLocation cfg |}
    end.

Definition Create (plan : Attrs) : M MoreCall Resource unit :=
    let Name := ValueString plan "name" in
    let Image := ValueString plan "image" in
    let Type_ := ValueString plan "type" in
    let Region := ValueString plan "region" in
    if Type_ == "aws" then
      let* r := receiver in
      if isNil (ecs r) || isNil (ec2 r) then AddError "aws" "missing client" ;; return_
      else
        let* subOut := call (Known (AWS (EC2_DescribeSubnets []))) in
        match subOut with
        | Err _ | Ok [] => AddError "aws subnets" "unable to find subnets" ;; return_
        | Ok (s :: _) =>
          let subnet := aws_ToString s in
          let* tdOut := call (ECS_RegisterTaskDefinition Name "256" "512" "app" Image) in
          match tdOut with
          | Err e => AddError "aws register" e ;; return_
          | Ok TaskDefinition =>
            let* td := deref TaskDefinition in
            let tdArn := aws_ToString td in
            let* runOut := call (ECS_RunTask "default" tdArn [subnet]) in
            match runOut with
            | Err e => AddError "aws run" e ;; return_
            | Ok [] => AddError "aws run" "no task returned" ;; return_
            | Ok (task :: _) =>
              State_Set [("id", VString (aws_ToString task)); ("name", VString Name);
                         ("image", VString Image); ("type", VString Type_)]
            end
          end
        end
    else if Type_ == "azure" then
      let* r := receiver in
      if isNil (azureCI r) || isNil (azureRG r) then AddError "azure" "missing client" ;; return_
      else
        let rgName := "abstract-rg" in
        when ((azureLoc r == "") && negb (Region == ""))
          (set_receiver (with_azureLoc r Region)) ;;
        let* r := receiver in
        let* res := call (Known (Azure (ResourceGroups_CreateOrUpdate rgName (azureLoc r)))) in
        match res with
        | Err e => AddError "azure rg" e ;; return_
        | Ok _ =>
          let begin := ContainerGroups_BeginCreateOrUpdate rgName Name (azureLoc r) Name Image in
          let* res := call begin in
          let* res := match res with
                      | Ok _ => call (Poller_PollUntilDone begin)
                      | Err e => ret (Err e)
                      end in
          match res with
          | Err e => AddError "azure create" e ;; return_
          | Ok _ =>
            let* cg := call (ContainerGroups_Get rgName Name) in
            match cg with
            | Err e => AddError "azure get" e ;; return_
            | Ok cg =>
              let ip := match ContainerGroup_Properties cg with
                        | Some (Some (Some IP)) => IP
                        | _ => ""
                        end in
              let* id := deref (ContainerGroup_ID cg) in
              State_Set [("id", VString id); ("name", VString Name); ("image", VString Image);
                         ("type", VString Type_); ("region", VString (azureLoc r));
                         ("ip_address", VString ip)]
            end
          end
        end
    else if Type_ == "gcp" then
      AddError "gcp" "serverless container resource not implemented"
    else
      AddError "unsupported cloud" "only aws and azure implemented".

Definition Read (state : Attrs) : M MoreCall Resource unit :=
    let ID := ValueString state "id" in
    let Type_ := ValueString state "type" in
    let Name := ValueString state "name" in
    if Type_ == "aws" then
      let* r := receiver in
      if isNil (ecs r) then return_
      else
        let* res := call (ECS_DescribeTasks "default" [ID]) in
        match res with
        | Err _ => State_RemoveResource
        | Ok _ => ret tt
        end
    else if Type_ == "azure" then
      let* r := receiver in
      if isNil (azureCI r) then return_
      else
        let* res := call (ContainerGroups_Get "abstract-rg" Name) in
        match res with
        | Err _ => State_RemoveResource
        | Ok _ => ret tt
        end
    else ret tt.

Definition Update (plan state : Attrs) : M MoreCall Resource unit := ret tt.

Definition Delete (state : Attrs) : M MoreCall Resource unit :=
    let ID := ValueString state "id" in
    let Type_ := ValueString state "type" in
    let Name := ValueString state "name" in
    if Type_ == "aws" then
      let* r := receiver in
      if isNil (ecs r) then return_
      else
        let* res := call (ECS_StopTask "default" ID) in
        match res with
        | Err e => AddError "aws delete" e
        | Ok _ => ret tt
        end
    else if Type_ == "azure" then
      let* r := receiver in
      if isNil (azureCI r) then return_
      else
        let begin := ContainerGroups_BeginDelete "abstract-rg" Name in
        let* res := call begin in
        let* res := match res with
                    | Ok _ => call (Poller_PollUntilDone begin)
                    | Err e => ret (Err e)
                    end in
        match res with
        | Err e => AddError "azure delete" e
        | Ok _ => ret tt
        end
    else ret tt.

End ServerlessContainer.

(** *** Runs of the further handlers *)

(** The environment of the runs below. *)
Definition environment {T} (c : HostCall T) : T :=
  match c in HostCall T return T with
  | os_Getenv key =>
    if key == "AZURE_KEY_VAULT_URL" then "https://kv.vault.azure.net" else "hunter2"
  | c => acceptHost c
  end.

(** Every request is granted; the clock reads 1700000000. *)
Definition acceptMore {T} (c : MoreCall T) : T :=
  match c with
  | Known c => backendOf (@acceptAWS) (@acceptAzure) (@acceptGCP) (@environment) _ [] c
  | time_Now_Unix => 1700000000
  | SecretsManager_CreateSecret name _ => Ok (Some ("arn:aws:secretsmanager:" ++ name))
  | SecretsManager_GetSecretValue _ | SecretsManager_DeleteSecret _ _ => Ok tt
  | azsecrets_NewClient _ _ | azsecrets_SetSecret _ _ _ | azsecrets_GetSecret _ _
  | azsecrets_BeginDeleteSecret _ _ => Ok tt
  | Secrets_Create _ _ | Secrets_AddVersion _ _ | Secrets_Get _ | Secrets_Delete _ => Ok tt
  | RDS_CreateDBInstance _ _ _ _ _ _ _ _ | RDS_DescribeDBInstances _
  | RDS_DeleteDBInstance _ _ => Ok tt
  | MySQL_BeginCreate _ _ _ _ _ | MySQL_BeginDelete _ _ => Ok poller
  | MySQL_Get _ _ => Ok tt
  | Postgres_BeginCreate _ _ _ _ _ _ | Postgres_BeginDelete _ _ => Ok poller
  | Postgres_Get _ _ => Ok tt
  | SQL_InstancesInsert _ _ _ _ _ | SQL_InstancesDelete _ _ => Ok "operation-1"
  | SQL_InstancesGet _ _ => Ok tt
  | SQL_OperationsGet _ _ => Ok "DONE"
  | ELB_CreateLoadBalancer name _ =>
    Ok [{| LoadBalancerArn := Some ("arn:aws:elasticloadbalancing:" ++ name);
           DNSName := Some (name ++ ".elb.amazonaws.com") |}]
  | ELB_DescribeLoadBalancers _ | ELB_DeleteLoadBalancer _ => Ok tt
  | LoadBalancers_BeginCreateOrUpdate _ _ _ _ _ | LoadBalancers_BeginDelete _ _ => Ok poller
  | LoadBalancers_Get _ _ => Ok tt
  | PublicIPAddresses_Get _ _ => Ok (Some (Some "203.0.113.7"))
  | PublicIPAddresses_BeginDelete _ _ => Ok poller
  | ECS_RegisterTaskDefinition family _ _ _ _ => Ok (Some (Some ("arn:aws:ecs:td/" ++ family)))
  | ECS_RunTask _ _ _ => Ok [Some "arn:aws:ecs:task/1"]
  | ECS_DescribeTasks _ _ | ECS_StopTask _ _ => Ok tt
  | ContainerGroups_BeginCreateOrUpdate _ _ _ _ _ | ContainerGroups_BeginDelete _ _ => Ok poller
  | ContainerGroups_Get _ name =>
    Ok {| ContainerGroup_ID := Some ("/subscriptions/s/resourceGroups/g/providers/p/" ++ name);
          ContainerGroup_Properties := Some (Some (Some "203.0.113.8")) |}
  | Poller_PollUntilDone _ => Ok {| ID := Some "/subscriptions/s/resourceGroups/g/providers/p/n" |}
  end.

(** A backend over the further calls whose answers do not depend on what
    happened before. *)
Definition answering (answer : forall T, MoreCall T -> T) : Wide.Backend MoreCall :=
  fun T _ c => answer T c.

Definition acceptingMore : Wide.Backend MoreCall := answering (@acceptMore).

(** The call of an event, without its answer. *)
Inductive MoreRequest : Type :=
| AskedMore : forall T : Type, MoreCall T -> MoreRequest.
Arguments AskedMore {T} c.

Definition requestMore (e : Wide.Event MoreCall) : MoreRequest :=
  match e with Wide.Answered c _ => AskedMore c end.

(** Resource structs of a provider configured for all three clouds, with
    no location for Azure. *)
Definition secretResource : Secret.Resource :=
  {| Secret.sm := LiveClient; Secret.azureCred := CredentialPtr LiveClient;
     Secret.gcp := LiveClient; Secret.gcpProj := "proj" |}.

Definition databaseResource : Database.Resource :=
  {| Database.rds := LiveClient; Database.azureMySQL := LiveClient;
     Database.azurePG := LiveClient; Database.azureRG := LiveClient;
     Database.azureLoc := ""; Database.gcpSQL := LiveClient;
     Database.gcpProj := "proj"; Database.gcpRegion := "" |}.

Definition loadBalancerResource : LoadBalancer.Resource :=
  {| LoadBalancer.elb := LiveClient; LoadBalancer.ec2 := LiveClient;
     LoadBalancer.azureRG := LiveClient; LoadBalancer.azureLB := LiveClient;
     LoadBalancer.azurePIP := LiveClient; LoadBalancer.azureLoc := "" |}.

Definition containerResource : ServerlessContainer.Resource :=
  {| ServerlessContainer.ecs := LiveClient; ServerlessContainer.ec2 := LiveClient;
     ServerlessContainer.azureRG := LiveClient; ServerlessContainer.azureCI := LiveClient;
     ServerlessContainer.azureLoc := "" |}.

Definition azureSecretPlan : Attrs :=
  list_to_map [("name", VString "token"); ("type", VString "azure");
               ("value", VString "s3cr3t")].

Definition gcpSecretPlan : Attrs :=
  list_to_map [("name", VString "token"); ("type", VString "gcp");
               ("value", VString "s3cr3t")].

(** The secret is there already. *)
Definition existing : Wide.Backend MoreCall :=
  answering (fun T c => match c in MoreCall T return T with
                        | Secrets_Create _ _ => Err "googleapi: Error 409: Already exists"
                        | c => acceptMore c
                        end).

(** The location a provisioning call over the further calls is made for. *)
Fixpoint moreLocation {T} (c : MoreCall T) : option string :=
  match c with
  | Known (Azure c) => azureLocation c
  | MySQL_BeginCreate _ _ location _ _ | Postgres_BeginCreate _ _ location _ _ _
  | LoadBalancers_BeginCreateOrUpdate _ _ location _ _
  | ContainerGroups_BeginCreateOrUpdate _ _ location _ _ => Some location
  | Poller_PollUntilDone begin => moreLocation begin
  | _ => None
  end.

Definition moreLocationOf (e : Wide.Event MoreCall) : option string :=
  match e with Wide.Answered c _ => moreLocation c end.

(** The error of an event that is a failed deletion of a PostgreSQL
    server, at its start or at its end. *)
Definition postgresDeletionError (e : Wide.Event MoreCall) : option string :=
  match e with
  | Wide.Answered c a =>
    match c in MoreCall T return T -> option string with
    | Postgres_BeginDelete _ _ => fun a => match a with Err e => Some e | Ok _ => None end
    | Poller_PollUntilDone (Postgres_BeginDelete _ _) =>
      fun a => match a with Err e => Some e | Ok _ => None end
    | _ => fun _ => None
    end a
  end.

(** A deletion of a PostgreSQL server, at its start or at its end. *)
Definition onPostgres (e : Wide.Event MoreCall) : bool :=
  match e with
  | Wide.Answered (Postgres_BeginDelete _ _) _
  | Wide.Answered (Poller_PollUntilDone (Postgres_BeginDelete _ _)) _ => true
  | _ => false
  end.

(** A MySQL server of size Standard_B1ms on Azure. *)
Definition azureDatabasePlan : Attrs :=
  list_to_map [("name", VString "orders"); ("type", VString "azure");
               ("engine", VString "mysql"); ("size", VString "Standard_B1ms")].

Definition oraclePlan : Attrs :=
  list_to_map [("name", VString "orders"); ("type", VString "azure");
               ("engine", VString "oracle")].

Definition azureDatabaseRecord : Attrs :=
  list_to_map [("id", VString "orders"); ("name", VString "orders");
               ("type", VString "azure"); ("engine", VString "postgres");
               ("version", VString ""); ("size", VString "Standard_B1ms")].

Definition azureBalancerRecord : Attrs :=
  list_to_map [("id", VString "front"); ("name", VString "front");
               ("type", VString "azure"); ("region", VString "westeurope");
               ("ip_address", VString "203.0.113.7")].

Definition azureBalancerPlan : Attrs :=
  list_to_map [("name", VString "front"); ("type", VString "azure");
               ("region", VString "westeurope")].

(** The load balancer still holds its public address. *)
Definition inUse : Wide.Backend MoreCall :=
  answering (fun T c => match c in MoreCall T return T with
                        | PublicIPAddresses_BeginDelete _ _ => Err "PublicIPAddressInUse"
                        | c => acceptMore c
                        end).

(** The public address has no address assigned yet, and its creation
    answers no id. *)
Definition unassigned : Wide.Backend MoreCall :=
  answering (fun T c =>
    match c in MoreCall T return T with
    | Known c =>
      backendOf (@acceptAWS)
        (fun T c => match c in AzureCall T return T with
                    | PollUntilDone _ => Ok {| ID := None |}
                    | c => acceptAzure c
                    end)
        (@acceptGCP) (@environment) _ [] c
    | PublicIPAddresses_Get _ _ => Ok (Some None)
    | c => acceptMore c
    end).

Definition awsContainerPlan : Attrs :=
  list_to_map [("name", VString "web"); ("image", VString "nginx"); ("type", VString "aws")].

Definition awsContainerRecord : Attrs :=
  list_to_map [("id", VString "arn:aws:ecs:task/1"); ("name", VString "web");
               ("image", VString "nginx"); ("type", VString "aws")].

(** No capacity to run a task. *)
Definition noCapacity : Wide.Backend MoreCall :=
  answering (fun T c => match c in MoreCall T return T with
                        | ECS_RunTask _ _ _ => Ok []
                        | c => acceptMore c
                        end).

(** What the creation of a public address answered, once done. *)
Definition addressMade (e : Wide.Event MoreCall) : option ARMResource :=
  match e with
  | Wide.Answered c a =>
    match c in MoreCall T return T -> option ARMResource with
    | Known c =>
      match c in Call T return T -> option ARMResource with
      | Azure c =>
        match c in AzureCall T return T -> option ARMResource with
        | PollUntilDone (PublicIPAddresses_BeginCreateOrUpdate _ _ _ _) =>
          fun a => match a with Ok made => Some made | Err _ => None end
        | _ => fun _ => None
        end
      | _ => fun _ => None
      end
    | _ => fun _ => None
    end a
  end.

(** The id of the public address a load balancer is made with. *)
Definition addressGiven (e : Wide.Event MoreCall) : option string :=
  match e with
  | Wide.Answered (LoadBalancers_BeginCreateOrUpdate _ _ _ _ publicIPAddressID) _ =>
    Some publicIPAddressID
  | _ => None
  end.

(** What the lookup of a public address answered. *)
Definition addressShown (e : Wide.Event MoreCall) : option (Go (option (option string))) :=
  match e with
  | Wide.Answered c a =>
    match c in MoreCall T return T -> option (Go (option (option string))) with
    | PublicIPAddresses_Get _ _ => fun a => Some a
    | _ => fun _ => None
    end a
  end.

(** What the registration of a task definition answered. *)
Definition definitionRegistered (e : Wide.Event MoreCall)
  : option (Go (option (option string))) :=
  match e with
  | Wide.Answered c a =>
    match c in MoreCall T return T -> option (Go (option (option string))) with
    | ECS_RegisterTaskDefinition _ _ _ _ _ => fun a => Some a
    | _ => fun _ => None
    end a
  end.

(** The task definition a task is run from, and what the run answered. *)
Definition taskRun (e : Wide.Event MoreCall) : option (string * Go (list (option string))) :=
  match e with
  | Wide.Answered c a =>
    match c in MoreCall T return T -> option (string * Go (list (option string))) with
    | ECS_RunTask _ taskDefinition _ => fun a => Some (taskDefinition, a)
    | _ => fun _ => None
    end a
  end.

(** The container group a lookup answered. *)
Definition groupShown (e : Wide.Event MoreCall) : option ContainerGroup :=
  match e with
  | Wide.Answered c a =>
    match c in MoreCall T return T -> option ContainerGroup with
    | ContainerGroups_Get _ _ =>
      fun a => match a with Ok cg => Some cg | Err _ => None end
    | _ => fun _ => None
    end a
  end.

Definition azureContainerPlan : Attrs :=
  list_to_map [("name", VString "web"); ("image", VString "nginx");
               ("type", VString "azure"); ("region", VString "westeurope")].

(** The lookup of a container group answers a group without an id. *)
Definition nameless : Wide.Backend MoreCall :=
  answering (fun T c => match c in MoreCall T return T with
                        | ContainerGroups_Get _ _ =>
                          Ok {| ContainerGroup_ID := None;
                                ContainerGroup_Properties := None |}
                        | c => acceptMore c
                        end).

(** A handler over the further calls that reports one error under
    [summary], makes no call and leaves everything as it was. *)
Definition declines {R} (out : Wide.Outcome MoreCall R) (r : R) (prior : option Attrs)
    (summary : string) : Prop :=
  finished (Wide.flow out) = true /\ Wide.calls out = [] /\ Wide.record out = prior
  /\ Wide.self' out = r /\ exists d, Wide.diagnostics out = [AddedError summary d].

(** A handler over the further calls that does nothing at all. *)
Definition idles {R} (out : Wide.Outcome MoreCall R) (r : R) (prior : option Attrs) : Prop :=
  finished (Wide.flow out) = true /\ Wide.calls out = [] /\ Wide.record out = prior
  /\ Wide.self' out = r /\ Wide.diagnostics out = [].

Definition gcpBalancerPlan : Attrs :=
  list_to_map [("name", VString "front"); ("type", VString "gcp")].

Definition awsSecretRecord : Attrs :=
  list_to_map [("id", VString "arn:aws:secretsmanager:token"); ("name", VString "token");
               ("type", VString "aws")].

(** The secret renamed. *)
Definition renamedSecretPlan : Attrs :=
  list_to_map [("name", VString "api-token"); ("type", VString "aws");
               ("value", VString "s3cr3t")].

(** Unfolding of the monad's operations over further calls under [cbn]. *)
Arguments Wide.bind {C R A B} m k _ _ /.
Arguments Wide.call {C R T} c _ _ /.
Arguments Wide.ret {C R A} a _ _ /.
Arguments Wide.AddError {C R} s d _ _ /.
Arguments Wide.State_Set {C R} attrs _ _ /.
Arguments Wide.State_RemoveResource {C R} _ _ /.
Arguments Wide.return_ {C R A} _ _ /.
Arguments Wide.panic {C R A} _ _ /.
Arguments Wide.exhausted {C R A} _ _ /.
Arguments Wide.receiver {C R} _ _ /.
Arguments Wide.set_receiver {C R} r _ _ /.
Arguments Wide.deref {C R A} p /.
Arguments Wide.when {C R} cond body /.
Arguments Wide.nested {C R} h _ _ /.
Arguments Wide.Diagnostics_Append {C R} ds _ _ /.
Arguments Wide.run {C R} h backend r prior history /.

(** *** What Create makes and what Read looks for *)

(** A network or a machine as its cloud names it: by the id the service
    gave it on AWS, by resource group and name on Azure, by project (and
    zone) and name on GCP. *)
Inductive Named :=
| AWSVpc (id : string)
| AWSInstance (id : string)
| AzureNetwork (group name : string)
| AzureMachine (group name : string)
| GCPNetwork (project name : string)
| GCPInstance (project zone name : string).

#[global] Instance Named_eq_dec : EqDecision Named.
Proof. solve_decision. Defined.

(** The networks and machines a call made, going by its answer. *)
Definition madeBy (e : Event) : list Named :=
  match e with
  | Answered c a =>
    match c in Call T return T -> list Named with
    | AWS c =>
      match c in AWSCall T return T -> list Named with
      | EC2_CreateVpc _ =>
        fun a => match a with Ok vpc => [AWSVpc (aws_ToString vpc)] | Err _ => [] end
      | EC2_RunInstances _ _ _ =>
        fun a => match a with
                 | Ok instances => map (fun i => AWSInstance (aws_ToString i)) instances
                 | Err _ => []
                 end
      | _ => fun _ => []
      end
    | Azure c =>
      match c in AzureCall T return T -> list Named with
      | PollUntilDone begin =>
        fun a =>
          match begin, a with
          | VirtualNetworks_BeginCreateOrUpdate group name _ _, Ok _ =>
            [AzureNetwork group name]
          | VirtualMachines_BeginCreateOrUpdate group name _ _ _ _, Ok _ =>
            [AzureMachine group name]
          | _, _ => []
          end
      | _ => fun _ => []
      end
    | GCP c =>
      match c in GCPCall T return T -> list Named with
      | Networks_Insert project name _ =>
        fun a => match a with Ok _ => [GCPNetwork project name] | Err _ => [] end
      | Instances_Insert project zone name _ _ _ _ =>
        fun a => match a with Ok _ => [GCPInstance project zone name] | Err _ => [] end
      | _ => fun _ => []
      end
    | Host _ => fun _ => []
    end a
  end.

(** Everything made in the course of [history]. *)
Definition made (history : list Event) : list Named := history ≫= madeBy.

(** The network or machine a lookup asks for. *)
Definition soughtBy {T} (c : Call T) : option Named :=
  match c with
  | AWS (EC2_DescribeVpcs [id] _) => Some (AWSVpc id)
  | AWS (EC2_DescribeInstances [id]) => Some (AWSInstance id)
  | Azure (VirtualNetworks_Get group name) => Some (AzureNetwork group name)
  | Azure (VirtualMachines_Get group name) => Some (AzureMachine group name)
  | GCP (Networks_Get project name) => Some (GCPNetwork project name)
  | GCP (Instances_Get project zone name) => Some (GCPInstance project zone name)
  | _ => None
  end.

Definition sought (e : Event) : option Named :=
  match e with Answered c _ => soughtBy c end.

(** No external change: whatever was made in the course of the history is
    found when it is looked up. *)
Definition keepsWhatWasMade (backend : Backend) : Prop :=
  forall T (c : Call T) history key,
    soughtBy c = Some key -> key ∈ made history ->
    found (Answered c (backend T history c)) = true.

Definition onAzure (key : Named) : bool :=
  match key with AzureNetwork _ _ | AzureMachine _ _ => true | _ => false end.

(** Azure knows its resources by group and name: a lookup under a name
    nothing was made under finds nothing. *)
Definition knowsAzureByName (backend : Backend) : Prop :=
  forall T (c : Call T) history key,
    soughtBy c = Some key -> onAzure key = true -> key ∉ made history ->
    found (Answered c (backend T history c)) = false.

(** A backend that grants every request and keeps on Azure what was made
    there, under the group and name it was made with. *)
Definition remembering : Backend :=
  fun T history c =>
    match c in Call T return T with
    | Azure c =>
      match c in AzureCall T return T with
      | VirtualNetworks_Get group name =>
        if bool_decide (AzureNetwork group name ∈ made history)
        then Ok {| ID := Some ("/subscriptions/s/resourceGroups/" ++ group
                               ++ "/providers/Microsoft.Network/virtualNetworks/" ++ name) |}
        else Err "ResourceNotFound"
      | VirtualMachines_Get group name =>
        if bool_decide (AzureMachine group name ∈ made history)
        then Ok {| ID := Some ("/subscriptions/s/resourceGroups/" ++ group
                               ++ "/providers/Microsoft.Compute/virtualMachines/" ++ name) |}
        else Err "ResourceNotFound"
      | c => acceptAzure c
      end
    | AWS c => acceptAWS c
    | GCP c => acceptGCP c
    | Host c => acceptHost c
    end.

(** *** The groups of the function's Delete *)

(** The deletion of a storage account. *)
Definition deletesAccount (e : Event) : bool :=
  match e with
  | Answered (Azure (Accounts_Delete _ _)) _ => true
  | _ => false
  end.

(** What Delete of a function addresses: the group the record names with
    the deletion of the storage account, "abstract-rg" with every other
    call. *)
Definition inGroupsOfFunction (state : Attrs) (e : Event) : Prop :=
  inGroup (if deletesAccount e then ValueString state "resource_group" else "abstract-rg") e.

Definition azureBucketPlan : Attrs :=
  list_to_map [("name", VString "Backups"); ("type", VString "azure")].

(** A function record whose stored group is another one. *)
Definition movedFunctionRecord : Attrs :=
  <["resource_group" := VString "legacy-rg"]> azureFunctionRecord.

(** Unfolding of the monad's operations under [cbn]. *)
Arguments bind {R A B} m k _ _ /.
Arguments call {R T} c _ _ /.
Arguments ret {R A} a _ _ /.
Arguments AddError {R} s d _ _ /.
Arguments State_Set {R} attrs _ _ /.
Arguments State_RemoveResource {R} _ _ /.
Arguments return_ {R A} _ _ /.
Arguments panic {R A} _ _ /.
Arguments exhausted {R A} _ _ /.
Arguments receiver {R} _ _ /.
Arguments set_receiver {R} r _ _ /.
Arguments deref {R A} p /.
Arguments when {R} cond body /.
Arguments nested {R} h _ _ /.
Arguments Diagnostics_Append {R} ds _ _ /.
Arguments invoke {R} h backend r prior history /.
Arguments run {R} h backend r prior history /.

(** Symbolic execution of a handler against an arbitrary backend: case
    analysis on each answer ([answer]), each condition ([branch]) and each
    payload ([payload]). *)
Ltac answer backend :=
  match goal with
  | |- context [match backend ?T ?h ?c with _ => _ end] =>
    let a := fresh "answer" in destruct (backend T h c) as [a|a] eqn:?
  end.

Ltac branch :=
  match goal with
  | |- context [if ?x then _ else _] => destruct x eqn:?
  end.

Ltac payload :=
  match goal with
  | |- context [match ?x with _ => _ end] => is_var x; destruct x
  | |- context [ID ?x] => is_var x; destruct x as [[?|]]
  end.

Ltac execute backend :=
  cbn; repeat (first [ answer backend | branch | payload | progress cbn ]).

Ltac tidy_log :=
  rewrite <- ?app_assoc; rewrite ?drop_app_length, ?drop_all; cbn.

(** ** The calculus of [emits] *)

Section Emits.
Context {R : Type} (P : Event -> Prop).

Lemma emits_quiet {A} (m : M R A) :
  (forall b ctx, log (snd (m b ctx)) = log ctx) -> emits P m.
Proof.
  intros H b ctx. exists []. rewrite H, app_nil_r. split; [reflexivity | constructor].
Qed.

Lemma emits_deref {A} (p : option A) : emits P (deref (R := R) p).
Proof. destruct p; now apply emits_quiet. Qed.

Lemma emits_call {T} (c : Call T) :
  (forall a, P (Answered c a)) -> emits P (call (R := R) c).
Proof.
  intros H b ctx. exists [Answered c (b T (log ctx) c)]. cbn. split; [reflexivity|].
  constructor; [apply H | constructor].
Qed.

Lemma emits_bind {A B} (m : M R A) (k : A -> M R B) :
  emits P m -> (forall a, emits P (k a)) -> emits P (bind m k).
Proof.
  intros Hm Hk b ctx. destruct (Hm b ctx) as (new & Hlog & Hnew).
  unfold bind. destruct (m b ctx) as [[a| | |] c']; cbn in *;
    try (exists new; split; assumption).
  destruct (Hk a b c') as (new' & Hlog' & Hnew').
  exists (new ++ new')%list. rewrite Hlog', Hlog, app_assoc. split; [reflexivity|].
  apply Forall_app; split; assumption.
Qed.

Lemma emits_when cond (body : M R unit) : emits P body -> emits P (when cond body).
Proof. intros H. destruct cond; [exact H | now apply emits_quiet]. Qed.

Lemma emits_nested (h : M R unit) : emits P h -> emits P (nested h).
Proof.
  intros H b ctx.
  destruct (H b (MkCtx (self ctx) None [] (log ctx))) as (new & Hlog & Hnew).
  exists new. unfold nested. cbn in *.
  destruct (h b _) as [[[]| | |] c']; cbn in *; split; assumption.
Qed.

Lemma emits_run (h : M R unit) backend r prior history :
  emits P h -> Forall P (calls (run h backend r prior history)).
Proof.
  intros H. destruct (H backend (MkCtx r prior [] history)) as (new & Hlog & Hnew).
  cbn in *. rewrite Hlog, drop_app_length. exact Hnew.
Qed.

End Emits.

Ltac emit_step :=
  match goal with
  | |- emits _ (bind _ _) => apply emits_bind; [ | intros ? ]
  | |- emits _ (call _) => apply emits_call; intros ?; first [ reflexivity | exact I ]
  | |- emits _ (deref _) => apply emits_deref
  | |- emits _ (when _ _) => apply emits_when
  | |- emits _ (nested _) => apply emits_nested
  | |- emits _ (if ?x then _ else _) => destruct x
  | |- emits _ (match ?x with _ => _ end) => destruct x
  | |- emits _ (let _ := _ in _) => cbv zeta
  | |- emits _ _ => apply emits_quiet; reflexivity
  end.

Ltac emit := repeat emit_step.

(** ** C1: a failed Create tears nothing down *)








(** ** C2: Read of a record whose resource is gone *)

(** C2 on the bucket.  On AWS, with the S3 client configured, Read asks
    [HeadBucket] for the stored id; when that fails the record is removed
    and an error diagnostic is added with it. *)
Theorem Bucket_Read_reports_a_missing_bucket
    (backend : Backend) (r : Bucket.Resource) (rec : Attrs) (history : list Event) :
  ValueString rec "type" = "aws" -> Bucket.s3 r = LiveClient ->
  let out := run (Bucket.Read rec) backend r (Some rec) history in
  match backend _ history (AWS (S3_HeadBucket (ValueString rec "id"))) with
  | Ok _ => record out = Some rec /\ diagnostics out = []
  | Err e => record out = None /\ diagnostics out = [AddedError "aws read" e]
  end.
Proof.
  intros Htype Hs3. unfold Bucket.Read. cbv zeta. rewrite Htype. cbn. rewrite Hs3. cbn.
  destruct (backend _ history _); cbn; split; reflexivity.
Qed.

Lemma Bucket_Read_of_a_deleted_bucket :
  let out := run (Bucket.Read awsBucketRecord) gone bucketResource (Some awsBucketRecord) [] in
  record out = None /\ diagnostics out = [AddedError "aws read" "NotFound"].
Proof.
  exact (Bucket_Read_reports_a_missing_bucket gone bucketResource awsBucketRecord []
           eq_refl eq_refl).
Defined.

(** The network's Read, next to it: the record goes and nothing is
    reported. *)
Lemma Network_Read_drops_a_missing_network
    (backend : Backend) (r : Network.Resource) (rec : Attrs) (history : list Event) :
  ValueString rec "type" = "aws" -> Network.ec2 r = LiveClient ->
  let out := run (Network.Read rec) backend r (Some rec) history in
  diagnostics out = []
  /\ match backend _ history (AWS (EC2_DescribeVpcs [ValueString rec "id"] [])) with
     | Ok (_ :: _) => record out = Some rec
     | _ => record out = None
     end.
Proof.
  intros Htype Hec2. unfold Network.Read. cbv zeta. rewrite Htype. cbn. rewrite Hec2. cbn.
  destruct (backend _ history _) as [[|v vs]|e]; cbn; split; reflexivity.
Qed.

(** ** C3: a backend tag outside aws, azure, gcp *)

Lemma unsupported_tag (tag : string) :
  supported tag = false ->
  (tag == "aws") = false /\ (tag == "azure") = false /\ (tag == "gcp") = false.
Proof.
  unfold supported. intros H.
  destruct (tag == "aws"), (tag == "azure"), (tag == "gcp"); try discriminate; auto.
Qed.

Ltac unsupported H :=
  let Haws := fresh "Haws" in
  let Hazure := fresh "Hazure" in
  let Hgcp := fresh "Hgcp" in
  destruct (unsupported_tag _ H) as (Haws & Hazure & Hgcp);
  cbv zeta; rewrite ?Haws, ?Hazure, ?Hgcp; cbn;
  rewrite ?drop_all; repeat split; eauto.

(** C3, as the code has it.  With a tag other than aws, azure and gcp,
    Create reports the error "unsupported cloud", makes no call and sets
    no record; Read, Update and Delete make no call either, and report
    nothing: the record stays as it is. *)
Theorem unsupported_tag_is_refused_by_Create_only
    (toLowerCase : Z -> Z) (sdk : SDKConstants) (backend : Backend)
    (attrs other : Attrs) (prior : option Attrs) (history : list Event) (fuel : nat) :
  supported (ValueString attrs "type") = false ->
  ((forall r, refuses (run (Bucket.Create toLowerCase attrs) backend r prior history) r prior)
   /\ (forall r, refuses (run (Network.Create attrs) backend r prior history) r prior)
   /\ (forall r, refuses (run (Instance.Create toLowerCase sdk attrs) backend r prior history)
                   r prior)
   /\ (forall r, refuses (run (Cluster.Create fuel attrs) backend r prior history) r prior)
   /\ (forall r, refuses (run (Function.Create toLowerCase fuel attrs) backend r prior history)
                   r prior))
  /\ ((forall r, ignores (run (Bucket.Read attrs) backend r prior history) r prior)
      /\ (forall r, ignores (run (Network.Read attrs) backend r prior history) r prior)
      /\ (forall r, ignores (run (Instance.Read attrs) backend r prior history) r prior)
      /\ (forall r, ignores (run (Cluster.Read attrs) backend r prior history) r prior)
      /\ (forall r, ignores (run (Function.Read attrs) backend r prior history) r prior))
  /\ ((forall r, ignores (run (Bucket.Update other attrs) backend r prior history) r prior)
      /\ (forall r, ignores (run (Network.Update other attrs) backend r prior history) r prior)
      /\ (forall r, ignores (run (Instance.Update other attrs) backend r prior history) r prior)
      /\ (forall r, ignores (run (Cluster.Update other attrs) backend r prior history) r prior)
      /\ (forall r, ignores (run (Function.Update other attrs) backend r prior history) r prior))
  /\ ((forall r, ignores (run (Bucket.Delete attrs) backend r prior history) r prior)
      /\ (forall r, ignores (run (Network.Delete attrs) backend r prior history) r prior)
      /\ (forall r, ignores (run (Instance.Delete attrs) backend r prior history) r prior)
      /\ (forall r, ignores (run (Cluster.Delete fuel attrs) backend r prior history) r prior)
      /\ (forall r, ignores (run (Function.Delete fuel attrs) backend r prior history) r prior)).
Proof.
  intros H.
  repeat match goal with |- _ /\ _ => split end; intros r; unfold refuses, ignores.
  all: unfold Bucket.Create, Network.Create, Instance.Create, Cluster.Create,
    Function.Create, Bucket.Read, Network.Read, Instance.Read, Cluster.Read, Function.Read,
    Bucket.Update, Network.Update, Instance.Update, Cluster.Update, Function.Update,
    Bucket.Delete, Network.Delete, Instance.Delete, Cluster.Delete, Function.Delete.
  all: unsupported H.
Qed.

Lemma unsupported_tag_run :
  refuses (run (Network.Create oracleNetworkRecord) accepting networkResource None [])
    networkResource None
  /\ ignores (run (Network.Read oracleNetworkRecord) accepting networkResource
                (Some oracleNetworkRecord) [])
       networkResource (Some oracleNetworkRecord).
Proof.
  pose proof (unsupported_tag_is_refused_by_Create_only caseless sdkValues accepting
                oracleNetworkRecord oracleNetworkRecord) as H.
  split.
  - apply (H None [] O eq_refl).
  - apply (H (Some oracleNetworkRecord) [] O eq_refl).
Defined.

(** C3 as the spec states it fails.  Read of a record tagged "oracle"
    surfaces no error: it comes back with no diagnostic and the record
    untouched. *)
Lemma Read_of_unsupported_tag_is_silent :
  let out := run (Network.Read oracleNetworkRecord) accepting networkResource
               (Some oracleNetworkRecord) [] in
  supported (ValueString oracleNetworkRecord "type") = false
  /\ diagnostics out = []
  /\ record out = Some oracleNetworkRecord
  /\ flow out = Next tt.
Proof. vm_compute. repeat split. Qed.

(** ** C4: what Update does *)

Lemma DNSRecord_Delete_emits tl tu state : emits anyCall (DNSRecord.Delete tl tu state).
Proof. unfold DNSRecord.Delete. emit. Qed.

Lemma DNSRecord_Create_emits tl tu ef plan : emits anyCall (DNSRecord.Create tl tu ef plan).
Proof. unfold DNSRecord.Create. emit. Qed.

(** Delete of a DNS record ignores every error: it reports nothing. *)
Lemma DNSRecord_Delete_is_silent tl tu state backend (ctx : Ctx DNSRecord.Resource) :
  let '(f, c) := DNSRecord.Delete tl tu state backend ctx in
  finished f = true /\ Diagnostics c = Diagnostics ctx /\ self c = self ctx.
Proof.
  unfold DNSRecord.Delete. destruct ctx. execute backend; repeat split.
Qed.

Lemma DNSRecord_Create_finishes tl tu ef plan backend (ctx : Ctx DNSRecord.Resource) :
  finished (fst (DNSRecord.Create tl tu ef plan backend ctx)) = true.
Proof.
  unfold DNSRecord.Create. destruct ctx. execute backend; reflexivity.
Qed.

(** Update of a DNS record is its Delete followed by its Create, each
    with a response of its own; the caller's record is left as it was. *)
Lemma DNSRecord_Update_is_Delete_then_Create tl tu ef backend r state plan prior history :
  let del := run (DNSRecord.Delete tl tu state) backend r None history in
  let cre := run (DNSRecord.Create tl tu ef plan) backend (self' del) None
               (history ++ calls del) in
  let out := run (DNSRecord.Update tl tu ef state plan) backend r prior history in
  calls out = (calls del ++ calls cre)%list
  /\ diagnostics out = diagnostics cre
  /\ record out = prior.
Proof.
  unfold run, invoke, DNSRecord.Update, bind, nested. cbv beta zeta.
  pose proof (DNSRecord_Delete_is_silent tl tu state backend (MkCtx r None [] history)) as Hd.
  destruct (DNSRecord_Delete_emits tl tu state backend (MkCtx r None [] history))
    as (nd & Hlogd & _).
  destruct (DNSRecord.Delete tl tu state backend _) as [fd cd]. cbn in Hd, Hlogd.
  destruct Hd as (Hfin & Hdiag & Hself).
  cbn [fst snd calls self' log self State Diagnostics diagnostics record flow].
  rewrite Hlogd, drop_app_length, Hself.
  pose proof (DNSRecord_Create_finishes tl tu ef plan backend
                (MkCtx r None [] (history ++ nd))) as Hc.
  destruct (DNSRecord_Create_emits tl tu ef plan backend (MkCtx r None [] (history ++ nd)))
    as (nc & Hlogc & _).
  destruct fd as [[]| | |]; try discriminate Hfin.
  all: cbn [fst snd calls self' log self State Diagnostics diagnostics record flow];
    rewrite ?Hdiag, ?Hself, ?Hlogd; cbn [HasError].
  all: destruct (DNSRecord.Create tl tu ef plan backend _) as [fc cc]; cbn in Hc, Hlogc.
  all: destruct fc as [[]| | |]; try discriminate Hc; cbn.
  all: rewrite Hlogc, ?drop_app_length, <- ?app_assoc, ?drop_app_length, ?app_nil_r.
  all: repeat split; reflexivity.
Qed.

Lemma Bucket_Update_in_place backend r state plan prior history :
  let out := run (Bucket.Update state plan) backend r prior history in
  Forall (fun e => mutatesInPlace e = true) (calls out)
  /\ (List.length (calls out) <= 1)%nat
  /\ record out = prior.
Proof.
  unfold Bucket.Update. execute backend; tidy_log; repeat split; repeat constructor.
Qed.

(** C4, as the code has it.  Of the six resources embedded here, Update
    is a Delete followed by a Create for the DNS record alone.  For a
    bucket it makes at most one call, which sets the versioning of the
    bucket where it stands; for a network, an instance, a cluster and a
    function it does nothing.  None of them touches the stored record. *)
Theorem Update_replaces_DNS_records_only
    (toLowerCase toUpperCase : Z -> Z) (EqualFold : string -> string -> bool)
    (backend : Backend) (state plan : Attrs) (prior : option Attrs) (history : list Event) :
  (forall r,
     let del := run (DNSRecord.Delete toLowerCase toUpperCase state) backend r None history in
     let cre := run (DNSRecord.Create toLowerCase toUpperCase EqualFold plan) backend
                  (self' del) None (history ++ calls del) in
     let out := run (DNSRecord.Update toLowerCase toUpperCase EqualFold state plan)
                  backend r prior history in
     calls out = (calls del ++ calls cre)%list
     /\ diagnostics out = diagnostics cre
     /\ record out = prior)
  /\ (forall r,
        let out := run (Bucket.Update state plan) backend r prior history in
        Forall (fun e => mutatesInPlace e = true) (calls out)
        /\ (List.length (calls out) <= 1)%nat
        /\ record out = prior)
  /\ (forall r, ignores (run (Network.Update state plan) backend r prior history) r prior)
  /\ (forall r, ignores (run (Instance.Update state plan) backend r prior history) r prior)
  /\ (forall r, ignores (run (Cluster.Update state plan) backend r prior history) r prior)
  /\ (forall r, ignores (run (Function.Update state plan) backend r prior history) r prior).
Proof.
  split; [ intros r; apply DNSRecord_Update_is_Delete_then_Create | ].
  split; [ intros r; apply Bucket_Update_in_place | ].
  repeat match goal with |- _ /\ _ => split end; intros r; unfold ignores; cbn;
    rewrite drop_all; repeat split.
Qed.

(** C4 as the spec states it fails.  Update of a bucket on AWS with
    versioning switched on: one call that changes the bucket in place,
    and neither a Delete nor a Create; Update of an instance: no call. *)
Lemma Update_of_a_bucket_mutates_in_place :
  let plan := <["versioning" := VBool true]> awsBucketRecord in
  let out := run (Bucket.Update awsBucketRecord plan) accepting bucketResource
               (Some awsBucketRecord) [] in
  let none := run (Instance.Update awsInstanceRecord awsInstanceRecord) accepting
                instanceResource (Some awsInstanceRecord) [] in
  calls out = [Answered (AWS (S3_PutBucketVersioning "my-bucket-1" Enabled)) (Ok tt)]
  /\ filter (fun e => isDestroy e = true) (calls out) = []
  /\ calls none = [].
Proof. vm_compute. repeat split. Qed.

(** ** C5: Delete of a record whose resource is gone *)




(** ** C6: normalization applied twice *)

Lemma bytes_cons a s : GoStrings.bytes (String a s) = byteOf a :: GoStrings.bytes s.
Proof. reflexivity. Qed.

Lemma byteOf_range a : 0 <= byteOf a < 256.
Proof. unfold byteOf. pose proof (N_ascii_bounded a). lia. Qed.

Lemma bytes_of_bytes l :
  Forall (fun b => 0 <= b < 256) l -> GoStrings.bytes (GoStrings.of_bytes l) = l.
Proof.
  induction 1 as [|b l Hb _ IH]; [reflexivity|].
  unfold GoStrings.of_bytes in *. cbn [map string_of_list_ascii]. rewrite bytes_cons, IH.
  unfold byteOf. rewrite N_ascii_embedding by lia. rewrite Z2N.id by lia. reflexivity.
Qed.


Lemma lowerByte_facts b :
  0 <= b < 128 ->
  0 <= lowerByte b < 256 /\ (lowerByte b <? GoStrings.RuneSelf) = true
  /\ GoStrings.isUpperByte (lowerByte b) = false.
Proof.
  intros Hb. unfold lowerByte, GoStrings.isUpperByte, GoStrings.between, GoStrings.RuneSelf.
  destruct (65 <=? b) eqn:H1, (b <=? 90) eqn:H2; cbn; repeat split; lia.
Qed.

Lemma ToLower_ASCII_lowered tl s : isASCII s = true -> lowered (GoStrings.ToLower tl s).
Proof.
  intros Ha. unfold GoStrings.ToLower. pose proof Ha as Ha'. unfold isASCII in Ha'. rewrite Ha'.
  destruct (existsb _ _) eqn:Hu; [|split; assumption].
  assert (Hl : Forall (fun b => 0 <= b < 128) (GoStrings.bytes s)).
  { clear Hu Ha. induction s as [|a s IH]; [constructor|].
    rewrite bytes_cons in *. cbn in Ha'. apply andb_prop in Ha' as [H1 H2].
    constructor; [|auto]. pose proof (byteOf_range a). unfold GoStrings.RuneSelf in H1. lia. }
  unfold lowered, isASCII.
  change (fun b => if GoStrings.isUpperByte b then b + 32 else b) with lowerByte.
  rewrite bytes_of_bytes.
  - clear Hu Ha Ha'. induction Hl as [|b l Hb _ IH]; [split; reflexivity|].
    destruct IH as [IH1 IH2]. destruct (lowerByte_facts b Hb) as (_ & H2 & H3).
    cbn. rewrite H2, H3, IH1, IH2. split; reflexivity.
  - clear Hu Ha Ha'. induction Hl as [|b l Hb _ IH]; constructor; auto.
    apply lowerByte_facts; assumption.
Qed.

Lemma lowered_substring n s : lowered s -> lowered (substring 0 n s).
Proof.
  unfold lowered, isASCII. revert n. induction s as [|a s IH]; intros n [Ha Hu].
  - destruct n; split; reflexivity.
  - destruct n; [split; reflexivity|]. cbn [substring]. rewrite bytes_cons in *.
    cbn in Ha, Hu |- *. apply andb_prop in Ha as [Ha1 Ha2].
    apply orb_false_elim in Hu as [Hu1 Hu2].
    destruct (IH n (conj Ha2 Hu2)) as [IH1 IH2]. rewrite Ha1, Hu1, IH1, IH2.
    split; reflexivity.
Qed.

Lemma length_substring n s :
  (n <= String.length s)%nat -> String.length (substring 0 n s) = n.
Proof.
  revert n. induction s as [|a s IH]; intros [|n] H; cbn in *; try reflexivity; try lia.
  rewrite IH; [reflexivity | lia].
Qed.




Lemma Map_agrees f g s :
  Forall (fun c => f c = g c) (GoStrings.runes (GoStrings.bytes s)) ->
  GoStrings.Map f s = GoStrings.Map g s.
Proof.
  intros H. unfold GoStrings.Map. f_equal. f_equal.
  induction H as [|c l Hc _ IH]; [reflexivity|]. cbn. rewrite Hc, IH. reflexivity.
Qed.

Lemma ToLower_agrees tl s :
  Forall (fun c => 127 < c -> tl c = c) (GoStrings.runes (GoStrings.bytes s)) ->
  GoStrings.ToLower tl s = GoStrings.ToLower caseless s.
Proof.
  intros H. unfold GoStrings.ToLower. destruct (forallb _ _); [reflexivity|].
  apply Map_agrees. eapply Forall_impl; [exact H|]. cbn. intros c Hc.
  unfold GoStrings.unicode_ToLower, caseless. destruct (c <=? 127) eqn:E; [reflexivity|].
  apply Hc. lia.
Qed.

Ltac compute_list :=
  match goal with
  | |- Forall ?P ?l => let l' := eval vm_compute in l in change (Forall P l')
  end.

(** The account name of [splitName] is unstable for every case table that,
    like Go's, has no lower case for e-acute and for U+FFFD. *)
Lemma acctName_unstable_for_any_table tl :
  tl 233 = 233 -> tl 65533 = 65533 ->
  Bucket.acctName tl (Bucket.acctName tl splitName) <> Bucket.acctName tl splitName.
Proof.
  intros H1 H2.
  assert (E1 : Bucket.acctName tl splitName = Bucket.acctName caseless splitName).
  { unfold Bucket.acctName. rewrite (ToLower_agrees tl splitName); [reflexivity|].
    compute_list. repeat constructor; intros; first [ lia | assumption ]. }
  rewrite E1.
  assert (E2 : Bucket.acctName tl (Bucket.acctName caseless splitName)
               = Bucket.acctName caseless (Bucket.acctName caseless splitName)).
  { unfold Bucket.acctName at 1 3. rewrite (ToLower_agrees tl); [reflexivity|].
    compute_list. repeat constructor; intros; first [ lia | assumption ]. }
  rewrite E2. vm_compute. discriminate.
Qed.





(** The three switches of the source are [sizeSwitch] at their
    identifiers. *)
Lemma size_switches tl sdk size :
  Instance.instanceType tl sdk size
  = sizeSwitch tl (InstanceTypeT3Small sdk) (InstanceTypeT3Medium sdk)
      (InstanceTypeT3Large sdk) size
  /\ Instance.vmSize tl sdk size
     = sizeSwitch tl (VirtualMachineSizeTypesStandardB1S sdk)
         (VirtualMachineSizeTypesStandardB2S sdk)
         (VirtualMachineSizeTypesStandardB4Ms sdk) size
  /\ Instance.machineType tl size
     = sizeSwitch tl "e2-small" "e2-medium" "e2-standard-4" size.
Proof. repeat split. Qed.





(** ** C7: the chain of an instance on Azure *)

Lemma vmSize_small tl sdk :
  Instance.vmSize tl sdk "small" = VirtualMachineSizeTypesStandardB1S sdk.
Proof. reflexivity. Qed.

Lemma emptyAzure_is_empty : emptySubscription emptyAzure.
Proof. intros T history c. destruct c; reflexivity. Qed.

(** Symbolic execution against an empty subscription: each answer of
    Azure is one the subscription grants. *)
Ltac granted backend Hempty :=
  match goal with
  | |- context [match backend ?T ?h (Azure ?c) with _ => _ end] =>
    let G := fresh "G" in
    pose proof (Hempty T h c) as G; cbn in G;
    destruct (backend T h (Azure c)) as [?answer|?answer]; cbn in G; try discriminate G
  end.

Ltac unpack :=
  match goal with
  | |- context [match ?x with _ => _ end] => is_var x; destruct x as [[?|]]; cbn in *
  | |- context [ID ?x] => is_var x; destruct x as [[?|]]; cbn in *
  end.

(** C7.  Create of an instance of size "small" on Azure, by a receiver
    with its Azure clients configured, in a subscription that has no
    subnet yet and grants every request, makes six
    provisioning requests, in the order resource group, virtual network,
    subnet, public address, network interface, virtual machine; the machine
    is requested with the size [VirtualMachineSizeTypesStandardB1S], the
    smallest of the three the code knows, and the record stores that
    size. *)
Theorem instance_chain_on_Azure
    (tl : Z -> Z) (sdk : SDKConstants) (backend : Backend) (r : Instance.Resource)
    (plan : Attrs) (history : list Event) :
  ValueString plan "type" = "azure" -> ValueString plan "size" = "small" ->
  isNil (Instance.azureVM r) || isNil (Instance.azureNIC r) || isNil (Instance.azurePIP r)
    || isNil (Instance.azureRG r) || isNil (Instance.azureSub r) = false ->
  Instance.azureVNet r = LiveClient ->
  emptySubscription backend ->
  let out := run (Instance.Create tl sdk plan) backend r None history in
  omap provisions (calls out)
    = [ResourceGroup; VirtualNetwork; Subnet; PublicAddress; NetworkInterface; VirtualMachine]
  /\ omap requestedSize (calls out) = [VirtualMachineSizeTypesStandardB1S sdk]
  /\ diagnostics out = []
  /\ flow out = Next tt
  /\ exists rec, record out = Some rec
                 /\ ValueString rec "size" = VirtualMachineSizeTypesStandardB1S sdk.
Proof.
  intros Htype Hsize Hclients Hvnet Hempty.
  unfold Instance.Create. cbv zeta. rewrite Htype, Hsize, vmSize_small. cbn.
  rewrite Hclients.
  repeat first
    [ match goal with G : false = true |- _ => discriminate G end
    | rewrite Hvnet; cbn
    | granted backend Hempty
    | unpack
    | branch
    | progress cbn ].
  all: tidy_log.
  all: repeat split; eauto.
Qed.

Lemma instance_chain_in_an_empty_subscription :
  let out := run (Instance.Create caseless sdkValues azureInstancePlan) emptyAzure
               instanceResource None [] in
  omap provisions (calls out)
    = [ResourceGroup; VirtualNetwork; Subnet; PublicAddress; NetworkInterface; VirtualMachine]
  /\ omap requestedSize (calls out) = ["Standard_B1s"].
Proof.
  pose proof (instance_chain_on_Azure caseless sdkValues emptyAzure instanceResource
                azureInstancePlan [] eq_refl eq_refl eq_refl eq_refl emptyAzure_is_empty)
    as H.
  split; [exact (proj1 H) | exact (proj1 (proj2 H))].
Defined.

(** ** C8: the waits on an asynchronous operation *)

(** One round of a wait, given the rounds that follow it. *)
Ltac await_round IH fuel backend :=
  let polls := fresh "polls" in
  let events := fresh "events" in
  let ds := fresh "ds" in
  let HP := fresh "HP" in
  let Hlog := fresh "Hlog" in
  let Hds := fresh "Hds" in
  let Hst := fresh "Hst" in
  let Hself := fresh "Hself" in
  let Hle := fresh "Hle" in
  let Hex := fresh "Hex" in
  let H := fresh "H" in
  match goal with
  | |- context [?await fuel ?summary ?op backend ?c] =>
    destruct (IH c) as (polls & events & ds & HP & Hlog & Hds & Hst & Hself & Hle & Hex);
    cbn in *; destruct (backend unit _ _);
    destruct (await fuel summary op backend _) as [? ?]
  end;
  cbn in *;
  eexists (S polls), (_ :: _ :: events), ds;
  rewrite Hlog, Hds, Hst, Hself, <- !app_assoc; cbn;
  repeat split; try lia;
  [ apply polling_round; first [reflexivity | eassumption]
  | intros H; rewrite (Hex H); reflexivity ].

(** The two loops have one proof: induction on the rounds followed, from
    any context. *)
Ltac await_by_induction fuel ctx backend :=
  let IH := fresh "IH" in
  revert ctx; induction fuel as [|fuel IH]; intros ctx;
  [ exists O, [], []; cbn; rewrite !app_nil_r; repeat split; once constructor
  | cbn; destruct (backend _ (log ctx) _); cbn;
    [ match goal with
      | |- context [if ?done then _ else _] => destruct done eqn:?; cbn
      end;
      [ eexists 1%nat, [_], []; rewrite app_nil_r;
        repeat split; try lia; try discriminate;
        apply polling_done; first [reflexivity | eassumption]
      | await_round IH fuel backend ]
    | eexists 1%nat, [_], [_];
      repeat split; try lia; try discriminate; constructor ] ].

Lemma Cluster_await fuel summary op backend (ctx : Ctx Cluster.Resource) :
  let end_ := Cluster.awaitOperation fuel summary op backend ctx in
  exists polls events ds,
    Polling (GCP (Container_OperationsGet op)) (fun status => status == "DONE") summary
      polls events ds (fst end_)
    /\ log (snd end_) = (log ctx ++ events)%list
    /\ Diagnostics (snd end_) = (Diagnostics ctx ++ ds)%list
    /\ State (snd end_) = State ctx
    /\ self (snd end_) = self ctx
    /\ (polls <= fuel)%nat
    /\ (fst end_ = Exhausted -> polls = fuel).
Proof. await_by_induction fuel ctx backend. Qed.

Lemma Function_await fuel summary op backend (ctx : Ctx Function.Resource) :
  let end_ := Function.awaitOperation fuel summary op backend ctx in
  exists polls events ds,
    Polling (GCP (Functions_OperationsGet op)) (fun done => done) summary
      polls events ds (fst end_)
    /\ log (snd end_) = (log ctx ++ events)%list
    /\ Diagnostics (snd end_) = (Diagnostics ctx ++ ds)%list
    /\ State (snd end_) = State ctx
    /\ self (snd end_) = self ctx
    /\ (polls <= fuel)%nat
    /\ (fst end_ = Exhausted -> polls = fuel).
Proof. await_by_induction fuel ctx backend. Qed.

Lemma Cluster_waits_by_polling :
  waitsByPolling Cluster.awaitOperation (fun op => GCP (Container_OperationsGet op))
    (fun status => status == "DONE").
Proof.
  intros fuel backend r prior history summary op out.
  destruct (Cluster_await fuel summary op backend (MkCtx r prior [] history))
    as (polls & events & ds & HP & Hlog & Hds & Hst & Hself & Hle & Hex).
  exists polls. subst out. unfold run, invoke. cbn in *.
  rewrite Hlog, Hds, Hst, drop_app_length. auto.
Qed.

Lemma Function_waits_by_polling :
  waitsByPolling Function.awaitOperation (fun op => GCP (Functions_OperationsGet op))
    (fun done => done).
Proof.
  intros fuel backend r prior history summary op out.
  destruct (Function_await fuel summary op backend (MkCtx r prior [] history))
    as (polls & events & ds & HP & Hlog & Hds & Hst & Hself & Hle & Hex).
  exists polls. subst out. unfold run, invoke. cbn in *.
  rewrite Hlog, Hds, Hst, drop_app_length. auto.
Qed.

Lemma pollsSoFar_app l1 l2 : pollsSoFar (l1 ++ l2) = (pollsSoFar l1 + pollsSoFar l2)%nat.
Proof. unfold pollsSoFar. now rewrite List.filter_app, length_app. Qed.

(** Against an operation found done from the poll after the [k]-th on,
    the wait comes back once more than [k] rounds are followed. *)
Lemma Cluster_await_converges fuel :
  forall k summary op (ctx : Ctx Cluster.Resource),
    (pollsSoFar (log ctx) <= k)%nat -> (k < pollsSoFar (log ctx) + fuel)%nat ->
    fst (Cluster.awaitOperation fuel summary op (doneAfter k) ctx) = Next tt.
Proof.
  induction fuel as [|fuel IH]; intros k summary op ctx Hle Hlt; [lia|].
  cbn -[Nat.ltb pollsSoFar].
  destruct (pollsSoFar (log ctx) <? k)%nat eqn:Hk; cbn -[Nat.ltb pollsSoFar]; [|reflexivity].
  apply Nat.ltb_lt in Hk.
  apply IH; cbn -[Nat.ltb pollsSoFar]; rewrite !pollsSoFar_app; cbn; lia.
Qed.

Lemma Function_await_converges fuel :
  forall k summary op (ctx : Ctx Function.Resource),
    (pollsSoFar (log ctx) <= k)%nat -> (k < pollsSoFar (log ctx) + fuel)%nat ->
    fst (Function.awaitOperation fuel summary op (doneAfter k) ctx) = Next tt.
Proof.
  induction fuel as [|fuel IH]; intros k summary op ctx Hle Hlt; [lia|].
  cbn -[Nat.ltb pollsSoFar].
  destruct (pollsSoFar (log ctx) <? k)%nat eqn:Hk; cbn -[Nat.ltb pollsSoFar]; [|reflexivity].
  apply Nat.ltb_lt in Hk.
  apply IH; cbn -[Nat.ltb pollsSoFar]; rewrite !pollsSoFar_app; cbn; lia.
Qed.

(** C8, as the code has it.  The wait on a GKE operation and the wait on
    a Cloud Functions operation poll the operation's status and sleep five
    seconds after every poll that finds it still running; they return when
    a poll finds the operation done, and they return with an error
    diagnostic when a poll fails.  Nothing else ends them: the loops carry
    no deadline and produce no timed-out result, so a run that has not
    returned has found the operation running at every poll followed.  An
    operation that is done from some poll on is waited for to the end. *)
Theorem waits_poll_every_five_seconds_with_no_deadline :
  waitsByPolling Cluster.awaitOperation (fun op => GCP (Container_OperationsGet op))
    (fun status => status == "DONE")
  /\ waitsByPolling Function.awaitOperation (fun op => GCP (Functions_OperationsGet op))
       (fun done => done)
  /\ (forall k fuel summary op,
        (k < fuel)%nat ->
        (forall r, flow (run (Cluster.awaitOperation fuel summary op) (doneAfter k) r None [])
                   = Next tt)
        /\ (forall r, flow (run (Function.awaitOperation fuel summary op) (doneAfter k)
                              r None [])
                      = Next tt)).
Proof.
  split; [exact Cluster_waits_by_polling|].
  split; [exact Function_waits_by_polling|].
  intros k fuel summary op Hlt. split; intros r; cbn [run flow invoke].
  - apply Cluster_await_converges; cbn; lia.
  - apply Function_await_converges; cbn; lia.
Qed.

Lemma wait_on_an_operation_done_at_the_third_poll :
  (2 < 5)%nat
  /\ flow (run (Cluster.awaitOperation 5 "gcp create cluster" "operation-1")
             (doneAfter 2) clusterResource None []) = Next tt
  /\ flow (run (Function.awaitOperation 5 "gcp create" "operation-1")
             (doneAfter 2) functionResource None []) = Next tt.
Proof.
  assert (Hlt : (2 < 5)%nat) by lia.
  pose proof (proj2 (proj2 waits_poll_every_five_seconds_with_no_deadline)
                2%nat 5%nat) as H.
  split; [exact Hlt|]. split.
  - exact (proj1 (H "gcp create cluster" "operation-1" Hlt) clusterResource).
  - exact (proj2 (H "gcp create" "operation-1" Hlt) functionResource).
Defined.

(** C8 as the spec states it fails.  Against an operation that stays
    running, neither wait returns, however many rounds are followed: no
    timeout ends them. *)
Lemma wait_on_a_stuck_operation_never_returns :
  neverReturns (fun fuel => Cluster.awaitOperation fuel "gcp create cluster" "operation-1")
    stuck clusterResource
  /\ neverReturns (fun fuel => Function.awaitOperation fuel "gcp create" "operation-1")
       stuck functionResource.
Proof.
  split; intros fuel; unfold run, invoke; cbn [flow fst].
  - generalize (MkCtx clusterResource None [] []).
    induction fuel as [|fuel IH]; intros ctx; [reflexivity|].
    cbn. apply IH.
  - generalize (MkCtx functionResource None [] []).
    induction fuel as [|fuel IH]; intros ctx; [reflexivity|].
    cbn. apply IH.
Qed.

(** ** C9: Read right after Create *)

Lemma made_app (h h' : list Event) : made (h ++ h') = (made h ++ made h')%list.
Proof. unfold made. apply bind_app. Qed.

(** The zone Create of an instance chose on GCP is the zone Read works
    out from the record. *)
Lemma gcpZone_again r Region :
  Instance.gcpZone r (Instance.gcpZone r Region) = Instance.gcpZone r Region.
Proof.
  unfold Instance.gcpZone. cbv zeta.
  repeat match goal with
         | |- context [?x == ""] =>
           lazymatch x with
           | context [_ == _] => fail
           | _ => destruct (String.eqb_spec x "") as [?H|?H]; try rewrite H
           end
         end; cbn; try reflexivity; try congruence.
Qed.

(** What a Create that stored a record has made, and under which key. *)
Lemma Network_Create_made backend r plan rec history :
  let created := run (Network.Create plan) backend r None history in
  record created = Some rec ->
  ValueString rec "type" = ValueString plan "type"
  /\ ((ValueString plan "type" = "aws"
       /\ isNil (Network.ec2 (self' created)) = false
       /\ AWSVpc (ValueString rec "id") ∈ made (calls created))
      \/ (ValueString plan "type" = "azure"
          /\ isNil (Network.azureV (self' created)) = false
          /\ AzureNetwork "abstract-rg" (ValueString plan "name") ∈ made (calls created))
      \/ (ValueString plan "type" = "gcp"
          /\ isNil (Network.gcp (self' created)) = false
          /\ GCPNetwork (Network.gcpProj (self' created)) (ValueString rec "id")
               ∈ made (calls created))).
Proof.
  unfold Network.Create. execute backend; tidy_log; intros Hrec; try discriminate Hrec.
  all: injection Hrec as <-; split; [reflexivity|].
  all: repeat match goal with
              | H : (_ == _) = true |- _ => apply String.eqb_eq in H
              | H : (_ || _) = false |- _ => apply orb_false_elim in H; destruct H
              end.
  all: first [ left; split; [assumption|]; split; [assumption|]; cbn; set_solver
             | right; left; split; [assumption|]; split; [assumption|]; cbn; set_solver
             | right; right; split; [assumption|]; split; [assumption|]; cbn; set_solver ].
Qed.

Lemma Instance_Create_made tl sdk backend r plan rec history :
  let created := run (Instance.Create tl sdk plan) backend r None history in
  record created = Some rec ->
  ValueString rec "type" = ValueString plan "type"
  /\ ((ValueString plan "type" = "aws"
       /\ isNil (Instance.ec2 (self' created)) = false
       /\ AWSInstance (ValueString rec "id") ∈ made (calls created))
      \/ (ValueString plan "type" = "azure"
          /\ isNil (Instance.azureVM (self' created)) = false
          /\ AzureMachine "abstract-rg" (ValueString plan "name") ∈ made (calls created))
      \/ (ValueString plan "type" = "gcp"
          /\ isNil (Instance.gcp (self' created)) = false
          /\ Instance.gcpZone (self' created) (ValueString rec "region")
             = ValueString rec "region"
          /\ GCPInstance (Instance.gcpProj (self' created)) (ValueString rec "region")
               (ValueString rec "id") ∈ made (calls created))).
Proof.
  unfold Instance.Create. execute backend; tidy_log; intros Hrec; try discriminate Hrec.
  all: injection Hrec as <-; split; [reflexivity|].
  all: repeat match goal with
              | H : (_ == _) = true |- _ => apply String.eqb_eq in H
              | H : (_ || _) = false |- _ => apply orb_false_elim in H; destruct H
              end.
  all: first [ left; split; [assumption|]; split; [assumption|]; cbn; set_solver
             | right; left; split; [assumption|]; split; [assumption|]; cbn; set_solver
             | right; right; split; [assumption|]; split; [assumption|];
               split; [apply gcpZone_again | cbn; set_solver] ].
Qed.

(** Read looks one thing up, and keeps the record exactly when it finds
    it. *)
Lemma Network_Read_looks_up backend r state prior history :
  isNil (Network.ec2 r) = false \/ ValueString state "type" <> "aws" ->
  isNil (Network.azureV r) = false \/ ValueString state "type" <> "azure" ->
  isNil (Network.gcp r) = false \/ ValueString state "type" <> "gcp" ->
  let read := run (Network.Read state) backend r prior history in
  let key := if ValueString state "type" == "aws" then AWSVpc (ValueString state "id")
             else if ValueString state "type" == "azure"
                  then AzureNetwork "abstract-rg" (ValueString state "id")
                  else GCPNetwork (Network.gcpProj r) (ValueString state "id") in
  supported (ValueString state "type") = true ->
  exists T (c : Call T),
    soughtBy c = Some key
    /\ calls read = [Answered c (backend T history c)]
    /\ record read = (if found (Answered c (backend T history c)) then prior else None)
    /\ diagnostics read = [].
Proof.
  intros Haws Hazure Hgcp. cbv zeta. unfold supported, Network.Read. cbn.
  destruct (String.eqb_spec (ValueString state "type") "aws") as [Ht|_].
  { destruct Haws as [->|?]; [|contradiction]. cbn. intros _.
    exists _, (AWS (EC2_DescribeVpcs [ValueString state "id"] [])).
    split; [reflexivity|].
    destruct (backend _ history _) as [[|? ?]|?] eqn:E; cbn; tidy_log;
      repeat split; reflexivity. }
  destruct (String.eqb_spec (ValueString state "type") "azure") as [Ht|_].
  { destruct Hazure as [->|?]; [|contradiction]. cbn. intros _.
    exists _, (Azure (VirtualNetworks_Get "abstract-rg" (ValueString state "id"))).
    split; [reflexivity|].
    destruct (backend _ history _) as [?|?] eqn:E; cbn; tidy_log;
      repeat split; reflexivity. }
  destruct (String.eqb_spec (ValueString state "type") "gcp") as [Ht|_]; [|discriminate].
  destruct Hgcp as [->|?]; [|contradiction]. cbn. intros _.
  exists _, (GCP (Networks_Get (Network.gcpProj r) (ValueString state "id"))).
  split; [reflexivity|].
  destruct (backend _ history _) as [?|?] eqn:E; cbn; tidy_log;
    repeat split; reflexivity.
Qed.

Lemma Instance_Read_looks_up backend r state prior history :
  isNil (Instance.ec2 r) = false \/ ValueString state "type" <> "aws" ->
  isNil (Instance.azureVM r) = false \/ ValueString state "type" <> "azure" ->
  isNil (Instance.gcp r) = false \/ ValueString state "type" <> "gcp" ->
  let read := run (Instance.Read state) backend r prior history in
  let key := if ValueString state "type" == "aws" then AWSInstance (ValueString state "id")
             else if ValueString state "type" == "azure"
                  then AzureMachine "abstract-rg" (ValueString state "id")
                  else GCPInstance (Instance.gcpProj r)
                         (Instance.gcpZone r (ValueString state "region"))
                         (ValueString state "id") in
  supported (ValueString state "type") = true ->
  exists T (c : Call T),
    soughtBy c = Some key
    /\ calls read = [Answered c (backend T history c)]
    /\ record read = (if found (Answered c (backend T history c)) then prior else None)
    /\ diagnostics read = [].
Proof.
  intros Haws Hazure Hgcp. cbv zeta. unfold supported, Instance.Read. cbn.
  destruct (String.eqb_spec (ValueString state "type") "aws") as [Ht|_].
  { destruct Haws as [->|?]; [|contradiction]. cbn. intros _.
    exists _, (AWS (EC2_DescribeInstances [ValueString state "id"])).
    split; [reflexivity|].
    destruct (backend _ history _) as [[|[|? ?] ?]|?] eqn:E; cbn; tidy_log;
      repeat split; reflexivity. }
  destruct (String.eqb_spec (ValueString state "type") "azure") as [Ht|_].
  { destruct Hazure as [->|?]; [|contradiction]. cbn. intros _.
    exists _, (Azure (VirtualMachines_Get "abstract-rg" (ValueString state "id"))).
    split; [reflexivity|].
    destruct (backend _ history _) as [?|?] eqn:E; cbn; tidy_log;
      repeat split; reflexivity. }
  destruct (String.eqb_spec (ValueString state "type") "gcp") as [Ht|_]; [|discriminate].
  destruct Hgcp as [->|?]; [|contradiction]. cbn. intros _.
  exists _, (GCP (Instances_Get (Instance.gcpProj r)
                    (Instance.gcpZone r (ValueString state "region"))
                    (ValueString state "id"))).
  split; [reflexivity|].
  destruct (backend _ history _) as [?|?] eqn:E; cbn; tidy_log;
    repeat split; reflexivity.
Qed.

(** C9.  The round trip on AWS and GCP, and where it breaks on Azure.
    Let Create of a network or of an instance have stored the record
    [rec], and let Read of [rec] follow at once, by the same receiver, on
    the calls made so far.  On AWS and GCP Read looks up what Create made:
    with a backend that keeps what was made, it leaves exactly [rec] and
    reports nothing.  On Azure Create makes the resource under the plan's
    name and Read looks up the recorded id in the place of the name: with
    a backend that knows its resources by group and name, and an id that
    is not such a name, Read removes the record. *)
Theorem Read_after_Create_finds_the_resource_on_AWS_and_GCP_only
    (toLowerCase : Z -> Z) (sdk : SDKConstants) (backend : Backend)
    (plan rec : Attrs) (history : list Event) :
  (forall r,
     let created := run (Network.Create plan) backend r None history in
     let read := run (Network.Read rec) backend (self' created) (record created)
                   (history ++ calls created) in
     record created = Some rec ->
     (ValueString plan "type" <> "azure" -> keepsWhatWasMade backend ->
      record read = Some rec /\ diagnostics read = [])
     /\ (ValueString plan "type" = "azure" ->
         AzureNetwork "abstract-rg" (ValueString plan "name") ∈ made (calls created)
         /\ omap sought (calls read) = [AzureNetwork "abstract-rg" (ValueString rec "id")]
         /\ (knowsAzureByName backend ->
             AzureNetwork "abstract-rg" (ValueString rec "id")
               ∉ made (history ++ calls created) ->
             record read = None /\ diagnostics read = [])))
  /\ (forall r,
        let created := run (Instance.Create toLowerCase sdk plan) backend r None history in
        let read := run (Instance.Read rec) backend (self' created) (record created)
                      (history ++ calls created) in
        record created = Some rec ->
        (ValueString plan "type" <> "azure" -> keepsWhatWasMade backend ->
         record read = Some rec /\ diagnostics read = [])
        /\ (ValueString plan "type" = "azure" ->
            AzureMachine "abstract-rg" (ValueString plan "name") ∈ made (calls created)
            /\ omap sought (calls read) = [AzureMachine "abstract-rg" (ValueString rec "id")]
            /\ (knowsAzureByName backend ->
                AzureMachine "abstract-rg" (ValueString rec "id")
                  ∉ made (history ++ calls created) ->
                record read = None /\ diagnostics read = []))).
Proof.
  split; intros r created read Hrec.
  - destruct (Network_Create_made backend r plan rec history Hrec)
      as (Htype & [(Hcloud & Hclient & Hmade)|[(Hcloud & Hclient & Hmade)
                                              |(Hcloud & Hclient & Hmade)]]);
      fold created in Hclient, Hmade;
      (destruct (Network_Read_looks_up backend (self' created) rec (record created)
                   (history ++ calls created))
        as (T & c & Hsought & Hcalls & Hread & Hdiag);
       [rewrite Htype, Hcloud; first [left; assumption | right; discriminate] ..
       |rewrite Htype, Hcloud; reflexivity|]);
      fold read in Hcalls, Hread, Hdiag; rewrite Htype, Hcloud in Hsought; cbn in Hsought.
    + split; [|intros H; rewrite Hcloud in H; discriminate H]. intros _ Hkeeps.
      rewrite Hread, (Hkeeps _ c _ _ Hsought), Hrec; [split; [reflexivity | exact Hdiag]|].
      rewrite made_app. apply elem_of_app. right. exact Hmade.
    + split; [intros H; contradiction|]. intros _.
      split; [exact Hmade|]. split; [rewrite Hcalls; cbn; rewrite Hsought; reflexivity|].
      intros Hknows Hnew.
      rewrite Hread, (Hknows _ c _ _ Hsought eq_refl Hnew). split; [reflexivity | exact Hdiag].
    + split; [|intros H; rewrite Hcloud in H; discriminate H]. intros _ Hkeeps.
      rewrite Hread, (Hkeeps _ c _ _ Hsought), Hrec; [split; [reflexivity | exact Hdiag]|].
      rewrite made_app. apply elem_of_app. right. exact Hmade.
  - destruct (Instance_Create_made toLowerCase sdk backend r plan rec history Hrec)
      as (Htype & [(Hcloud & Hclient & Hmade)|[(Hcloud & Hclient & Hmade)
                                              |(Hcloud & Hclient & Hzone & Hmade)]]);
      fold created in Hclient, Hmade;
      (destruct (Instance_Read_looks_up backend (self' created) rec (record created)
                   (history ++ calls created))
        as (T & c & Hsought & Hcalls & Hread & Hdiag);
       [rewrite Htype, Hcloud; first [left; assumption | right; discriminate] ..
       |rewrite Htype, Hcloud; reflexivity|]);
      fold read in Hcalls, Hread, Hdiag; rewrite Htype, Hcloud in Hsought;
      try (fold created in Hzone; rewrite Hzone in Hsought); cbn in Hsought.
    + split; [|intros H; rewrite Hcloud in H; discriminate H]. intros _ Hkeeps.
      rewrite Hread, (Hkeeps _ c _ _ Hsought), Hrec; [split; [reflexivity | exact Hdiag]|].
      rewrite made_app. apply elem_of_app. right. exact Hmade.
    + split; [intros H; contradiction|]. intros _.
      split; [exact Hmade|]. split; [rewrite Hcalls; cbn; rewrite Hsought; reflexivity|].
      intros Hknows Hnew.
      rewrite Hread, (Hknows _ c _ _ Hsought eq_refl Hnew). split; [reflexivity | exact Hdiag].
    + split; [|intros H; rewrite Hcloud in H; discriminate H]. intros _ Hkeeps.
      rewrite Hread, (Hkeeps _ c _ _ Hsought), Hrec; [split; [reflexivity | exact Hdiag]|].
      rewrite made_app. apply elem_of_app. right. exact Hmade.
Qed.

Lemma remembering_keeps : keepsWhatWasMade remembering.
Proof.
  intros T c history key Hsought Hmade.
  destruct c as [T c|T c|T c|T c]; destruct c; try reflexivity;
    cbn in Hsought; injection Hsought as <-; cbn;
    rewrite bool_decide_eq_true_2 by exact Hmade; reflexivity.
Qed.

Lemma remembering_by_name : knowsAzureByName remembering.
Proof.
  intros T c history key Hsought Hazure Hnew.
  destruct c as [T c|T c|T c|T c]; destruct c; cbn in Hsought;
    repeat match type of Hsought with
           | context [match ?l with _ => _ end] => destruct l
           end;
    try discriminate Hsought; injection Hsought as <-; try discriminate Hazure; cbn;
    rewrite bool_decide_eq_false_2 by exact Hnew; reflexivity.
Qed.

Lemma Read_after_Create_of_a_network_on_AWS_and_on_Azure :
  let made_ plan := run (Network.Create plan) remembering networkResource None [] in
  let read plan rec := run (Network.Read rec) remembering (self' (made_ plan))
                         (record (made_ plan)) ([] ++ calls (made_ plan)) in
  keepsWhatWasMade remembering /\ knowsAzureByName remembering
  /\ (record (made_ awsNetworkPlan) = Some awsNetworkRecord
      /\ ValueString awsNetworkPlan "type" <> "azure"
      /\ record (read awsNetworkPlan awsNetworkRecord) = Some awsNetworkRecord)
  /\ (record (made_ azureNetworkPlan) = Some azureNetworkRecord
      /\ ValueString azureNetworkPlan "type" = "azure"
      /\ made (calls (made_ azureNetworkPlan)) = [AzureNetwork "abstract-rg" "net"]
      /\ omap sought (calls (read azureNetworkPlan azureNetworkRecord))
         = [AzureNetwork "abstract-rg" "/subscriptions/s/resourceGroups/g/providers/p/n"]
      /\ record (read azureNetworkPlan azureNetworkRecord) = None).
Proof.
  intros made_ read.
  assert (Haws : record (made_ awsNetworkPlan) = Some awsNetworkRecord)
    by (vm_compute; reflexivity).
  assert (Hazure : record (made_ azureNetworkPlan) = Some azureNetworkRecord)
    by (vm_compute; reflexivity).
  assert (Hcloud : ValueString awsNetworkPlan "type" <> "azure")
    by (vm_compute; discriminate).
  assert (Hmade : made (calls (made_ azureNetworkPlan)) = [AzureNetwork "abstract-rg" "net"])
    by (vm_compute; reflexivity).
  assert (Hnew : AzureNetwork "abstract-rg" (ValueString azureNetworkRecord "id")
                 ∉ made ([] ++ calls (made_ azureNetworkPlan))).
  { change ([] ++ calls (made_ azureNetworkPlan))%list with (calls (made_ azureNetworkPlan)).
    rewrite Hmade. intros H. apply list_elem_of_singleton in H. discriminate H. }
  split; [exact remembering_keeps|]. split; [exact remembering_by_name|]. split.
  - split; [exact Haws|]. split; [exact Hcloud|].
    exact (proj1 (proj1 (proj1 (Read_after_Create_finds_the_resource_on_AWS_and_GCP_only
                                  caseless sdkValues remembering awsNetworkPlan
                                  awsNetworkRecord [])
                           networkResource Haws) Hcloud remembering_keeps)).
  - destruct (proj2 (proj1 (Read_after_Create_finds_the_resource_on_AWS_and_GCP_only
                              caseless sdkValues remembering azureNetworkPlan
                              azureNetworkRecord [])
                       networkResource Hazure) eq_refl) as (_ & Hsought & Hlost).
    split; [exact Hazure|]. split; [reflexivity|]. split; [exact Hmade|].
    split; [exact Hsought|].
    exact (proj1 (Hlost remembering_by_name Hnew)).
Defined.

(** ** C10: the resource group of the Azure calls *)

Lemma Cluster_await_emits P fuel summary op :
  (forall T (c : GCPCall T) a, P (Answered (GCP c) a)) ->
  (forall T (c : HostCall T) a, P (Answered (Host c) a)) ->
  emits P (Cluster.awaitOperation fuel summary op).
Proof.
  intros Hgcp Hhost. induction fuel as [|fuel IH]; cbn [Cluster.awaitOperation].
  - now apply emits_quiet.
  - apply emits_bind; [apply emits_call; intros; apply Hgcp|].
    intros [status|e]; [|emit].
    destruct (status == "DONE"); [emit|].
    apply emits_bind; [apply emits_call; intros; apply Hhost | intros; exact IH].
Qed.

Lemma Function_await_emits P fuel summary op :
  (forall T (c : GCPCall T) a, P (Answered (GCP c) a)) ->
  (forall T (c : HostCall T) a, P (Answered (Host c) a)) ->
  emits P (Function.awaitOperation fuel summary op).
Proof.
  intros Hgcp Hhost. induction fuel as [|fuel IH]; cbn [Function.awaitOperation].
  - now apply emits_quiet.
  - apply emits_bind; [apply emits_call; intros; apply Hgcp|].
    intros [done|e]; [|emit].
    destruct done; [emit|].
    apply emits_bind; [apply emits_call; intros; apply Hhost | intros; exact IH].
Qed.

Ltac emit_waiting :=
  repeat first
    [ apply Cluster_await_emits; intros; exact I
    | apply Function_await_emits; intros; exact I
    | emit_step ].

Lemma Bucket_Create_group tl plan : emits (inGroup "abstract-rg") (Bucket.Create tl plan).
Proof. unfold Bucket.Create. emit. Qed.

Lemma Network_Create_group plan : emits (inGroup "abstract-rg") (Network.Create plan).
Proof. unfold Network.Create. emit. Qed.

Lemma Network_Read_group state : emits (inGroup "abstract-rg") (Network.Read state).
Proof. unfold Network.Read. emit. Qed.

Lemma Network_Delete_group state : emits (inGroup "abstract-rg") (Network.Delete state).
Proof. unfold Network.Delete. emit. Qed.

Lemma Instance_Create_group tl sdk plan :
  emits (inGroup "abstract-rg") (Instance.Create tl sdk plan).
Proof. unfold Instance.Create. emit. Qed.

Lemma Instance_Read_group state : emits (inGroup "abstract-rg") (Instance.Read state).
Proof. unfold Instance.Read. emit. Qed.

Lemma Instance_Delete_group state : emits (inGroup "abstract-rg") (Instance.Delete state).
Proof. unfold Instance.Delete. emit. Qed.

Lemma Cluster_Create_group fuel plan :
  emits (inGroup "abstract-rg") (Cluster.Create fuel plan).
Proof. unfold Cluster.Create. emit_waiting. Qed.

Lemma Cluster_Read_group state : emits (inGroup "abstract-rg") (Cluster.Read state).
Proof. unfold Cluster.Read. emit. Qed.

Lemma Cluster_Delete_group fuel state :
  emits (inGroup "abstract-rg") (Cluster.Delete fuel state).
Proof. unfold Cluster.Delete. emit_waiting. Qed.

Lemma Function_Create_group tl fuel plan :
  emits (inGroup "abstract-rg") (Function.Create tl fuel plan).
Proof. unfold Function.Create. emit_waiting. Qed.

Lemma Function_Read_group state : emits (inGroup "abstract-rg") (Function.Read state).
Proof. unfold Function.Read. emit. Qed.

(** The bucket's Read and Delete address the group the record names. *)
Lemma Bucket_Read_group state :
  emits (inGroup (ValueString state "resource_group")) (Bucket.Read state).
Proof. unfold Bucket.Read. emit. Qed.

Lemma Bucket_Delete_group state :
  emits (inGroup (ValueString state "resource_group")) (Bucket.Delete state).
Proof. unfold Bucket.Delete. emit. Qed.

(** The function's Delete removes the app and its plan from
    "abstract-rg" and the storage account from the group the record
    names. *)
Lemma Function_Delete_groups fuel state :
  emits (inGroupsOfFunction state) (Function.Delete fuel state).
Proof. unfold Function.Delete. emit_waiting. Qed.

(** The group Create of a bucket and of a function writes into the
    record on Azure is "abstract-rg". *)
Lemma Bucket_Create_stores_group tl backend r plan rec history :
  ValueString plan "type" = "azure" ->
  record (run (Bucket.Create tl plan) backend r None history) = Some rec ->
  ValueString rec "resource_group" = "abstract-rg".
Proof.
  intros Htype. unfold Bucket.Create. cbv zeta. rewrite Htype.
  execute backend; tidy_log; intros Hrec; try discriminate Hrec.
  all: injection Hrec as <-; reflexivity.
Qed.

Lemma Function_Create_stores_group tl fuel backend r plan rec history :
  ValueString plan "type" = "azure" ->
  record (run (Function.Create tl fuel plan) backend r None history) = Some rec ->
  ValueString rec "resource_group" = "abstract-rg".
Proof.
  intros Htype. unfold Function.Create. cbv zeta. rewrite Htype.
  execute backend; tidy_log; intros Hrec; try discriminate Hrec.
  all: injection Hrec as <-; reflexivity.
Qed.

(** DNS records are kept in a group of their own. *)
Lemma DNSRecord_Create_group tl tu ef plan :
  emits (inGroup "abstract-dns-rg") (DNSRecord.Create tl tu ef plan).
Proof. unfold DNSRecord.Create. emit. Qed.

(** C10, as the code has it.  Create of a bucket, a network, an instance,
    a cluster and a function addresses no resource group but
    "abstract-rg"; so do Read and Delete of a network, an instance and a
    cluster, and Read of a function.  Read and Delete of a bucket address
    the group named by the record's [resource_group] attribute, whatever
    it is, and so does the deletion of the storage account in Delete of a
    function, whose other calls address "abstract-rg".  The group Create
    of a bucket and of a function stores in the record on Azure is
    "abstract-rg".  Create of a DNS record addresses "abstract-dns-rg"
    only. *)
Theorem Azure_calls_address_the_shared_the_recorded_or_the_DNS_group
    (tl tu : Z -> Z) (ef : string -> string -> bool) (sdk : SDKConstants) (fuel : nat)
    (backend : Backend) (attrs : Attrs) (history : list Event) :
  let shared {R} (h : M R unit) := addresses "abstract-rg" backend history h in
  let recorded {R} (h : M R unit) :=
    addresses (ValueString attrs "resource_group") backend history h in
  (shared (Bucket.Create tl attrs) /\ shared (Network.Create attrs)
   /\ shared (Instance.Create tl sdk attrs) /\ shared (Cluster.Create fuel attrs)
   /\ shared (Function.Create tl fuel attrs))
  /\ (shared (Network.Read attrs) /\ shared (Network.Delete attrs)
      /\ shared (Instance.Read attrs) /\ shared (Instance.Delete attrs)
      /\ shared (Cluster.Read attrs) /\ shared (Cluster.Delete fuel attrs)
      /\ shared (Function.Read attrs))
  /\ (recorded (Bucket.Read attrs) /\ recorded (Bucket.Delete attrs)
      /\ forall r prior,
           Forall (inGroupsOfFunction attrs)
             (calls (run (Function.Delete fuel attrs) backend r prior history)))
  /\ (ValueString attrs "type" = "azure" ->
      (forall r rec,
         record (run (Bucket.Create tl attrs) backend r None history) = Some rec ->
         ValueString rec "resource_group" = "abstract-rg")
      /\ (forall r rec,
            record (run (Function.Create tl fuel attrs) backend r None history) = Some rec ->
            ValueString rec "resource_group" = "abstract-rg"))
  /\ addresses "abstract-dns-rg" backend history (DNSRecord.Create tl tu ef attrs).
Proof.
  cbv zeta. unfold addresses.
  repeat match goal with |- _ /\ _ => split end;
    try (intros r prior; apply emits_run);
    auto using Bucket_Create_group, Network_Create_group, Network_Read_group,
      Network_Delete_group, Instance_Create_group, Instance_Read_group,
      Instance_Delete_group, Cluster_Create_group, Cluster_Read_group,
      Cluster_Delete_group, Function_Create_group, Function_Read_group,
      Bucket_Read_group, Bucket_Delete_group, Function_Delete_groups,
      DNSRecord_Create_group.
  intros Htype. split; intros r rec.
  - now apply Bucket_Create_stores_group.
  - now apply Function_Create_stores_group.
Qed.

Lemma Create_of_a_bucket_and_Delete_of_a_moved_function_on_Azure :
  let created := run (Bucket.Create caseless azureBucketPlan) accepting bucketResource None [] in
  let deleted := run (Function.Delete 0 movedFunctionRecord) accepting functionResource
                   (Some movedFunctionRecord) [] in
  ValueString azureBucketPlan "type" = "azure"
  /\ (exists rec, record created = Some rec /\ ValueString rec "resource_group" = "abstract-rg")
  /\ omap groupOf (calls deleted) = ["abstract-rg"; "abstract-rg"; "legacy-rg"]
  /\ Forall (inGroupsOfFunction movedFunctionRecord) (calls deleted).
Proof.
  intros created deleted.
  assert (Htype : ValueString azureBucketPlan "type" = "azure") by (vm_compute; reflexivity).
  destruct (record created) as [rec|] eqn:Hrec; [|vm_compute in Hrec; discriminate Hrec].
  pose proof (Azure_calls_address_the_shared_the_recorded_or_the_DNS_group
                caseless caseless foldASCII sdkValues 0 accepting azureBucketPlan [])
    as (_ & _ & _ & Hstores & _).
  pose proof (Azure_calls_address_the_shared_the_recorded_or_the_DNS_group
                caseless caseless foldASCII sdkValues 0 accepting movedFunctionRecord [])
    as (_ & _ & (_ & _ & Hdelete) & _).
  split; [exact Htype|]. split; [|split].
  - exists rec. split; [reflexivity|].
    exact (proj1 (Hstores Htype) bucketResource rec Hrec).
  - vm_compute. reflexivity.
  - exact (Hdelete functionResource (Some movedFunctionRecord)).
Defined.

(** C10 as the spec states it fails.  Create of a DNS record on Azure
    makes its three management calls in "abstract-dns-rg", and Read of a
    bucket whose record names another group looks the account up in that
    group. *)
Lemma DNS_records_and_moved_buckets_leave_the_shared_group :
  omap groupOf (calls (run (DNSRecord.Create caseless caseless foldASCII azureDNSPlan)
                         accepting dnsResource None []))
    = ["abstract-dns-rg"; "abstract-dns-rg"; "abstract-dns-rg"]
  /\ omap groupOf (calls (run (Bucket.Read movedBucketRecord) accepting bucketResource
                            (Some movedBucketRecord) []))
     = ["legacy-rg"].
Proof. vm_compute. split; reflexivity. Qed.

(** ** Further properties of the six resources *)

Lemma substring_full s : substring 0 (String.length s) s = s.
Proof. induction s as [|c s IH]; cbn; [reflexivity | now rewrite IH]. Qed.

Lemma substring_app_suffix a s :
  substring (String.length a) (String.length s) (a ++ s) = s.
Proof.
  induction a as [|c a IH].
  - change ("" ++ s) with s. apply substring_full.
  - change (String c a ++ s) with (String c (a ++ s)). exact IH.
Qed.

Lemma length_append a s : String.length (a ++ s) = (String.length a + String.length s)%nat.
Proof.
  induction a as [|c a IH]; [reflexivity|].
  change (String c a ++ s) with (String c (a ++ s)). cbn. now rewrite IH.
Qed.

Lemma HasSuffix_app a s : GoStrings.HasSuffix (a ++ s) s = true.
Proof.
  unfold GoStrings.HasSuffix. cbv zeta. rewrite length_append.
  replace (String.length a + String.length s - String.length s)%nat
    with (String.length a) by lia.
  rewrite substring_app_suffix, String.eqb_refl.
  apply andb_true_intro. split; [apply Nat.leb_le; lia | reflexivity].
Qed.

Lemma append_assoc (a b c : string) : (a ++ b) ++ c = a ++ (b ++ c).
Proof.
  induction a as [|x a IH]; [reflexivity|].
  change (String x a ++ b) with (String x (a ++ b)).
  change (String x (a ++ b) ++ c) with (String x ((a ++ b) ++ c)).
  now rewrite IH.
Qed.

(** Past a wait: what the rounds followed left behind. *)
Ltac past_the_wait await await_lemma :=
  match goal with
  | |- context [await ?fuel ?s ?op ?backend ?ctx0] =>
    let H := fresh "Hwait" in
    pose proof (await_lemma fuel s op backend ctx0) as H; cbv zeta in H;
    destruct H as (?polls & ?events & ?ds & ?HP & ?Hlog & ?Hds & ?Hst & ?Hself & _);
    destruct (await fuel s op backend ctx0) as [?f ?c]
  end; cbn in *.

(** X1: the fully qualified name [fqdn] builds always ends with the zone
    and a dot, and building it again from its own result changes nothing:
    a name that already ends so is kept, any other gets a dot, the zone and
    a dot appended. *)
Theorem fqdn_ends_with_the_zone (Name Zone : string) :
  let full := DNSRecord.fqdn Name Zone in
  GoStrings.HasSuffix full (Zone ++ ".") = true
  /\ DNSRecord.fqdn full Zone = full
  /\ (GoStrings.HasSuffix Name (Zone ++ ".") = true -> full = Name)
  /\ (GoStrings.HasSuffix Name (Zone ++ ".") = false -> full = Name ++ "." ++ Zone ++ ".").
Proof.
  cbv zeta.
  assert (H : GoStrings.HasSuffix (DNSRecord.fqdn Name Zone) (Zone ++ ".") = true).
  { unfold DNSRecord.fqdn. destruct (GoStrings.HasSuffix Name (Zone ++ ".")) eqn:E; cbn.
    - exact E.
    - change (Name ++ "." ++ Zone ++ ".") with (Name ++ ("." ++ (Zone ++ "."))).
      rewrite <- append_assoc. apply HasSuffix_app. }
  split; [exact H|]. split.
  - unfold DNSRecord.fqdn at 1. rewrite H. reflexivity.
  - unfold DNSRecord.fqdn. split; intros ->; reflexivity.
Qed.

Lemma fqdn_of_sample_names :
  GoStrings.HasSuffix "www.example.org." ("example.org" ++ ".") = true
  /\ DNSRecord.fqdn "www.example.org." "example.org" = "www.example.org."
  /\ GoStrings.HasSuffix "www" ("example.org" ++ ".") = false
  /\ DNSRecord.fqdn "www" "example.org" = "www.example.org.".
Proof.
  assert (H1 : GoStrings.HasSuffix "www.example.org." ("example.org" ++ ".") = true)
    by reflexivity.
  assert (H2 : GoStrings.HasSuffix "www" ("example.org" ++ ".") = false) by reflexivity.
  split; [exact H1|].
  split; [exact (proj1 (proj2 (proj2 (fqdn_ends_with_the_zone "www.example.org."
                                        "example.org"))) H1)|].
  split; [exact H2|].
  exact (proj2 (proj2 (proj2 (fqdn_ends_with_the_zone "www" "example.org"))) H2).
Defined.

(** X2: the storage account name derived from a resource's name, for a
    bucket and for a function, is never longer than 24 bytes; for an ASCII
    name it has no upper-case letter left. *)
Theorem acctName_fits_an_account_name (tl : Z -> Z) (name : string) :
  GoStrings.len (Bucket.acctName tl name) <= 24
  /\ GoStrings.len (Function.acctName tl name) <= 24
  /\ (isASCII name = true ->
      lowered (Bucket.acctName tl name) /\ lowered (Function.acctName tl name)).
Proof.
  assert (Hlen : forall s,
            GoStrings.len (if 24 <? GoStrings.len s then GoStrings.slice_to 24 s else s)
            <= 24).
  { intros s. destruct (24 <? GoStrings.len s) eqn:E.
    - apply Z.ltb_lt in E. unfold GoStrings.len, GoStrings.slice_to in *.
      rewrite length_substring by lia. lia.
    - apply Z.ltb_ge in E. exact E. }
  split; [apply Hlen|]. split; [apply Hlen|].
  intros Ha. pose proof (ToLower_ASCII_lowered tl name Ha) as Hl.
  unfold Bucket.acctName, Function.acctName. cbv zeta.
  destruct (24 <? _); split; try assumption; now apply lowered_substring.
Qed.

Lemma acctName_of_a_long_name :
  isASCII "My-Storage-Account-For-Backups" = true
  /\ Bucket.acctName caseless "My-Storage-Account-For-Backups" = "my-storage-account-for-b"
  /\ lowered (Bucket.acctName caseless "My-Storage-Account-For-Backups").
Proof.
  assert (Ha : isASCII "My-Storage-Account-For-Backups" = true) by reflexivity.
  split; [exact Ha|]. split; [reflexivity|].
  exact (proj1 (proj2 (proj2 (acctName_fits_an_account_name caseless
                                "My-Storage-Account-For-Backups")) Ha)).
Defined.

(** X3: Delete of a network on AWS detaches and deletes the gateway when
    the record has one, deletes the subnet when the record has one, then
    deletes the VPC, in this order and whatever the earlier calls answer;
    only a failure of the last call, DeleteVpc, is reported. *)
Theorem Network_Delete_on_AWS_tears_down_in_order
    (backend : Backend) (r : Network.Resource) (state : Attrs) (prior : option Attrs)
    (history : list Event) :
  ValueString state "type" = "aws" -> Network.ec2 r = LiveClient ->
  let id := ValueString state "id" in
  let gateway := ValueString state "gateway_id" in
  let subnet := ValueString state "subnet_id" in
  let out := run (Network.Delete state) backend r prior history in
  map request (calls out)
  = ((if gateway == "" then []
      else [Asked (AWS (EC2_DetachInternetGateway gateway id));
            Asked (AWS (EC2_DeleteInternetGateway gateway))])
     ++ (if subnet == "" then [] else [Asked (AWS (EC2_DeleteSubnet subnet))])
     ++ [Asked (AWS (EC2_DeleteVpc id))])%list
  /\ diagnostics out
     = match last (calls out) ≫= vpcDeletionError with
       | Some e => [AddedError "aws delete vpc" e]
       | None => []
       end
  /\ record out = prior.
Proof.
  intros Htype Hec2. unfold Network.Delete. cbv zeta. rewrite Htype. cbn. rewrite Hec2. cbn.
  destruct (ValueString state "gateway_id" == ""), (ValueString state "subnet_id" == "");
    cbn; repeat (answer backend; cbn); tidy_log; repeat split; reflexivity.
Qed.

Lemma Network_Delete_with_teardown_refused :
  let out := run (Network.Delete awsNetworkRecord) refusing networkResource
               (Some awsNetworkRecord) [] in
  calls out
  = [Answered (AWS (EC2_DetachInternetGateway "igw-1" "vpc-1")) (Err "DependencyViolation");
     Answered (AWS (EC2_DeleteInternetGateway "igw-1")) (Err "DependencyViolation");
     Answered (AWS (EC2_DeleteSubnet "subnet-1")) (Err "DependencyViolation");
     Answered (AWS (EC2_DeleteVpc "vpc-1")) (Ok tt)]
  /\ diagnostics out = [].
Proof.
  intros out.
  pose proof (Network_Delete_on_AWS_tears_down_in_order refusing networkResource
                awsNetworkRecord (Some awsNetworkRecord) [] eq_refl eq_refl)
    as (_ & Hdiag & _).
  split; [vm_compute; reflexivity | exact Hdiag].
Defined.



(** X5: on GCP, Create makes the cluster in the plan's region (else the
    provider's, else us-central1) and stores that region and the name as
    id; Read and Delete address the cluster in the provider's region (else
    us-central1), whatever region the record holds. *)
Theorem Cluster_location_on_GCP
    (backend : Backend) (r : Cluster.Resource) (plan state : Attrs) (prior : option Attrs)
    (history : list Event) (fuel : nat) :
  Cluster.gke r = LiveClient ->
  ValueString plan "type" = "gcp" -> ValueString state "type" = "gcp" ->
  let provider := if Cluster.gcpRegion r == "" then "us-central1" else Cluster.gcpRegion r in
  let region := if ValueString plan "region" == "" then provider
                else ValueString plan "region" in
  let name := if ValueString plan "name" == "" then "abstract-cluster"
              else ValueString plan "name" in
  let created := run (Cluster.Create fuel plan) backend r None history in
  let read := run (Cluster.Read state) backend r prior history in
  let deleted := run (Cluster.Delete fuel state) backend r prior history in
  (exists count machine,
      map request (take 1 (calls created))
      = [Asked (GCP (Clusters_Create ("projects/" ++ Cluster.gcpProj r ++ "/locations/" ++ region)
                       name count machine))])
  /\ (forall rec, record created = Some rec ->
        ValueString rec "region" = region /\ ValueString rec "id" = name)
  /\ map request (calls read)
     = [Asked (GCP (Clusters_Get ("projects/" ++ Cluster.gcpProj r ++ "/locations/" ++ provider
                                   ++ "/clusters/" ++ ValueString state "id")))]
  /\ map request (take 1 (calls deleted))
     = [Asked (GCP (Clusters_Delete ("projects/" ++ Cluster.gcpProj r ++ "/locations/"
                                      ++ provider ++ "/clusters/" ++ ValueString state "id")))].
Proof.
  intros Hgke Hplan Hstate. cbv zeta.
  assert (Hcreated :
    let created := run (Cluster.Create fuel plan) backend r None history in
    (exists count machine,
      map request (take 1 (calls created))
      = [Asked (GCP (Clusters_Create
                       ("projects/" ++ Cluster.gcpProj r ++ "/locations/"
                        ++ (if ValueString plan "region" == ""
                            then if Cluster.gcpRegion r == "" then "us-central1"
                                 else Cluster.gcpRegion r
                            else ValueString plan "region"))
                       (if ValueString plan "name" == "" then "abstract-cluster"
                        else ValueString plan "name") count machine))])
    /\ (forall rec, record created = Some rec ->
          ValueString rec "region"
          = (if ValueString plan "region" == ""
             then if Cluster.gcpRegion r == "" then "us-central1" else Cluster.gcpRegion r
             else ValueString plan "region")
          /\ ValueString rec "id"
             = (if ValueString plan "name" == "" then "abstract-cluster"
                else ValueString plan "name"))).
  { unfold Cluster.Create. cbv zeta. rewrite Hplan. cbn. rewrite Hgke. cbn.
    destruct (backend _ history _) as [op|e]; cbn.
    2:{ tidy_log. split; [eauto|]. intros rec H; discriminate H. }
    past_the_wait Cluster.awaitOperation Cluster_await.
    destruct f; cbn; rewrite ?Hlog, ?Hst; tidy_log;
      (split; [eauto | intros rec Hrec; try discriminate Hrec]).
    injection Hrec as <-. split; reflexivity. }
  destruct Hcreated as [Hfirst Hrec].
  split; [exact Hfirst|]. split; [exact Hrec|]. split.
  - unfold Cluster.Read. cbv zeta. rewrite Hstate. cbn. rewrite Hgke. cbn.
    destruct (backend _ history _); cbn; tidy_log; reflexivity.
  - unfold Cluster.Delete. cbv zeta. rewrite Hstate. cbn. rewrite Hgke. cbn.
    destruct (backend _ history _) as [op|e]; cbn; [|tidy_log; reflexivity].
    past_the_wait Cluster.awaitOperation Cluster_await. rewrite Hlog. tidy_log. reflexivity.
Qed.

Lemma Cluster_made_in_one_region_and_read_in_another :
  let created := run (Cluster.Create 1 gkePlan) accepting clusterResource None [] in
  let read := run (Cluster.Read gkeRecord) accepting clusterResource (Some gkeRecord)
                (calls created) in
  record created = Some gkeRecord
  /\ map request (take 1 (calls created))
     = [Asked (GCP (Clusters_Create "projects/proj/locations/europe-west1" "k8s" 3
                      "e2-medium"))]
  /\ map request (calls read)
     = [Asked (GCP (Clusters_Get "projects/proj/locations/us-central1/clusters/k8s"))].
Proof.
  intros created read.
  assert (Hrec : record created = Some gkeRecord) by (vm_compute; reflexivity).
  split; [exact Hrec|]. split; [vm_compute; reflexivity|].
  exact (proj1 (proj2 (proj2 (Cluster_location_on_GCP accepting clusterResource gkePlan
                                gkeRecord (Some gkeRecord) (calls created) 1
                                eq_refl eq_refl eq_refl)))).
Defined.

Lemma Polling_names_no_function op summary polls events ds f :
  Polling (GCP (Functions_OperationsGet op)) (fun done => done) summary polls events ds f ->
  omap functionPath events = [].
Proof. induction 1; cbn; auto. Qed.

(** X6: on GCP, a Create that stores a record addressed the function in the
    plan's region, or in the provider's as it is when the plan has none,
    and stored that region; Read and Delete address the function in the
    provider's region, or us-central1 when it is empty, whatever region the
    record holds. *)
Theorem Function_location_on_GCP
    (tl : Z -> Z) (backend : Backend) (r : Function.Resource) (plan state : Attrs)
    (prior : option Attrs) (history : list Event) (fuel : nat) :
  Function.gcpFunc r = LiveClient ->
  ValueString plan "type" = "gcp" -> ValueString state "type" = "gcp" ->
  let provider := if Function.gcpRegion r == "" then "us-central1"
                  else Function.gcpRegion r in
  let region := if ValueString plan "region" == "" then Function.gcpRegion r
                else ValueString plan "region" in
  let created := run (Function.Create tl fuel plan) backend r None history in
  let read := run (Function.Read state) backend r prior history in
  let deleted := run (Function.Delete fuel state) backend r prior history in
  (forall rec, record created = Some rec ->
     omap functionPath (calls created)
     = ["projects/" ++ Function.gcpProj r ++ "/locations/" ++ region ++ "/functions/"
        ++ ValueString plan "name"]
     /\ ValueString rec "id" = ValueString plan "name"
     /\ ValueString rec "region" = region)
  /\ omap functionPath (calls read)
     = ["projects/" ++ Function.gcpProj r ++ "/locations/" ++ provider ++ "/functions/"
        ++ ValueString state "id"]
  /\ omap functionPath (calls deleted)
     = ["projects/" ++ Function.gcpProj r ++ "/locations/" ++ provider ++ "/functions/"
        ++ ValueString state "id"].
Proof.
  intros Hfunc Hplan Hstate. cbv zeta. split; [|split].
  - intros rec. unfold Function.Create. cbv zeta. rewrite Hplan. cbn. rewrite Hfunc. cbn.
    repeat (answer backend; cbn); tidy_log; try (intros Hrec; discriminate Hrec).
    past_the_wait Function.awaitOperation Function_await.
    apply Polling_names_no_function in HP.
    destruct f; cbn; rewrite ?Hlog, ?Hst; tidy_log; intros Hrec; try discriminate Hrec.
    injection Hrec as <-. cbn. rewrite ?omap_app, ?HP, !append_assoc. repeat split; reflexivity.
  - unfold Function.Read. cbv zeta. rewrite Hstate. cbn. rewrite Hfunc. cbn.
    destruct (backend _ history _); cbn; tidy_log; reflexivity.
  - unfold Function.Delete. cbv zeta. rewrite Hstate. cbn. rewrite Hfunc. cbn.
    destruct (backend _ history _) as [op|e]; cbn; [|tidy_log; reflexivity].
    past_the_wait Function.awaitOperation Function_await.
    apply Polling_names_no_function in HP.
    rewrite Hlog. tidy_log. rewrite HP. reflexivity.
Qed.

Lemma Function_made_in_one_region_and_read_in_another :
  let created := run (Function.Create caseless 1 gcpFunctionPlan) accepting functionResource
                   None [] in
  let read := run (Function.Read gcpFunctionRecord) accepting functionResource
                (Some gcpFunctionRecord) (calls created) in
  record created = Some gcpFunctionRecord
  /\ omap functionPath (calls created)
     = ["projects/proj/locations/europe-west1/functions/hello"]
  /\ omap functionPath (calls read) = ["projects/proj/locations/us-central1/functions/hello"].
Proof.
  intros created read.
  assert (Hrec : record created = Some gcpFunctionRecord) by (vm_compute; reflexivity).
  split; [exact Hrec|].
  split.
  - exact (proj1 (proj1 (Function_location_on_GCP caseless accepting functionResource
                           gcpFunctionPlan gcpFunctionRecord None [] 1
                           eq_refl eq_refl eq_refl) gcpFunctionRecord Hrec)).
  - exact (proj1 (proj2 (Function_location_on_GCP caseless accepting functionResource
                           gcpFunctionPlan gcpFunctionRecord (Some gcpFunctionRecord)
                           (calls created) 1 eq_refl eq_refl eq_refl))).
Defined.

Lemma supported_inv tag :
  supported tag = true -> tag = "aws" \/ tag = "azure" \/ tag = "gcp".
Proof.
  unfold supported. intros H.
  destruct (String.eqb_spec tag "aws"); [auto|].
  destruct (String.eqb_spec tag "azure"); [auto|].
  destruct (String.eqb_spec tag "gcp"); [auto|]. discriminate H.
Qed.

Ltac by_cloud H :=
  apply supported_inv in H; destruct H as [H|[H|H]]; cbv zeta; rewrite H; cbn.

(** X7: a network, instance, cluster or function resource that was given
    no client: for each of the three clouds Create reports one error and
    stores nothing, while Read and Delete return without a call, a
    diagnostic or a change to the record. *)
Theorem handlers_without_clients
    (tl : Z -> Z) (sdk : SDKConstants) (fuel : nat) (backend : Backend)
    (attrs : Attrs) (prior : option Attrs) (history : list Event) :
  supported (ValueString attrs "type") = true ->
  (forall r, Network.ec2 r = NilClient -> Network.azureV r = NilClient ->
             Network.gcp r = NilClient ->
     complains (run (Network.Create attrs) backend r prior history) r prior
     /\ ignores (run (Network.Read attrs) backend r prior history) r prior
     /\ ignores (run (Network.Delete attrs) backend r prior history) r prior)
  /\ (forall r, Instance.ec2 r = NilClient -> Instance.azureVM r = NilClient ->
                Instance.gcp r = NilClient ->
        complains (run (Instance.Create tl sdk attrs) backend r prior history) r prior
        /\ ignores (run (Instance.Read attrs) backend r prior history) r prior
        /\ ignores (run (Instance.Delete attrs) backend r prior history) r prior)
  /\ (forall r, Cluster.eks r = NilClient -> Cluster.azureAKS r = NilClient ->
                Cluster.gke r = NilClient ->
        complains (run (Cluster.Create fuel attrs) backend r prior history) r prior
        /\ ignores (run (Cluster.Read attrs) backend r prior history) r prior
        /\ ignores (run (Cluster.Delete fuel attrs) backend r prior history) r prior)
  /\ (forall r, Function.lambda r = NilClient -> Function.azureWeb r = NilClient ->
                Function.gcpFunc r = NilClient ->
        complains (run (Function.Create tl fuel attrs) backend r prior history) r prior
        /\ ignores (run (Function.Read attrs) backend r prior history) r prior
        /\ ignores (run (Function.Delete fuel attrs) backend r prior history) r prior).
Proof.
  intros Htag.
  repeat match goal with |- _ /\ _ => split end; intros r Haws Hazure Hgcp;
    unfold complains, ignores;
    unfold Network.Create, Network.Read, Network.Delete,
      Instance.Create, Instance.Read, Instance.Delete,
      Cluster.Create, Cluster.Read, Cluster.Delete,
      Function.Create, Function.Read, Function.Delete;
    by_cloud Htag; rewrite ?Haws, ?Hazure, ?Hgcp; cbn; rewrite ?drop_all;
    repeat split; eauto.
Qed.

Lemma bare_network_on_AWS :
  supported (ValueString awsNetworkPlan "type") = true
  /\ complains (run (Network.Create awsNetworkPlan) accepting bareNetwork None [])
       bareNetwork None
  /\ ignores (run (Network.Delete awsNetworkRecord) accepting bareNetwork
                (Some awsNetworkRecord) []) bareNetwork (Some awsNetworkRecord).
Proof.
  assert (Hplan : supported (ValueString awsNetworkPlan "type") = true) by reflexivity.
  assert (Hrec : supported (ValueString awsNetworkRecord "type") = true) by reflexivity.
  split; [exact Hplan|]. split.
  - exact (proj1 (proj1 (handlers_without_clients caseless sdkValues 0 accepting
                           awsNetworkPlan None [] Hplan)
                    bareNetwork eq_refl eq_refl eq_refl)).
  - exact (proj2 (proj2 (proj1 (handlers_without_clients caseless sdkValues 0 accepting
                                  awsNetworkRecord (Some awsNetworkRecord) [] Hrec)
                           bareNetwork eq_refl eq_refl eq_refl))).
Defined.

Ltac located :=
  unfold locatedIn; tidy_log;
  repeat split;
  first [ solve [repeat constructor]
        | let rec_ := fresh "rec" in let H := fresh "Hrec" in
          intros rec_ H; first [ discriminate H | injection H as <-; reflexivity ] ].

(** X8: where Create puts a resource on Azure. Every call that carries a
    location carries the provider's when it is set; the plan's region
    counts only when the provider has none (a cluster then falls back to
    eastus, a network uses eastus without looking at the plan). The record
    stores the location used. *)
Theorem Azure_location_of_Create
    (tl : Z -> Z) (sdk : SDKConstants) (fuel : nat) (backend : Backend)
    (plan : Attrs) (history : list Event) :
  ValueString plan "type" = "azure" ->
  let region := ValueString plan "region" in
  let stored {R} (out : Outcome R) (loc : string) :=
    locatedIn loc (calls out)
    /\ forall rec, record out = Some rec -> ValueString rec "region" = loc in
  (forall r,
     stored (run (Instance.Create tl sdk plan) backend r None history)
       (if Instance.azureLoc r == "" then region else Instance.azureLoc r))
  /\ (forall r,
        stored (run (Bucket.Create tl plan) backend r None history)
          (if Bucket.azureLoc r == "" then region else Bucket.azureLoc r))
  /\ (forall r,
        stored (run (Function.Create tl fuel plan) backend r None history)
          (if Function.azureLoc r == "" then region else Function.azureLoc r))
  /\ (forall r,
        stored (run (Cluster.Create fuel plan) backend r None history)
          (if Cluster.azureLoc r == "" then (if region == "" then "eastus" else region)
           else Cluster.azureLoc r))
  /\ (forall r,
        locatedIn (if Network.azureLoc r == "" then "eastus" else Network.azureLoc r)
          (calls (run (Network.Create plan) backend r None history))).
Proof.
  intros Htype. cbv zeta.
  repeat match goal with |- _ /\ _ => split end; intros r;
    unfold Instance.Create, Bucket.Create, Function.Create, Cluster.Create, Network.Create;
    cbv zeta; rewrite Htype; destruct r; cbn;
    match goal with
    | |- context [?loc == ""] =>
      is_var loc; destruct (String.eqb_spec loc "") as [->|?];
      destruct (String.eqb_spec (ValueString plan "region") "") as [Hregion|?];
      rewrite ?Hregion
    end.
  all: execute backend.
  all: try past_the_wait Cluster.awaitOperation Cluster_await.
  all: try past_the_wait Function.awaitOperation Function_await.
  all: located.
Qed.

Lemma Azure_instance_ignores_the_plan_region :
  let out := run (Instance.Create caseless sdkValues azureInstanceInNorth) accepting
               instanceResource None [] in
  ValueString azureInstanceInNorth "region" = "northeurope"
  /\ locatedIn "westeurope" (calls out)
  /\ exists rec, record out = Some rec /\ ValueString rec "region" = "westeurope".
Proof.
  intros out.
  destruct (proj1 (Azure_location_of_Create caseless sdkValues 0 accepting
                     azureInstanceInNorth [] eq_refl) instanceResource) as [Hcalls Hrec].
  split; [reflexivity|]. split; [exact Hcalls|].
  destruct (record out) as [rec|] eqn:E; [|vm_compute in E; discriminate E].
  exists rec. split; [reflexivity | exact (Hrec rec E)].
Defined.

(** X9: Delete of a function on Azure deletes the web app, then the plan
    and the storage account when the record names them and their clients
    exist, whatever the earlier calls answer; only a failure of the web
    app's deletion is reported. *)
Theorem Function_Delete_on_Azure_is_best_effort
    (backend : Backend) (r : Function.Resource) (state : Attrs) (prior : option Attrs)
    (history : list Event) (fuel : nat) :
  ValueString state "type" = "azure" -> Function.azureWeb r = LiveClient ->
  let id := ValueString state "id" in
  let plan := ValueString state "plan" in
  let account := ValueString state "account" in
  let group := ValueString state "resource_group" in
  let out := run (Function.Delete fuel state) backend r prior history in
  map request (calls out)
  = ([Asked (Azure (WebApps_Delete "abstract-rg" id))]
     ++ (if negb (isNil (Function.azurePlan r)) && negb (plan == "")
         then [Asked (Azure (Plans_Delete "abstract-rg" plan))] else [])
     ++ (if negb (isNil (Function.azureAcct r)) && negb (group == "") && negb (account == "")
         then [Asked (Azure (Accounts_Delete group account))] else []))%list
  /\ diagnostics out
     = match backend _ history (Azure (WebApps_Delete "abstract-rg" id)) with
       | Ok _ => []
       | Err e => [AddedError "azure delete" e]
       end
  /\ record out = prior.
Proof.
  intros Htype Hweb. unfold Function.Delete. cbv zeta. rewrite Htype. cbn. rewrite Hweb. cbn.
  destruct (backend _ history _); cbn;
    destruct (negb (isNil (Function.azurePlan r)) && negb (ValueString state "plan" == ""));
    cbn;
    destruct (negb (isNil (Function.azureAcct r))
              && negb (ValueString state "resource_group" == "")
              && negb (ValueString state "account" == ""));
    cbn; repeat (answer backend; cbn); tidy_log; repeat split; reflexivity.
Qed.

Lemma Function_Delete_with_everything_locked :
  let out := run (Function.Delete 0 azureFunctionRecord) locked functionResource
               (Some azureFunctionRecord) [] in
  calls out
  = [Answered (Azure (WebApps_Delete "abstract-rg" "hello")) (Err "ScopeLocked");
     Answered (Azure (Plans_Delete "abstract-rg" "hello-plan")) (Err "ScopeLocked");
     Answered (Azure (Accounts_Delete "abstract-rg" "hello")) (Err "ScopeLocked")]
  /\ diagnostics out = [AddedError "azure delete" "ScopeLocked"].
Proof.
  intros out.
  pose proof (Function_Delete_on_Azure_is_best_effort locked functionResource
                azureFunctionRecord (Some azureFunctionRecord) [] 0 eq_refl eq_refl)
    as (_ & Hdiag & _).
  split; [vm_compute; reflexivity | exact Hdiag].
Defined.

(** X10: on Azure a network and a machine are made under the plan's name
    and recorded under the id the service returns; Read and Delete then
    look the resource up with the recorded id in the place of the name. *)
Theorem Azure_resources_are_looked_up_by_id
    (tl : Z -> Z) (sdk : SDKConstants) (backend : Backend) (plan state : Attrs)
    (prior : option Attrs) (history : list Event) :
  ValueString plan "type" = "azure" -> ValueString state "type" = "azure" ->
  (forall r rec,
     record (run (Network.Create plan) backend r None history) = Some rec ->
     last (omap madeOnAzure (calls (run (Network.Create plan) backend r None history)))
     = Some (ValueString plan "name", ValueString rec "id"))
  /\ (forall r rec,
        record (run (Instance.Create tl sdk plan) backend r None history) = Some rec ->
        last (omap madeOnAzure
                (calls (run (Instance.Create tl sdk plan) backend r None history)))
        = Some (ValueString plan "name", ValueString rec "id"))
  /\ (forall r, Network.azureV r = LiveClient ->
        omap lookedUpOnAzure (calls (run (Network.Read state) backend r prior history))
        = [ValueString state "id"]
        /\ omap lookedUpOnAzure (calls (run (Network.Delete state) backend r prior history))
           = [ValueString state "id"])
  /\ (forall r, Instance.azureVM r = LiveClient ->
        omap lookedUpOnAzure (calls (run (Instance.Read state) backend r prior history))
        = [ValueString state "id"]
        /\ omap lookedUpOnAzure (calls (run (Instance.Delete state) backend r prior history))
           = [ValueString state "id"]).
Proof.
  intros Hplan Hstate.
  repeat match goal with |- _ /\ _ => split end.
  - intros r rec. unfold Network.Create. cbv zeta. rewrite Hplan.
    execute backend; tidy_log; intros Hrec; try discriminate Hrec;
      injection Hrec as <-; reflexivity.
  - intros r rec. unfold Instance.Create. cbv zeta. rewrite Hplan.
    execute backend; tidy_log; intros Hrec; try discriminate Hrec;
      injection Hrec as <-; reflexivity.
  - intros r Hlive.
    unfold Network.Read, Network.Delete. cbv zeta. rewrite Hstate. cbn. rewrite Hlive. cbn.
    split; repeat (answer backend; cbn); tidy_log; reflexivity.
  - intros r Hlive.
    unfold Instance.Read, Instance.Delete. cbv zeta. rewrite Hstate. cbn. rewrite Hlive. cbn.
    split; repeat (answer backend; cbn); tidy_log; reflexivity.
Qed.

Lemma Azure_network_made_by_name_and_read_by_id :
  let created := run (Network.Create azureNetworkPlan) byName networkResource None [] in
  let read := run (Network.Read azureNetworkRecord) byName networkResource
                (Some azureNetworkRecord) (calls created) in
  record created = Some azureNetworkRecord
  /\ last (omap madeOnAzure (calls created))
     = Some ("net", "/subscriptions/s/resourceGroups/g/providers/p/n")
  /\ omap lookedUpOnAzure (calls read) = ["/subscriptions/s/resourceGroups/g/providers/p/n"]
  /\ record read = None.
Proof.
  intros created read.
  assert (Hrec : record created = Some azureNetworkRecord) by (vm_compute; reflexivity).
  destruct (Azure_resources_are_looked_up_by_id caseless sdkValues byName azureNetworkPlan
              azureNetworkRecord (Some azureNetworkRecord) (calls created) eq_refl eq_refl)
    as (Hmade & _ & Hread & _).
  split; [exact Hrec|]. split; [exact (Hmade networkResource azureNetworkRecord Hrec)|].
  split; [exact (proj1 (Hread networkResource eq_refl))|].
  vm_compute. reflexivity.
Defined.

(** X11: the [type] attribute of a DNS record both selects the cloud and
    is the record type sent to Route 53. Every record set made on Azure is
    an A record, every type sent to Route 53 is "aws" up to case, and a
    plan of type CNAME (in any case) is refused as an unsupported cloud
    before any call. *)
Theorem DNS_record_type_is_the_cloud_tag
    (tl tu : Z -> Z) (ef : string -> string -> bool) (backend : Backend)
    (r : DNSRecord.Resource) (plan : Attrs) (prior : option Attrs) (history : list Event) :
  foldsToCNAME tl ef ->
  let out := run (DNSRecord.Create tl tu ef plan) backend r prior history in
  Forall (fun t => t = RecordTypeA) (omap azureRecordType (calls out))
  /\ Forall (fun t => GoStrings.ToLower tl t = "aws") (omap route53RecordType (calls out))
  /\ (GoStrings.ToLower tl (ValueString plan "type") = "cname" ->
      calls out = [] /\ diagnostics out = [AddedError "unsupported cloud" ""]).
Proof.
  intros Hfold. unfold DNSRecord.Create. cbv zeta. split; [|split].
  - execute backend; tidy_log; repeat constructor;
      match goal with
      | H : ef _ "CNAME" = true, E : (GoStrings.ToLower tl _ == "azure") = true |- _ =>
        apply Hfold in H; rewrite H in E; discriminate E
      end.
  - execute backend; tidy_log; repeat constructor;
      match goal with
      | E : (GoStrings.ToLower tl _ == "aws") = true |- _ => apply String.eqb_eq, E
      end.
  - intros Hcname. cbn. rewrite Hcname. cbn. rewrite drop_all. split; reflexivity.
Qed.

Lemma foldASCII_folds_to_CNAME : foldsToCNAME caseless foldASCII.
Proof. intros s H. apply String.eqb_eq in H. exact H. Qed.

Lemma DNS_CNAME_record_cannot_be_made :
  foldsToCNAME caseless foldASCII
  /\ GoStrings.ToLower caseless (ValueString cnamePlan "type") = "cname"
  /\ let out := run (DNSRecord.Create caseless caseless foldASCII cnamePlan) accepting
                  dnsResource None [] in
     calls out = [] /\ diagnostics out = [AddedError "unsupported cloud" ""].
Proof.
  split; [exact foldASCII_folds_to_CNAME|]. split; [reflexivity|].
  exact (proj2 (proj2 (DNS_record_type_is_the_cloud_tag caseless caseless foldASCII accepting
                         dnsResource cnamePlan None [] foldASCII_folds_to_CNAME)) eq_refl).
Defined.

(** X12: Read and Delete of a bucket on Azure dereference the value of
    the first account key: when the service lists a first key without a
    value the handler panics, with no diagnostic, the record left as it was
    and nothing deleted. *)
Theorem Bucket_on_Azure_panics_on_a_key_without_value
    (backend : Backend) (r : Bucket.Resource) (state : Attrs) (prior : option Attrs)
    (history : list Event) (keys : list (option string)) :
  ValueString state "type" = "azure" ->
  Bucket.azureAcct r = LiveClient -> Bucket.azureCont r = LiveClient ->
  backend _ history (Azure (Accounts_ListKeys (ValueString state "resource_group")
                              (ValueString state "account")))
  = Ok (None :: keys) ->
  let read := run (Bucket.Read state) backend r prior history in
  let deleted := run (Bucket.Delete state) backend r prior history in
  (flow read = Panicked /\ record read = prior /\ diagnostics read = [])
  /\ (flow deleted = Panicked /\ diagnostics deleted = []
      /\ filter (fun e => isDestroy e = true) (calls deleted) = []).
Proof.
  intros Htype Hacct Hcont Hkeys.
  unfold Bucket.Read, Bucket.Delete. cbv zeta. rewrite Htype. cbn.
  rewrite Hacct, Hcont. cbn. rewrite Hkeys. cbn. tidy_log. repeat split; reflexivity.
Qed.

Lemma Bucket_Read_with_a_key_without_value :
  let read := run (Bucket.Read azureBucketRecord) keyless bucketResource
                (Some azureBucketRecord) [] in
  flow read = Panicked /\ record read = Some azureBucketRecord.
Proof.
  intros read.
  destruct (proj1 (Bucket_on_Azure_panics_on_a_key_without_value keyless bucketResource
                     azureBucketRecord (Some azureBucketRecord) [] [] eq_refl eq_refl eq_refl
                     eq_refl)) as (Hflow & Hrec & _).
  exact (conj Hflow Hrec).
Defined.

Lemma int32_range n : - 2 ^ 31 <= int32 n < 2 ^ 31.
Proof. unfold int32. pose proof (Z.mod_pos_bound (n + 2 ^ 31) (2 ^ 32)). lia. Qed.

Lemma int32_small n : - 2 ^ 31 <= n < 2 ^ 31 -> int32 n = n.
Proof. intros H. unfold int32. rewrite Z.mod_small; lia. Qed.

(** X13: the node count a cluster's Create stores: 3 when the plan asks
    for none or a non-positive one; on GCP the count asked; on the other
    clouds the count asked cut to 32 bits, which equals the count asked
    only below 2^31. *)
Theorem Cluster_node_count
    (backend : Backend) (r : Cluster.Resource) (plan : Attrs) (history : list Event)
    (fuel : nat) (rec : Attrs) :
  record (run (Cluster.Create fuel plan) backend r None history) = Some rec ->
  let asked := ValueInt64 plan "node_count" in
  let count := ValueInt64 rec "node_count" in
  (asked <= 0 -> count = 3)
  /\ (ValueString plan "type" = "gcp" -> 0 < asked -> count = asked)
  /\ (ValueString plan "type" <> "gcp" -> 0 < asked ->
      count = int32 asked /\ - 2 ^ 31 <= count < 2 ^ 31 /\ (asked < 2 ^ 31 -> count = asked)).
Proof.
  cbv zeta.
  assert (Hcount :
    record (run (Cluster.Create fuel plan) backend r None history) = Some rec ->
    ValueInt64 rec "node_count"
    = if 0 <? ValueInt64 plan "node_count"
      then (if ValueString plan "type" == "gcp" then ValueInt64 plan "node_count"
            else int32 (ValueInt64 plan "node_count"))
      else 3).
  { unfold Cluster.Create. cbv zeta.
    destruct (ValueString plan "type" == "gcp") eqn:Hgcp.
    - apply String.eqb_eq in Hgcp. rewrite Hgcp. execute backend.
      all: try past_the_wait Cluster.awaitOperation Cluster_await.
      all: try (destruct f; cbn; rewrite ?Hst).
      all: intros H; first [ discriminate H | injection H as <-; reflexivity ].
    - execute backend.
      all: try past_the_wait Cluster.awaitOperation Cluster_await.
      all: try (destruct f; cbn; rewrite ?Hst).
      all: intros H; first [ discriminate H | injection H as <-; try reflexivity ].
      all: match goal with
           | H1 : ?x = true, H2 : ?x = false |- _ => rewrite H1 in H2; discriminate H2
           end. }
  intros Hrec. rewrite (Hcount Hrec). clear Hcount. split; [|split].
  - intros H. destruct (0 <? _) eqn:E; [apply Z.ltb_lt in E; lia | reflexivity].
  - intros Hgcp Hpos. apply Z.ltb_lt in Hpos. rewrite Hpos, Hgcp. reflexivity.
  - intros Hgcp Hpos. apply String.eqb_neq in Hgcp. rewrite Hgcp.
    pose proof Hpos as Hpos'. apply Z.ltb_lt in Hpos'. rewrite Hpos'.
    split; [reflexivity|]. split; [apply int32_range|].
    intros Hlt. apply int32_small. lia.
Qed.

Lemma Cluster_node_count_beyond_int32 :
  record (run (Cluster.Create 0 manyNodesPlan) accepting clusterResource None [])
  = Some manyNodesRecord
  /\ ValueString manyNodesPlan "type" <> "gcp"
  /\ 0 < ValueInt64 manyNodesPlan "node_count"
  /\ ValueInt64 manyNodesPlan "node_count" = 4294967298
  /\ ValueInt64 manyNodesRecord "node_count" = int32 4294967298
  /\ int32 4294967298 = 2.
Proof.
  assert (Hrec : record (run (Cluster.Create 0 manyNodesPlan) accepting clusterResource
                           None []) = Some manyNodesRecord) by (vm_compute; reflexivity).
  assert (Htype : ValueString manyNodesPlan "type" <> "gcp") by (vm_compute; discriminate).
  assert (Hpos : 0 < ValueInt64 manyNodesPlan "node_count") by (vm_compute; reflexivity).
  split; [exact Hrec|]. split; [exact Htype|]. split; [exact Hpos|].
  split; [reflexivity|]. split; [|reflexivity].
  exact (proj1 (proj2 (proj2 (Cluster_node_count accepting clusterResource manyNodesPlan []
                                0 manyNodesRecord Hrec)) Htype Hpos)).
Defined.

Lemma Polling_outcome {A} (poll : Call (Go A)) done summary polls events ds f :
  Polling poll done summary polls events ds f ->
  match f with
  | Next _ | Exhausted => ds = []
  | Returned => exists e, ds = [AddedError summary e]
  | Panicked => False
  end.
Proof. induction 1; eauto. Qed.

Ltac all_or_nothing :=
  unfold allOrNothing; tidy_log;
  let H := fresh "Hfinished" in
  intros H; first [ discriminate H
                  | left; split; [discriminate | reflexivity]
                  | right; split; [reflexivity | eexists; split; reflexivity] ].

Ltac after_the_wait :=
  match goal with
  | HP : Polling _ _ _ _ _ ?ds ?f, Hds : Diagnostics ?c = _, Hst : State ?c = _ |- _ =>
    apply Polling_outcome in HP; destruct f; cbn in HP;
    [ subst ds | destruct HP as [? ->] | destruct HP | subst ds ];
    cbn in *; rewrite ?Hds, ?Hst
  end.

(** X14: a Create of any of the six resources that returns either reports
    an error and stores no record, or reports nothing and stores a record
    of the plan's type. *)
Theorem Create_is_all_or_nothing
    (tl tu : Z -> Z) (ef : string -> string -> bool) (sdk : SDKConstants) (fuel : nat)
    (backend : Backend) (plan : Attrs) (history : list Event) :
  (forall r, allOrNothing plan (run (Bucket.Create tl plan) backend r None history))
  /\ (forall r, allOrNothing plan (run (Network.Create plan) backend r None history))
  /\ (forall r, allOrNothing plan (run (Instance.Create tl sdk plan) backend r None history))
  /\ (forall r, allOrNothing plan (run (Cluster.Create fuel plan) backend r None history))
  /\ (forall r, allOrNothing plan (run (Function.Create tl fuel plan) backend r None history))
  /\ (forall r, allOrNothing plan
                  (run (DNSRecord.Create tl tu ef plan) backend r None history)).
Proof.
  repeat match goal with |- _ /\ _ => split end; intros r.
  - unfold Bucket.Create. execute backend; all_or_nothing.
  - unfold Network.Create. execute backend; all_or_nothing.
  - unfold Instance.Create. execute backend; all_or_nothing.
  - unfold Cluster.Create. execute backend.
    all: try (past_the_wait Cluster.awaitOperation Cluster_await; after_the_wait).
    all: all_or_nothing.
  - unfold Function.Create. execute backend.
    all: try (past_the_wait Function.awaitOperation Function_await; after_the_wait).
    all: all_or_nothing.
  - unfold DNSRecord.Create. execute backend; all_or_nothing.
Qed.

(** ** The provider's Configure *)

(** The struct a Configure without error hands over, written out. *)
Lemma Provider_Configure_data sdk cfg p data :
  Provider.ResourceData (Provider.Configure sdk cfg p).1 = ConfigPtr (Some data) ->
  let p1 := Provider.withAWSClients p in
  let p2 := if azureComplete cfg then Provider.withAzureClients cfg p1 else p1 in
  let p3 := if Provider.GCP_Project cfg == "" then p2 else Provider.withGCPClients cfg p2 in
  data = Provider.withGCPFields p3 (Provider.withAzureFields p2 (Provider.baseConfig p1))
  /\ Provider.Diagnostics (Provider.Configure sdk cfg p).1 = []
  /\ Provider.DataSourceData (Provider.Configure sdk cfg p).1 = ConfigPtr (Some data).
Proof.
  unfold Provider.Configure, azureComplete. cbv zeta.
  destruct (sdk Provider.awsconfig_LoadDefaultConfig); [discriminate|].
  destruct (negb (Provider.Azure_SubscriptionID cfg == "") && _ && _ && _);
    [destruct (Provider.construct sdk (Provider.azureSteps cfg)); [discriminate|]|];
    (destruct (Provider.GCP_Project cfg == ""); cbn [negb];
     [|destruct (Provider.construct sdk (Provider.gcpSteps cfg)); [discriminate|]]);
    cbn [fst Provider.ResourceData Provider.Diagnostics Provider.DataSourceData];
    intros H; injection H as <-; repeat split.
Qed.

Lemma construct_one sdk steps d :
  Provider.construct sdk steps = Some d -> exists s e, d = AddedError s e.
Proof.
  induction steps as [|[c s] steps IH]; cbn; [discriminate|].
  destruct (sdk c) as [e|]; [|exact IH]. intros H. injection H as <-. eauto.
Qed.

(** X15: what the provider's Configure, called on a new provider, hands
    over.  It reports at most one error, and sets [ResourceData] exactly
    when it reports none.  The data then has every AWS client; the Azure
    clients, subscription and location only when the block gives all four
    credentials, and otherwise none of them, with a credential that is a
    nil pointer in a non-nil interface; the GCP clients, project and
    region only when the block names a project. *)
Theorem Provider_Configure_builds_each_cloud_whole_or_not_at_all
    (sdk : Provider.SDK) (cfg : Provider.Config) :
  let resp := (Provider.Configure sdk cfg Provider.New).1 in
  (List.length (Provider.Diagnostics resp) <= 1)%nat
  /\ (Provider.Diagnostics resp = [] <-> Provider.ResourceData resp <> NoData)
  /\ (Provider.DataSourceData resp = NoData
      <-> sdk Provider.awsconfig_LoadDefaultConfig <> None)
  /\ forall data, Provider.ResourceData resp = ConfigPtr (Some data) ->
       Provider.DataSourceData resp = ConfigPtr (Some data)
       /\ allLive (awsClients data)
       /\ (if azureComplete cfg
           then allLive (azureClients data)
                /\ shared.AzureCred data = CredentialPtr LiveClient
                /\ shared.AzureSubID data = Provider.Azure_SubscriptionID cfg
                /\ shared.AzureLocation data = Provider.Azure_Location cfg
           else allNil (azureClients data)
                /\ shared.AzureCred data = CredentialPtr NilClient
                /\ shared.AzureSubID data = ""
                /\ shared.AzureLocation data = "")
       /\ (if Provider.GCP_Project cfg == ""
           then allNil (gcpClients data)
                /\ shared.GCPProject data = "" /\ shared.GCPRegion data = ""
           else allLive (gcpClients data)
                /\ shared.GCPProject data = Provider.GCP_Project cfg
                /\ shared.GCPRegion data = Provider.GCP_Region cfg).
Proof.
  cbv zeta. split; [|split; [|split]].
  - unfold Provider.Configure. cbv zeta.
    destruct (sdk Provider.awsconfig_LoadDefaultConfig); [cbn; lia|].
    destruct (_ && _); [destruct (Provider.construct _ _); [cbn; lia|]|];
      (destruct (negb _); [destruct (Provider.construct _ _)|]; cbn; lia).
  - unfold Provider.Configure. cbv zeta.
    destruct (sdk Provider.awsconfig_LoadDefaultConfig); [cbn; split; [discriminate|tauto]|].
    destruct (_ && _); [destruct (Provider.construct _ _); [cbn; split; [discriminate|tauto]|]|];
      (destruct (negb _); [destruct (Provider.construct _ _)|]; cbn;
       split; solve [discriminate | tauto | reflexivity]).
  - unfold Provider.Configure. cbv zeta.
    destruct (sdk Provider.awsconfig_LoadDefaultConfig);
      [cbn; split; [discriminate | reflexivity]|].
    destruct (_ && _); [destruct (Provider.construct _ _)|];
      try (destruct (negb _); [destruct (Provider.construct _ _)|]); cbn;
      split; solve [discriminate | tauto].
  - intros data Hdata.
    apply Provider_Configure_data in Hdata. cbv zeta in Hdata.
    destruct Hdata as (-> & _ & Hds). split; [exact Hds|].
    destruct (azureComplete cfg), (Provider.GCP_Project cfg == ""); cbn;
      repeat split; repeat constructor.
Qed.

Lemma Provider_Configure_of_a_partial_block :
  let resp := (Provider.Configure sound partialBlock Provider.New).1 in
  exists data,
    Provider.ResourceData resp = ConfigPtr (Some data)
    /\ Provider.Diagnostics resp = []
    /\ allLive (awsClients data)
    /\ allNil (azureClients data)
    /\ shared.AzureCred data = CredentialPtr NilClient
    /\ shared.AzureLocation data = ""
    /\ allNil (gcpClients data)
    /\ shared.GCPRegion data = "".
Proof.
  intros resp.
  destruct (Provider.ResourceData resp) as [|[data|]|] eqn:E; try discriminate E.
  exists data.
  destruct (Provider_Configure_builds_each_cloud_whole_or_not_at_all sound partialBlock)
    as (_ & Hdiag & _ & Hdata).
  destruct (Hdata data E) as (_ & Haws & Hazure & Hgcp).
  change (azureComplete partialBlock) with false in Hazure.
  change (Provider.GCP_Project partialBlock == "") with true in Hgcp.
  destruct Hazure as (? & ? & ? & ?), Hgcp as (? & ? & ?).
  split; [reflexivity|]. split; [apply Hdiag; fold resp; rewrite E; discriminate|].
  repeat split; assumption.
Defined.

(** X16: resources configured from what a new provider's Configure hands
    over hold every AWS client their handlers call, and an instance holds
    the virtual network client exactly when it holds the virtual machine
    client: the handlers' calls on a nil AWS client, and the instance's
    call on a nil virtual network client, cannot happen after Configure. *)
Theorem configured_resources_hold_the_clients_they_call
    (sdk : Provider.SDK) (cfg : Provider.Config) (data : shared.ProviderConfig)
    (backend : Backend) (history : list Event) :
  Provider.ResourceData (Provider.Configure sdk cfg Provider.New).1 = ConfigPtr (Some data) ->
  let given {R} (Configure : ProviderData -> M R unit) (r0 : R) :=
    run (Configure (ConfigPtr (Some data))) backend r0 None history in
  (forall r0, let out := given Bucket.Configure r0 in
     diagnostics out = [] /\ calls out = [] /\ Bucket.s3 (self' out) = LiveClient)
  /\ (forall r0, let out := given Network.Configure r0 in
        diagnostics out = [] /\ calls out = [] /\ Network.ec2 (self' out) = LiveClient)
  /\ (forall r0, let out := given Instance.Configure r0 in
        diagnostics out = [] /\ calls out = [] /\ Instance.ec2 (self' out) = LiveClient
        /\ Instance.azureVNet (self' out) = Instance.azureVM (self' out))
  /\ (forall r0, let out := given Cluster.Configure r0 in
        diagnostics out = [] /\ calls out = [] /\ Cluster.eks (self' out) = LiveClient
        /\ Cluster.ec2 (self' out) = LiveClient)
  /\ (forall r0, let out := given Function.Configure r0 in
        diagnostics out = [] /\ calls out = [] /\ Function.lambda (self' out) = LiveClient)
  /\ (forall r0, let out := given DNSRecord.Configure r0 in
        diagnostics out = [] /\ calls out = [] /\ DNSRecord.route53 (self' out) = LiveClient).
Proof.
  intros Hdata. apply Provider_Configure_data in Hdata. cbv zeta in Hdata.
  destruct Hdata as (-> & _ & _). cbv zeta.
  repeat match goal with |- _ /\ _ => split end; intros r0; cbn; rewrite ?drop_all;
    repeat split;
    destruct (azureComplete cfg), (Provider.GCP_Project cfg == ""); reflexivity.
Qed.

Lemma resources_of_a_partial_block :
  let resp := (Provider.Configure sound partialBlock Provider.New).1 in
  exists data,
    Provider.ResourceData resp = ConfigPtr (Some data)
    /\ Bucket.s3 (self' (run (Bucket.Configure (ConfigPtr (Some data))) accepting bucketResource
                           None [])) = LiveClient.
Proof.
  intros resp.
  destruct (Provider.ResourceData resp) as [|[data|]|] eqn:E; try discriminate E.
  exists data. split; [reflexivity|].
  exact (proj2 (proj2 (proj1 (configured_resources_hold_the_clients_they_call sound
                                partialBlock data accepting [] E)
                         bucketResource))).
Defined.



(** ** The further resources *)

(** X18: the test [r.azureCred == nil] of the secret's handlers never
    holds after Configure.  The provider stores its credential pointer in
    an interface, so a secret resource configured from a provider block
    without complete Azure credentials holds a non-nil interface around a
    nil pointer: Create, Read and Delete of an Azure secret do not stop at
    the test but go on to read AZURE_KEY_VAULT_URL and, when it is set, to
    build a Key Vault client from the nil credential. *)
Theorem Secret_on_Azure_passes_the_credential_test_without_credentials
    (sdk : Provider.SDK) (cfg : Provider.Config) (data : shared.ProviderConfig)
    (enc : string -> string) (backend : Wide.Backend MoreCall) (r0 : Secret.Resource)
    (attrs : Attrs) (prior : option Attrs) (history : list (Wide.Event MoreCall)) :
  Provider.ResourceData (Provider.Configure sdk cfg Provider.New).1 = ConfigPtr (Some data) ->
  azureComplete cfg = false ->
  ValueString attrs "type" = "azure" ->
  let r := Wide.self' (Wide.run (Secret.Configure (ConfigPtr (Some data))) backend r0 None [])
  in
  let vault := backend _ history (Known (Host (os_Getenv "AZURE_KEY_VAULT_URL"))) in
  let begins (out : Wide.Outcome MoreCall Secret.Resource) :=
    map requestMore (take 2 (Wide.calls out))
    = (AskedMore (Known (Host (os_Getenv "AZURE_KEY_VAULT_URL")))
       :: if vault == "" then []
          else [AskedMore (azsecrets_NewClient vault (CredentialPtr NilClient))])%list in
  Secret.azureCred r = CredentialPtr NilClient
  /\ begins (Wide.run (Secret.Create enc attrs) backend r prior history)
  /\ begins (Wide.run (Secret.Read attrs) backend r prior history)
  /\ begins (Wide.run (Secret.Delete attrs) backend r prior history).
Proof.
  intros Hdata Hazure Htype. apply Provider_Configure_data in Hdata. cbv zeta in Hdata.
  destruct Hdata as (-> & _ & _). cbv zeta. rewrite Hazure.
  split; [destruct (Provider.GCP_Project cfg == ""); reflexivity|].
  unfold Secret.Create, Secret.Read, Secret.Delete. cbv zeta. rewrite Htype.
  repeat split; destruct (Provider.GCP_Project cfg == ""); cbn;
    destruct (backend _ history (Known (Host (os_Getenv "AZURE_KEY_VAULT_URL"))) == "");
    cbn; repeat (answer backend; cbn); tidy_log; reflexivity.
Qed.

Lemma Secret_Create_under_a_partial_block :
  let resp := (Provider.Configure sound partialBlock Provider.New).1 in
  exists data,
    Provider.ResourceData resp = ConfigPtr (Some data)
    /\ azureComplete partialBlock = false
    /\ let r := Wide.self' (Wide.run (Secret.Configure (ConfigPtr (Some data))) acceptingMore
                              secretResource None []) in
       map requestMore
         (take 2 (Wide.calls (Wide.run (Secret.Create (fun s => s) azureSecretPlan)
                                acceptingMore r None [])))
       = [AskedMore (Known (Host (os_Getenv "AZURE_KEY_VAULT_URL")));
          AskedMore (azsecrets_NewClient "https://kv.vault.azure.net" (CredentialPtr NilClient))].
Proof.
  intros resp.
  destruct (Provider.ResourceData resp) as [|[data|]|] eqn:E; try discriminate E.
  exists data. split; [reflexivity|]. split; [reflexivity|].
  exact (proj1 (proj2 (Secret_on_Azure_passes_the_credential_test_without_credentials sound
                         partialBlock data (fun s => s) acceptingMore secretResource
                         azureSecretPlan None [] E eq_refl eq_refl))).
Defined.

(** X19: Create of a secret on GCP takes over a secret that is there
    already.  When the creation fails with an error whose text contains
    "Already exists" the handler goes on as if it had succeeded: it adds
    the plan's value as a new version of that secret and stores a record
    for it.  Any other creation error is reported and nothing more is
    called. *)
Theorem Secret_Create_on_GCP_takes_over_an_existing_secret
    (enc : string -> string) (backend : Wide.Backend MoreCall) (r : Secret.Resource)
    (plan : Attrs) (history : list (Wide.Event MoreCall)) :
  ValueString plan "type" = "gcp" -> Secret.gcp r = LiveClient ->
  let name := ValueString plan "name" in
  let parent := "projects/" ++ Secret.gcpProj r in
  let create := Secrets_Create parent name in
  let created := backend _ history create in
  let add := Secrets_AddVersion ("projects/" ++ Secret.gcpProj r ++ "/secrets/" ++ name)
               (enc (ValueString plan "value")) in
  let added := backend _ (history ++ [Wide.Answered create created])%list add in
  let out := Wide.run (Secret.Create enc plan) backend r None history in
  match created with
  | Err e =>
    if Contains e "Already exists"
    then Wide.calls out = [Wide.Answered create created; Wide.Answered add added]
         /\ match added with
            | Ok _ =>
              Wide.diagnostics out = []
              /\ Wide.record out
                 = Some (list_to_map [("id", VString (parent ++ "/secrets/" ++ name));
                                      ("name", VString name); ("type", VString "gcp")])
            | Err e' =>
              Wide.diagnostics out = [AddedError "gcp version" e'] /\ Wide.record out = None
            end
    else Wide.calls out = [Wide.Answered create created]
         /\ Wide.diagnostics out = [AddedError "gcp create" e]
         /\ Wide.record out = None
  | Ok _ =>
    Wide.calls out = [Wide.Answered create created; Wide.Answered add added]
    /\ match added with
       | Ok _ =>
         Wide.diagnostics out = []
         /\ Wide.record out
            = Some (list_to_map [("id", VString (parent ++ "/secrets/" ++ name));
                                 ("name", VString name); ("type", VString "gcp")])
       | Err e' =>
         Wide.diagnostics out = [AddedError "gcp version" e'] /\ Wide.record out = None
       end
  end.
Proof.
  intros Htype Hgcp. unfold Secret.Create. cbv zeta. rewrite Htype. cbn. rewrite Hgcp. cbn.
  destruct (backend _ history _) as [[]|e]; cbn.
  - destruct (backend _ (history ++ _)%list _) as [[]|e']; cbn; tidy_log; repeat split.
  - destruct (Contains e "Already exists"); cbn; [|tidy_log; repeat split].
    destruct (backend _ (history ++ _)%list _) as [[]|e']; cbn; tidy_log; repeat split.
Qed.

Lemma Secret_Create_over_an_existing_secret :
  let out := Wide.run (Secret.Create (fun s => s) gcpSecretPlan) existing secretResource
               None [] in
  Contains "googleapi: Error 409: Already exists" "Already exists" = true
  /\ Wide.diagnostics out = []
  /\ Wide.record out
     = Some (list_to_map [("id", VString "projects/proj/secrets/token");
                          ("name", VString "token"); ("type", VString "gcp")]).
Proof.
  intros out. split; [reflexivity|].
  exact (proj2 (Secret_Create_on_GCP_takes_over_an_existing_secret (fun s => s) existing
                  secretResource gcpSecretPlan [] eq_refl eq_refl)).
Defined.

(** X20: where Create puts a database on Azure.  When the provider has no
    location, the plan's size is taken for the location: the resource
    group and the server are made in the location named by [size], and the
    resource keeps it as its location.  The resource group is the first
    call, whatever the rest of the plan. *)
Theorem Database_on_Azure_takes_the_size_for_the_location
    (tl : Z -> Z) (fuel : nat) (backend : Wide.Backend MoreCall) (r : Database.Resource)
    (plan : Attrs) (history : list (Wide.Event MoreCall)) :
  ValueString plan "type" = "azure" ->
  Database.azureMySQL r = LiveClient -> Database.azurePG r = LiveClient ->
  Database.azureRG r = LiveClient ->
  let size := ValueString plan "size" in
  let loc := if Database.azureLoc r == "" then size else Database.azureLoc r in
  let out := Wide.run (Database.Create tl fuel plan) backend r None history in
  map requestMore (take 1 (Wide.calls out))
  = [AskedMore (Known (Azure (ResourceGroups_CreateOrUpdate "abstract-rg" loc)))]
  /\ Forall (fun l => l = loc) (omap moreLocationOf (Wide.calls out))
  /\ Database.azureLoc (Wide.self' out) = loc
  /\ forall rec, Wide.record out = Some rec ->
       ValueString rec "size" = (if size == "" then "Standard_B1ms" else size).
Proof.
  intros Htype Hmysql Hpg Hrg. unfold Database.Create, Database.nameOrClock. cbv zeta.
  rewrite Htype. cbn. rewrite Hmysql, Hpg, Hrg. cbn. destruct r; cbn.
  match goal with
  | |- context [?loc == ""] =>
    is_var loc; destruct (String.eqb_spec loc "") as [->|?];
    destruct (String.eqb_spec (ValueString plan "size") "") as [Hsize|?];
    rewrite ?Hsize
  end.
  all: execute backend; tidy_log; repeat split; try solve [repeat constructor].
  all: intros rec Hrec; first [discriminate Hrec | injection Hrec as <-; reflexivity].
Qed.

Lemma Database_in_the_location_Standard_B1ms :
  let out := Wide.run (Database.Create caseless 0 azureDatabasePlan) acceptingMore
               databaseResource None [] in
  Database.azureLoc databaseResource = ""
  /\ map requestMore (take 1 (Wide.calls out))
     = [AskedMore (Known (Azure (ResourceGroups_CreateOrUpdate "abstract-rg"
                                   "Standard_B1ms")))]
  /\ omap moreLocationOf (Wide.calls out)
     = ["Standard_B1ms"; "Standard_B1ms"; "Standard_B1ms"]
  /\ Wide.diagnostics out = [].
Proof.
  intros out. split; [reflexivity|].
  split; [|split; vm_compute; reflexivity].
  exact (proj1 (Database_on_Azure_takes_the_size_for_the_location caseless 0 acceptingMore
                  databaseResource azureDatabasePlan [] eq_refl eq_refl eq_refl eq_refl)).
Defined.

(** X21: Create of a database on Azure makes the resource group before it
    looks at the password and the engine.  With a name in the plan and the
    group granted, a run that finds AZURE_DB_PASSWORD empty, or an engine
    other than mysql, postgresql and postgres, has made the group and read
    the password, reports that one error, calls neither server client and
    stores nothing. *)
Theorem Database_on_Azure_makes_the_group_before_it_checks_the_plan
    (tl : Z -> Z) (fuel : nat) (backend : Wide.Backend MoreCall) (r : Database.Resource)
    (plan : Attrs) (history : list (Wide.Event MoreCall)) :
  ValueString plan "type" = "azure" ->
  Database.azureMySQL r = LiveClient -> Database.azurePG r = LiveClient ->
  Database.azureRG r = LiveClient ->
  ValueString plan "name" <> "" ->
  let size := ValueString plan "size" in
  let loc := if Database.azureLoc r == "" then size else Database.azureLoc r in
  let group := Known (Azure (ResourceGroups_CreateOrUpdate "abstract-rg" loc)) in
  let getenv := Known (Host (os_Getenv "AZURE_DB_PASSWORD")) in
  let password := backend _ (history ++ [Wide.Answered group (Ok tt)])%list getenv in
  let engine := GoStrings.ToLower tl (ValueString plan "engine") in
  let out := Wide.run (Database.Create tl fuel plan) backend r None history in
  backend _ history group = Ok tt ->
  password = "" \/ (engine <> "mysql" /\ engine <> "postgresql" /\ engine <> "postgres") ->
  Wide.calls out = [Wide.Answered group (Ok tt); Wide.Answered getenv password]
  /\ Wide.diagnostics out
     = [if password == "" then AddedError "missing password" "AZURE_DB_PASSWORD must be set"
        else AddedError "unsupported engine" engine]
  /\ Wide.record out = None.
Proof.
  intros Htype Hmysql Hpg Hrg Hname. apply String.eqb_neq in Hname.
  unfold Database.Create, Database.nameOrClock. cbv zeta.
  rewrite Htype. cbn. rewrite Hmysql, Hpg, Hrg, Hname. cbn. destruct r; cbn in *.
  match goal with
  | |- context [?loc == ""] =>
    is_var loc; destruct (String.eqb_spec loc "") as [->|?];
    destruct (String.eqb_spec (ValueString plan "size") "") as [Hsize|?];
    rewrite ?Hsize
  end.
  all: cbn; intros Hgroup; rewrite Hgroup; cbn.
  all: intros [Hpw|(Hm & Hp1 & Hp2)].
  all: try (rewrite Hpw; cbn; tidy_log; repeat split).
  all: apply String.eqb_neq in Hm, Hp1, Hp2.
  all: destruct (backend _ _ (Known (Host (os_Getenv "AZURE_DB_PASSWORD"))) == "") eqn:E;
    cbn; rewrite ?Hm, ?Hp1, ?Hp2; cbn; tidy_log; repeat split.
Qed.

Lemma Database_of_an_engine_that_is_not_offered :
  let out := Wide.run (Database.Create caseless 0 oraclePlan) acceptingMore databaseResource
               None [] in
  ValueString oraclePlan "name" <> ""
  /\ Wide.calls out
     = [Wide.Answered (Known (Azure (ResourceGroups_CreateOrUpdate "abstract-rg" ""))) (Ok tt);
        Wide.Answered (Known (Host (os_Getenv "AZURE_DB_PASSWORD"))) "hunter2"]
  /\ Wide.diagnostics out = [AddedError "unsupported engine" "oracle"]
  /\ Wide.record out = None.
Proof.
  intros out.
  assert (Hname : ValueString oraclePlan "name" <> "") by (vm_compute; discriminate).
  split; [exact Hname|].
  apply (Database_on_Azure_makes_the_group_before_it_checks_the_plan caseless 0 acceptingMore
           databaseResource oraclePlan [] eq_refl eq_refl eq_refl eq_refl Hname eq_refl).
  right. repeat split; vm_compute; discriminate.
Defined.

(** X22: Delete of a database on Azure tries the MySQL server of the
    recorded id first and the PostgreSQL server only when that fails.
    When the MySQL deletion succeeds no PostgreSQL call is made; the error
    of a failed MySQL deletion is never reported, only that of the
    PostgreSQL deletion that follows it. *)
Theorem Database_Delete_on_Azure_tries_MySQL_first
    (fuel : nat) (backend : Wide.Backend MoreCall) (r : Database.Resource)
    (state : Attrs) (prior : option Attrs) (history : list (Wide.Event MoreCall)) :
  ValueString state "type" = "azure" ->
  Database.azureMySQL r = LiveClient -> Database.azurePG r = LiveClient ->
  let id := ValueString state "id" in
  let begin := MySQL_BeginDelete "abstract-rg" id in
  let begun := backend _ history begin in
  let done := match begun with
              | Ok _ => backend _ (history ++ [Wide.Answered begin begun])%list
                          (Poller_PollUntilDone begin)
              | Err e => Err e
              end in
  let out := Wide.run (Database.Delete fuel state) backend r prior history in
  map requestMore (take 1 (Wide.calls out)) = [AskedMore begin]
  /\ match done with
     | Ok _ =>
       filter (fun e => onPostgres e = true) (Wide.calls out) = []
       /\ Wide.diagnostics out = []
     | Err _ =>
       (exists rest, map requestMore (filter (fun e => onPostgres e = true) (Wide.calls out))
                     = AskedMore (Postgres_BeginDelete "abstract-rg" id) :: rest)
       /\ Wide.diagnostics out
          = match last (Wide.calls out) ≫= postgresDeletionError with
            | Some e => [AddedError "azure delete" e]
            | None => []
            end
     end
  /\ Wide.record out = prior.
Proof.
  intros Htype Hmysql Hpg. unfold Database.Delete. cbv zeta. rewrite Htype. cbn.
  rewrite Hmysql, Hpg. cbn.
  destruct (backend _ history _) as [p|e]; cbn.
  - destruct (backend _ (history ++ _)%list _) as [a|e]; cbn.
    + tidy_log. repeat split.
    + repeat (answer backend; cbn); tidy_log; repeat split; eauto.
  - repeat (answer backend; cbn); tidy_log; repeat split; eauto.
Qed.

Lemma Database_Delete_of_a_PostgreSQL_server :
  let out := Wide.run (Database.Delete 0 azureDatabaseRecord) acceptingMore databaseResource
               (Some azureDatabaseRecord) [] in
  ValueString azureDatabaseRecord "engine" = "postgres"
  /\ filter (fun e => onPostgres e = true) (Wide.calls out) = []
  /\ Wide.diagnostics out = [].
Proof.
  intros out. split; [reflexivity|].
  exact (proj1 (proj2 (Database_Delete_on_Azure_tries_MySQL_first 0 acceptingMore
                         databaseResource azureDatabaseRecord (Some azureDatabaseRecord) []
                         eq_refl eq_refl eq_refl))).
Defined.

(** X23: Delete of a load balancer on Azure starts the deletion of the
    load balancer and then that of its public address, named after it,
    and waits for neither: these two calls are all it makes, the second
    whatever the first answers, and it reports the error of each. *)
Theorem LoadBalancer_Delete_on_Azure_starts_two_deletions_and_waits_for_none
    (backend : Wide.Backend MoreCall) (r : LoadBalancer.Resource) (state : Attrs)
    (prior : option Attrs) (history : list (Wide.Event MoreCall)) :
  ValueString state "type" = "azure" ->
  LoadBalancer.azureLB r = LiveClient -> LoadBalancer.azurePIP r = LiveClient ->
  let name := ValueString state "name" in
  let balancer := LoadBalancers_BeginDelete "abstract-rg" name in
  let address := PublicIPAddresses_BeginDelete "abstract-rg" (name ++ "-pip") in
  let first := backend _ history balancer in
  let second := backend _ (history ++ [Wide.Answered balancer first])%list address in
  let out := Wide.run (LoadBalancer.Delete state) backend r prior history in
  Wide.calls out = [Wide.Answered balancer first; Wide.Answered address second]
  /\ Wide.diagnostics out
     = (match first with Err e => [AddedError "azure delete lb" e] | Ok _ => [] end
        ++ match second with Err e => [AddedError "azure delete pip" e] | Ok _ => [] end)%list
  /\ Wide.record out = prior.
Proof.
  intros Htype Hlb Hpip. unfold LoadBalancer.Delete. cbv zeta. rewrite Htype. cbn.
  rewrite Hlb, Hpip. cbn.
  destruct (backend _ history _); cbn; destruct (backend _ (history ++ _)%list _); cbn;
    tidy_log; repeat split.
Qed.

Lemma LoadBalancer_Delete_while_the_address_is_in_use :
  let out := Wide.run (LoadBalancer.Delete azureBalancerRecord) inUse loadBalancerResource
               (Some azureBalancerRecord) [] in
  Wide.calls out
  = [Wide.Answered (LoadBalancers_BeginDelete "abstract-rg" "front") (Ok poller);
     Wide.Answered (PublicIPAddresses_BeginDelete "abstract-rg" "front-pip")
       (Err "PublicIPAddressInUse")]
  /\ Wide.diagnostics out = [AddedError "azure delete pip" "PublicIPAddressInUse"].
Proof.
  intros out.
  destruct (LoadBalancer_Delete_on_Azure_starts_two_deletions_and_waits_for_none inUse
              loadBalancerResource azureBalancerRecord (Some azureBalancerRecord) []
              eq_refl eq_refl eq_refl) as (Hcalls & Hdiag & _).
  exact (conj Hcalls Hdiag).
Defined.

(** X24: Create of a load balancer on Azure.  The load balancer is made
    with the id the creation of its public address answered, or with the
    empty id when it answered none.  Once the load balancer is made the
    address is looked up: when the lookup fails, or answers no properties
    or no IP address, Create reports "unable to get IP" and stores nothing,
    leaving the address and the load balancer in place. *)
Theorem LoadBalancer_Create_on_Azure_needs_the_address_at_once
    (backend : Wide.Backend MoreCall) (r : LoadBalancer.Resource) (plan : Attrs)
    (history : list (Wide.Event MoreCall)) :
  ValueString plan "type" = "azure" ->
  LoadBalancer.azureLB r = LiveClient -> LoadBalancer.azureRG r = LiveClient ->
  LoadBalancer.azurePIP r = LiveClient ->
  let out := Wide.run (LoadBalancer.Create plan) backend r None history in
  omap addressGiven (Wide.calls out)
  = map (fun made => default "" (ID made)) (omap addressMade (Wide.calls out))
  /\ forall shown, omap addressShown (Wide.calls out) = [shown] ->
       match shown with
       | Ok (Some (Some ip)) =>
         Wide.diagnostics out = []
         /\ exists rec, Wide.record out = Some rec /\ ValueString rec "ip_address" = ip
                        /\ ValueString rec "id" = ValueString plan "name"
       | _ =>
         Wide.diagnostics out = [AddedError "azure pip" "unable to get IP"]
         /\ Wide.record out = None
         /\ omap addressGiven (Wide.calls out) <> []
       end.
Proof.
  intros Htype Hlb Hrg Hpip. unfold LoadBalancer.Create. cbv zeta. rewrite Htype. cbn.
  rewrite Hlb, Hrg, Hpip. cbn. destruct r; cbn.
  match goal with
  | |- context [?loc == ""] =>
    is_var loc; destruct (String.eqb_spec loc "") as [->|?];
    destruct (String.eqb_spec (ValueString plan "region") "") as [Hregion|?];
    rewrite ?Hregion
  end.
  all: execute backend; tidy_log; (split; [reflexivity|]).
  all: intros shown Hshown; try discriminate Hshown.
  all: injection Hshown as <-; cbn; repeat split; eauto; discriminate.
Qed.

Lemma LoadBalancer_Create_before_the_address_is_assigned :
  let out := Wide.run (LoadBalancer.Create azureBalancerPlan) unassigned
               loadBalancerResource None [] in
  omap addressMade (Wide.calls out) = [{| ID := None |}]
  /\ omap addressGiven (Wide.calls out) = [""]
  /\ omap addressShown (Wide.calls out) = [Ok (Some None)]
  /\ Wide.diagnostics out = [AddedError "azure pip" "unable to get IP"]
  /\ Wide.record out = None.
Proof.
  intros out.
  assert (Hmade : omap addressMade (Wide.calls out) = [{| ID := None |}])
    by (vm_compute; reflexivity).
  assert (Hshown : omap addressShown (Wide.calls out) = [Ok (Some None)])
    by (vm_compute; reflexivity).
  destruct (LoadBalancer_Create_on_Azure_needs_the_address_at_once unassigned
              loadBalancerResource azureBalancerPlan [] eq_refl eq_refl eq_refl eq_refl)
    as [Hgiven Hlookup].
  fold out in Hgiven, Hlookup. rewrite Hmade in Hgiven.
  destruct (Hlookup _ Hshown) as (Hdiag & Hrec & _).
  repeat split; assumption.
Defined.

(** X25: Create of a serverless container on AWS registers a task
    definition and runs one task from it; Delete stops the recorded task
    and calls nothing else.  A registration that answers no task
    definition makes Create panic.  A run that fails, or answers no task,
    is the last call of Create: the error is reported, nothing is stored,
    and the task definition stays registered. *)
Theorem ServerlessContainer_on_AWS_leaves_the_task_definition
    (backend : Wide.Backend MoreCall) (r : ServerlessContainer.Resource)
    (plan state : Attrs) (prior : option Attrs) (history : list (Wide.Event MoreCall)) :
  ServerlessContainer.ecs r = LiveClient -> ServerlessContainer.ec2 r = LiveClient ->
  ValueString plan "type" = "aws" -> ValueString state "type" = "aws" ->
  let out := Wide.run (ServerlessContainer.Create plan) backend r None history in
  let deleted := Wide.run (ServerlessContainer.Delete state) backend r prior history in
  (forall registered, omap definitionRegistered (Wide.calls out) = [registered] ->
     match registered with
     | Err e =>
       Wide.diagnostics out = [AddedError "aws register" e] /\ Wide.record out = None
       /\ omap taskRun (Wide.calls out) = []
     | Ok None =>
       Wide.flow out = Panicked /\ Wide.diagnostics out = [] /\ Wide.record out = None
     | Ok (Some arn) =>
       exists ran,
         omap taskRun (Wide.calls out) = [(aws_ToString arn, ran)]
         /\ List.length (Wide.calls out) = 3%nat
         /\ match ran with
            | Ok (task :: _) =>
              Wide.diagnostics out = []
              /\ exists rec, Wide.record out = Some rec
                             /\ ValueString rec "id" = aws_ToString task
            | Ok [] =>
              Wide.diagnostics out = [AddedError "aws run" "no task returned"]
              /\ Wide.record out = None
            | Err e =>
              Wide.diagnostics out = [AddedError "aws run" e] /\ Wide.record out = None
            end
     end)
  /\ map requestMore (Wide.calls deleted)
     = [AskedMore (ECS_StopTask "default" (ValueString state "id"))].
Proof.
  intros Hecs Hec2 Hplan Hstate. cbv zeta. split.
  - unfold ServerlessContainer.Create. cbv zeta. rewrite Hplan. cbn. rewrite Hecs, Hec2. cbn.
    execute backend; tidy_log; intros registered Hreg; try discriminate Hreg.
    all: injection Hreg as <-; cbn; repeat split; eauto 8.
  - unfold ServerlessContainer.Delete. cbv zeta. rewrite Hstate. cbn. rewrite Hecs. cbn.
    destruct (backend _ history _); cbn; tidy_log; reflexivity.
Qed.

Lemma ServerlessContainer_without_capacity :
  let out := Wide.run (ServerlessContainer.Create awsContainerPlan) noCapacity
               containerResource None [] in
  omap definitionRegistered (Wide.calls out) = [Ok (Some (Some "arn:aws:ecs:td/web"))]
  /\ omap taskRun (Wide.calls out) = [("arn:aws:ecs:td/web", Ok [])]
  /\ List.length (Wide.calls out) = 3%nat
  /\ Wide.diagnostics out = [AddedError "aws run" "no task returned"]
  /\ Wide.record out = None.
Proof.
  intros out.
  assert (Hreg : omap definitionRegistered (Wide.calls out)
                 = [Ok (Some (Some "arn:aws:ecs:td/web"))]) by (vm_compute; reflexivity).
  destruct (proj1 (ServerlessContainer_on_AWS_leaves_the_task_definition noCapacity
                     containerResource awsContainerPlan awsContainerRecord None []
                     eq_refl eq_refl eq_refl eq_refl) _ Hreg)
    as (ran & Hran & Hlen & Hout).
  fold out in Hran, Hlen, Hout.
  assert (Hran' : omap taskRun (Wide.calls out) = [("arn:aws:ecs:td/web", Ok [])])
    by (vm_compute; reflexivity).
  rewrite Hran' in Hran. injection Hran as <-.
  destruct Hout as [Hdiag Hrec]. repeat split; assumption.
Defined.

(** X26: Create of a serverless container on Azure reads the id of the
    group it has just made through a pointer it does not test: when the
    lookup answers a group without an id Create panics, with the group
    made, no diagnostic and nothing stored.  With an id, the record stores
    it, and the group's IP address or the empty string when the group
    shows none. *)
Theorem ServerlessContainer_on_Azure_panics_on_a_group_without_id
    (backend : Wide.Backend MoreCall) (r : ServerlessContainer.Resource) (plan : Attrs)
    (history : list (Wide.Event MoreCall)) :
  ServerlessContainer.azureCI r = LiveClient -> ServerlessContainer.azureRG r = LiveClient ->
  ValueString plan "type" = "azure" ->
  let out := Wide.run (ServerlessContainer.Create plan) backend r None history in
  forall group, omap groupShown (Wide.calls out) = [group] ->
    match ContainerGroup_ID group with
    | None =>
      Wide.flow out = Panicked /\ Wide.diagnostics out = [] /\ Wide.record out = None
    | Some id =>
      Wide.diagnostics out = []
      /\ exists rec, Wide.record out = Some rec
           /\ ValueString rec "id" = id
           /\ ValueString rec "ip_address"
              = match ContainerGroup_Properties group with
                | Some (Some (Some ip)) => ip
                | _ => ""
                end
    end.
Proof.
  intros Hci Hrg Htype. unfold ServerlessContainer.Create. cbv zeta. rewrite Htype. cbn.
  rewrite Hci, Hrg. cbn. destruct r; cbn.
  match goal with
  | |- context [?loc == ""] =>
    is_var loc; destruct (String.eqb_spec loc "") as [->|?];
    destruct (String.eqb_spec (ValueString plan "region") "") as [Hregion|?];
    rewrite ?Hregion
  end.
  all: execute backend.
  all: repeat match goal with
              | |- context [ContainerGroup_ID ?x] => is_var x; destruct x as [[?|] ?]; cbn
              end.
  all: tidy_log; intros group Hgroup; try discriminate Hgroup.
  all: injection Hgroup as <-; cbn; repeat split; eauto.
Qed.

Lemma ServerlessContainer_made_without_an_id :
  let out := Wide.run (ServerlessContainer.Create azureContainerPlan) nameless
               containerResource None [] in
  omap groupShown (Wide.calls out)
  = [{| ContainerGroup_ID := None; ContainerGroup_Properties := None |}]
  /\ Wide.flow out = Panicked /\ Wide.record out = None.
Proof.
  intros out.
  assert (Hgroup : omap groupShown (Wide.calls out)
                   = [{| ContainerGroup_ID := None; ContainerGroup_Properties := None |}])
    by (vm_compute; reflexivity).
  destruct (ServerlessContainer_on_Azure_panics_on_a_group_without_id nameless
              containerResource azureContainerPlan [] eq_refl eq_refl eq_refl _ Hgroup)
    as (Hflow & _ & Hrec).
  repeat split; assumption.
Defined.

(** X27: the clouds the further resources do not offer.  A load balancer
    and a serverless container exist on aws and azure only: for gcp their
    Create reports "gcp ... not implemented", for any other tag
    "unsupported cloud".  A secret and a database refuse every tag but
    aws, azure and gcp.  In each case Create makes no call and stores
    nothing, while Read and Delete of a record with such a tag return
    without a call, a diagnostic or a change to the record. *)
Theorem further_resources_on_a_cloud_they_do_not_offer
    (enc : string -> string) (tl : Z -> Z) (fuel : nat) (backend : Wide.Backend MoreCall)
    (attrs : Attrs) (prior : option Attrs) (history : list (Wide.Event MoreCall)) :
  let tag := ValueString attrs "type" in
  tag <> "aws" -> tag <> "azure" ->
  let summary := if tag == "gcp" then "gcp" else "unsupported cloud" in
  (forall r,
     declines (Wide.run (LoadBalancer.Create attrs) backend r prior history) r prior summary
     /\ idles (Wide.run (LoadBalancer.Read attrs) backend r prior history) r prior
     /\ idles (Wide.run (LoadBalancer.Delete attrs) backend r prior history) r prior)
  /\ (forall r,
        declines (Wide.run (ServerlessContainer.Create attrs) backend r prior history) r prior
          summary
        /\ idles (Wide.run (ServerlessContainer.Read attrs) backend r prior history) r prior
        /\ idles (Wide.run (ServerlessContainer.Delete attrs) backend r prior history) r prior)
  /\ (tag <> "gcp" ->
      (forall r,
         declines (Wide.run (Secret.Create enc attrs) backend r prior history) r prior
           "unsupported cloud"
         /\ idles (Wide.run (Secret.Read attrs) backend r prior history) r prior
         /\ idles (Wide.run (Secret.Delete attrs) backend r prior history) r prior)
      /\ (forall r,
            declines (Wide.run (Database.Create tl fuel attrs) backend r prior history) r prior
              "unsupported cloud"
            /\ idles (Wide.run (Database.Read attrs) backend r prior history) r prior
            /\ idles (Wide.run (Database.Delete fuel attrs) backend r prior history) r prior)).
Proof.
  cbv zeta. intros Haws Hazure. apply String.eqb_neq in Haws, Hazure.
  unfold declines, idles.
  unfold LoadBalancer.Create, LoadBalancer.Read, LoadBalancer.Delete,
    ServerlessContainer.Create, ServerlessContainer.Read, ServerlessContainer.Delete,
    Secret.Create, Secret.Read, Secret.Delete,
    Database.Create, Database.Read, Database.Delete.
  cbv zeta. rewrite Haws, Hazure.
  destruct (ValueString attrs "type" == "gcp") eqn:Hgcp; (split; [|split]).
  all: try solve [intros r; cbn; rewrite ?drop_all; repeat split; eauto].
  intros Hne. apply String.eqb_neq in Hne. congruence.
Qed.

Lemma LoadBalancer_on_GCP :
  declines (Wide.run (LoadBalancer.Create gcpBalancerPlan) acceptingMore loadBalancerResource
              None []) loadBalancerResource None "gcp"
  /\ idles (Wide.run (LoadBalancer.Delete gcpBalancerPlan) acceptingMore loadBalancerResource
              (Some gcpBalancerPlan) []) loadBalancerResource (Some gcpBalancerPlan).
Proof.
  assert (Haws : ValueString gcpBalancerPlan "type" <> "aws") by (vm_compute; discriminate).
  assert (Hazure : ValueString gcpBalancerPlan "type" <> "azure")
    by (vm_compute; discriminate).
  split.
  - exact (proj1 (proj1 (further_resources_on_a_cloud_they_do_not_offer (fun s => s) caseless
                           0 acceptingMore gcpBalancerPlan None [] Haws Hazure)
                    loadBalancerResource)).
  - exact (proj2 (proj2 (proj1 (further_resources_on_a_cloud_they_do_not_offer (fun s => s)
                                  caseless 0 acceptingMore gcpBalancerPlan
                                  (Some gcpBalancerPlan) [] Haws Hazure)
                           loadBalancerResource))).
Defined.

(** Delete and Create of a secret come back to their caller, with the
    resource as it was and the log grown. *)
Lemma Secret_Delete_comes_back backend r state history :
  exists f ds new,
    Secret.Delete state backend (Wide.MkCtx r None [] history)
    = (f, Wide.MkCtx r None ds (history ++ new)%list)
    /\ finished f = true.
Proof.
  unfold Secret.Delete.
  execute backend;
    first [ do 2 eexists; exists []; rewrite app_nil_r; split; reflexivity
          | do 3 eexists; split; [rewrite <- ?app_assoc; reflexivity | reflexivity] ].
Qed.

Lemma Secret_Create_comes_back enc backend r plan history :
  exists f st ds new,
    Secret.Create enc plan backend (Wide.MkCtx r None [] history)
    = (f, Wide.MkCtx r st ds (history ++ new)%list)
    /\ finished f = true.
Proof.
  unfold Secret.Create.
  execute backend;
    first [ do 3 eexists; exists []; rewrite app_nil_r; split; reflexivity
          | do 4 eexists; split; [rewrite <- ?app_assoc; reflexivity | reflexivity] ].
Qed.

(** X28: Update of a secret is a Delete under the stored record followed,
    unless the Delete reported an error, by a Create under the plan.  The
    calls and diagnostics are theirs; the record Create would store is
    dropped with its response, so the stored record stays as it was, with
    the id and the name of the secret that was deleted. *)
Theorem Secret_Update_replaces_the_secret_and_keeps_the_record
    (enc : string -> string) (backend : Wide.Backend MoreCall) (r : Secret.Resource)
    (plan state : Attrs) (prior : option Attrs) (history : list (Wide.Event MoreCall)) :
  let deleted := Wide.run (Secret.Delete state) backend r None history in
  let created := Wide.run (Secret.Create enc plan) backend r None
                   (history ++ Wide.calls deleted)%list in
  let out := Wide.run (Secret.Update enc plan state) backend r prior history in
  Wide.record out = prior
  /\ if HasError (Wide.diagnostics deleted)
     then Wide.calls out = Wide.calls deleted
          /\ Wide.diagnostics out = Wide.diagnostics deleted
     else Wide.calls out = (Wide.calls deleted ++ Wide.calls created)%list
          /\ Wide.diagnostics out = Wide.diagnostics created.
Proof.
  cbv zeta. unfold Secret.Update. cbn.
  destruct (Secret_Delete_comes_back backend r state history)
    as (f & ds & new & -> & Hf).
  cbn. rewrite drop_app_length.
  destruct (Secret_Create_comes_back enc backend r plan (history ++ new))
    as (f' & st' & ds' & new' & Hcreate & Hf').
  rewrite ?Hcreate.
  destruct f; try discriminate Hf; cbn; destruct (HasError ds) eqn:Hds; cbn;
    rewrite ?drop_app_length; try (repeat split; reflexivity).
  all: rewrite ?Hcreate; destruct f'; try discriminate Hf'; cbn.
  all: rewrite <- ?app_assoc, ?drop_app_length.
  all: destruct ds; try discriminate Hds; repeat split; reflexivity.
Qed.

Lemma Secret_Update_to_a_new_name :
  let out := Wide.run (Secret.Update (fun s => s) renamedSecretPlan awsSecretRecord)
               acceptingMore secretResource (Some awsSecretRecord) [] in
  map requestMore (Wide.calls out)
  = [AskedMore (SecretsManager_DeleteSecret "token" true);
     AskedMore (SecretsManager_CreateSecret "api-token" "s3cr3t")]
  /\ Wide.diagnostics out = []
  /\ Wide.record out = Some awsSecretRecord.
Proof.
  intros out.
  destruct (Secret_Update_replaces_the_secret_and_keeps_the_record (fun s => s) acceptingMore
              secretResource renamedSecretPlan awsSecretRecord (Some awsSecretRecord) [])
    as [Hrec Hrest].
  split; [vm_compute; reflexivity|]. split; [vm_compute; reflexivity | exact Hrec].
Defined.
